(** * UART protocol decoder (libsigrokdecode [uart/pd.py])

    A shallow embedding of the decoder. Python integers are [Z], Python
    floats are the primitive binary64 [float]s, strings are [string]s, and
    the two-element per-line lists are pairs indexed by the line. The
    level of a pin is a [bool]; where the code uses it as a number (0 or
    1, [False] or [True] after [not signal]) it is [Z.b2z] of the level.
    The methods of the [Decoder] object are computations in a small
    state-and-exception monad over the object's attributes; what the
    object hands to the host through [self.put] and asks of it through
    [self.wait] is recorded in two lists next to the attributes. *)

From Stdlib Require Import ZArith Lia List String Ascii Bool.
From Stdlib Require Import PrimFloat SpecFloat FloatOps.
From Stdlib Require Import QArith Qround.
Import ListNotations.
Open Scope Z_scope.

(** ** Python values the decoder relies on *)

Module Py.

(** Exceptions the modelled code can raise. *)
Inductive exn : Type :=
| SamplerateError (msg : string)
| ChannelError (msg : string)
| AttributeError (attr : string)
| OverflowError
| ValueError
| ZeroDivisionError
| IndexError.

Inductive outcome (A : Type) : Type :=
| Ok (a : A)
| Raise (e : exn).
Arguments Ok {A} a.
Arguments Raise {A} e.

(** [float(z)]: round to nearest even, [OverflowError] beyond the range. *)
Definition float_of_int (z : Z) : outcome float :=
  match binary_normalize prec emax z 0 false with
  | S754_infinity _ => Raise OverflowError
  | sf => Ok (SF2Prim sf)
  end.

(** [math.floor(f)], [math.ceil(f)] and [int(f)] return exact integers;
    a NaN raises [ValueError], an infinity [OverflowError]. A finite
    float is [(-1)^s * m * 2^e]; [Z.shiftl] by a negative amount is the
    division by a power of two rounding down. *)
Definition floor (f : float) : outcome Z :=
  match Prim2SF f with
  | S754_zero _ => Ok 0
  | S754_finite s m e =>
      Ok (if s then Z.shiftl (Zneg m) e else Z.shiftl (Zpos m) e)
  | S754_infinity _ => Raise OverflowError
  | S754_nan => Raise ValueError
  end.

Definition ceil (f : float) : outcome Z :=
  match Prim2SF f with
  | S754_zero _ => Ok 0
  | S754_finite s m e =>
      Ok (if s then - Z.shiftl (Zpos m) e else - Z.shiftl (Zneg m) e)
  | S754_infinity _ => Raise OverflowError
  | S754_nan => Raise ValueError
  end.

Definition int_of_float (f : float) : outcome Z :=
  match Prim2SF f with
  | S754_zero _ => Ok 0
  | S754_finite s m e =>
      Ok (if s then - Z.shiftl (Zpos m) e else Z.shiftl (Zpos m) e)
  | S754_infinity _ => Raise OverflowError
  | S754_nan => Raise ValueError
  end.

(** Digits of the format characters [d], [X], [o] and [b]. *)
Definition digit_char (d : Z) : ascii :=
  match d with
  | 0 => "0" | 1 => "1" | 2 => "2" | 3 => "3" | 4 => "4" | 5 => "5"
  | 6 => "6" | 7 => "7" | 8 => "8" | 9 => "9" | 10 => "A" | 11 => "B"
  | 12 => "C" | 13 => "D" | 14 => "E" | 15 => "F" | _ => "?"
  end%char.

(** The numeral of [n >= 0] in [base], most significant digit first,
    pushed in front of [acc]. *)
Fixpoint digits_aux (fuel : nat) (base n : Z) (acc : string) : string :=
  match fuel with
  | O => acc
  | S fuel' =>
      let acc' := String (digit_char (n mod base)) acc in
      if n / base =? 0 then acc' else digits_aux fuel' base (n / base) acc'
  end.

Definition digits (base n : Z) : string :=
  digits_aux (S (Z.to_nat (Z.log2 n))) base n EmptyString.

Fixpoint zeros (k : nat) (s : string) : string :=
  match k with
  | O => s
  | S k' => String "0" (zeros k' s)
  end.

Definition zero_pad (width : nat) (s : string) : string :=
  zeros (width - String.length s) s.

(** ["{:0<width><c>}".format(v)] for an integer [v]: the sign comes
    first and the zeros fill up to [width] characters in all;
    ["{:d}"] is the case [width = 0]. *)
Definition format_int (base : Z) (width : nat) (v : Z) : string :=
  if v <? 0 then String "-" (zero_pad (width - 1) (digits base (- v)))
  else zero_pad width (digits base v).

(** [chr(v)] for a code point below 128. *)
Definition chr (v : Z) : string :=
  String (ascii_of_N (Z.to_N v)) EmptyString.

(** [bin(v)]. *)
Definition bin (v : Z) : string :=
  if v <? 0 then ("-0b" ++ digits 2 (- v))%string
  else ("0b" ++ digits 2 v)%string.

(** [s.count(c)] for a one-character [c]. *)
Fixpoint count (c : ascii) (s : string) : Z :=
  match s with
  | EmptyString => 0
  | String a s' => (if Ascii.eqb a c then 1 else 0) + count c s'
  end.

(** [v.to_bytes(length, byteorder='big')]. *)
Fixpoint bytes_le (k : nat) (v : Z) : list Z :=
  match k with
  | O => []
  | S k' => v mod 256 :: bytes_le k' (v / 256)
  end.

Definition to_bytes_big (v length : Z) : outcome (list Z) :=
  if length <? 0 then Raise ValueError
  else if (v <? 0) || (256 ^ length <=? v) then Raise OverflowError
  else Ok (rev (bytes_le (Z.to_nat length) v)).

End Py.
Import Py.

(** ** The numbers a reader of the output recovers *)

(** Value of an upper-case digit, from its character code: ['0'] is 48
    and ['A'] is 65. *)
Definition digit_value (c : ascii) : option Z :=
  let code := Z.of_N (N_of_ascii c) in
  if (48 <=? code) && (code <=? 57) then Some (code - 48)
  else if (65 <=? code) && (code <=? 70) then Some (code - 55)
  else None.

(** Reading a numeral in [base], left to right; [None] on a character that
    is not an upper-case digit of the base. *)
Fixpoint parse_from (base acc : Z) (s : string) : option Z :=
  match s with
  | EmptyString => Some acc
  | String c s' =>
      match digit_value c with
      | Some d => if d <? base then parse_from base (acc * base + d) s' else None
      | None => None
      end
  end.

Definition parse_base (base : Z) (s : string) : option Z :=
  match s with
  | EmptyString => None
  | _ => parse_from base 0 s
  end.

(** Number of set bits of the magnitude of an integer. *)
Fixpoint popcount_pos (p : positive) : Z :=
  match p with
  | xH => 1
  | xO q => popcount_pos q
  | xI q => 1 + popcount_pos q
  end.

Definition popcount (z : Z) : Z :=
  match z with
  | Z0 => 0
  | Zpos p | Zneg p => popcount_pos p
  end.

(** ** [parity_ok] *)

(** [None] is Python's [None], returned when no branch is taken. *)
Definition parity_ok (parity_type : string) (parity_bit data num_data_bits : Z)
  : option bool :=
  if String.eqb parity_type "zero" then Some (parity_bit =? 0)
  else if String.eqb parity_type "one" then Some (parity_bit =? 1)
  else
    let ones := count "1" (bin data) + parity_bit in
    if String.eqb parity_type "odd" then Some (ones mod 2 =? 1)
    else if String.eqb parity_type "even" then Some (ones mod 2 =? 0)
    else None.

(** ** Lines, options and the decoder object *)

(** The two data directions; [line_id] is the integer the code uses
    ([RX = 0], [TX = 1]). *)
Inductive line : Type := RX | TX.

Definition line_id (rxtx : line) : Z :=
  match rxtx with RX => 0 | TX => 1 end.

(** A two-element list indexed by the line. *)
Definition per_line (A : Type) : Type := (A * A)%type.

Definition sel {A : Type} (a : per_line A) (rxtx : line) : A :=
  match rxtx with RX => fst a | TX => snd a end.

Definition upd {A : Type} (a : per_line A) (rxtx : line) (v : A) : per_line A :=
  match rxtx with RX => (v, snd a) | TX => (fst a, v) end.

Record Options : Type := mkOptions {
  baudrate : Z;
  num_data_bits : Z;
  parity_type : string;
  parity_check : string;
  num_stop_bits : float;
  bit_order : string;
  format : string;
  invert_rx : string;
  invert_tx : string
}.

(** The ['values'] tuples of [Decoder.options]. *)
Definition num_data_bits_values : list Z := [5; 6; 7; 8; 9].
Definition parity_type_values : list string :=
  ["none"; "odd"; "even"; "zero"; "one"]%string.
Definition parity_check_values : list string := ["yes"; "no"]%string.
Definition num_stop_bits_values : list float := [0.0; 0.5; 1.0; 1.5]%float.
Definition bit_order_values : list string := ["lsb-first"; "msb-first"]%string.
Definition format_values : list string :=
  ["ascii"; "dec"; "hex"; "oct"; "bin"]%string.

(** The ['default'] entries. *)
Definition default_options : Options :=
  mkOptions 115200 8 "none" "yes" 1.0%float "lsb-first" "hex" "no" "no".

Definition with_parity_check (o : Options) (v : string) : Options :=
  mkOptions (baudrate o) (num_data_bits o) (parity_type o) v (num_stop_bits o)
    (bit_order o) (format o) (invert_rx o) (invert_tx o).

Definition with_num_stop_bits (o : Options) (v : float) : Options :=
  mkOptions (baudrate o) (num_data_bits o) (parity_type o) (parity_check o) v
    (bit_order o) (format o) (invert_rx o) (invert_tx o).

Definition with_format (o : Options) (v : string) : Options :=
  mkOptions (baudrate o) (num_data_bits o) (parity_type o) (parity_check o)
    (num_stop_bits o) (bit_order o) v (invert_rx o) (invert_tx o).

Inductive state_name : Type :=
| WAIT_FOR_START_BIT
| GET_START_BIT
| GET_DATA_BITS
| GET_PARITY_BIT
| GET_STOP_BITS.

(** What the decoder hands to [self.put]. *)
Inductive output_type : Type := OUTPUT_ANN | OUTPUT_PYTHON | OUTPUT_BINARY.

Inductive pdata : Type :=
| PInt (v : Z)
| PData (value : Z) (bits : list (Z * Z * Z))
| PTuple (a b : Z).

Inductive data : Type :=
| Packet (ptype : string) (rxtx : Z) (pd : pdata)
| Annotation (cls : Z) (texts : list string)
| Binary (cls : Z) (bytes : list Z).

Record emitted : Type := mkEmitted {
  ss : Z;
  es : Z;
  output : output_type;
  payload : data
}.

(** Conditions for [self.wait]. *)
Inductive edge : Type := Rising | Falling.

Inductive cond : Type :=
| Edge (rxtx : line) (e : edge)
| Skip (n : Z).

(** The attributes of the [Decoder] object. [bit_width] and [bw] do not
    exist before [metadata] and [start] have run. [samplenum] and
    [matched] are written by the host in [wait]. The last two fields are
    not attributes: [out] lists the calls of [self.put] and [waits] the
    calls of [self.wait], in order. *)
Record Decoder : Type := mkDecoder {
  samplerate : option Z;
  bit_width : option float;
  bw : option Z;
  samplenum : Z;
  matched : list bool;
  frame_start : per_line Z;
  startbit : per_line Z;
  cur_data_bit : per_line Z;
  datavalue : per_line Z;
  paritybit : per_line Z;
  stopbit1 : per_line Z;
  startsample : per_line Z;
  state : per_line state_name;
  databits : per_line (list (Z * Z * Z));
  out : list emitted;
  waits : list (list cond)
}.

Definition set_samplerate (v : option Z) (d : Decoder) : Decoder :=
  mkDecoder v (bit_width d) (bw d) (samplenum d) (matched d) (frame_start d)
    (startbit d) (cur_data_bit d) (datavalue d) (paritybit d) (stopbit1 d)
    (startsample d) (state d) (databits d) (out d) (waits d).

Definition set_bit_width (v : option float) (d : Decoder) : Decoder :=
  mkDecoder (samplerate d) v (bw d) (samplenum d) (matched d) (frame_start d)
    (startbit d) (cur_data_bit d) (datavalue d) (paritybit d) (stopbit1 d)
    (startsample d) (state d) (databits d) (out d) (waits d).

Definition set_bw (v : option Z) (d : Decoder) : Decoder :=
  mkDecoder (samplerate d) (bit_width d) v (samplenum d) (matched d)
    (frame_start d) (startbit d) (cur_data_bit d) (datavalue d) (paritybit d)
    (stopbit1 d) (startsample d) (state d) (databits d) (out d) (waits d).

Definition set_samplenum (v : Z) (d : Decoder) : Decoder :=
  mkDecoder (samplerate d) (bit_width d) (bw d) v (matched d) (frame_start d)
    (startbit d) (cur_data_bit d) (datavalue d) (paritybit d) (stopbit1 d)
    (startsample d) (state d) (databits d) (out d) (waits d).

Definition set_matched (v : list bool) (d : Decoder) : Decoder :=
  mkDecoder (samplerate d) (bit_width d) (bw d) (samplenum d) v (frame_start d)
    (startbit d) (cur_data_bit d) (datavalue d) (paritybit d) (stopbit1 d)
    (startsample d) (state d) (databits d) (out d) (waits d).

Definition set_frame_start (rxtx : line) (v : Z) (d : Decoder) : Decoder :=
  mkDecoder (samplerate d) (bit_width d) (bw d) (samplenum d) (matched d)
    (upd (frame_start d) rxtx v) (startbit d) (cur_data_bit d) (datavalue d)
    (paritybit d) (stopbit1 d) (startsample d) (state d) (databits d) (out d)
    (waits d).

Definition set_startbit (rxtx : line) (v : Z) (d : Decoder) : Decoder :=
  mkDecoder (samplerate d) (bit_width d) (bw d) (samplenum d) (matched d)
    (frame_start d) (upd (startbit d) rxtx v) (cur_data_bit d) (datavalue d)
    (paritybit d) (stopbit1 d) (startsample d) (state d) (databits d) (out d)
    (waits d).

Definition set_cur_data_bit (rxtx : line) (v : Z) (d : Decoder) : Decoder :=
  mkDecoder (samplerate d) (bit_width d) (bw d) (samplenum d) (matched d)
    (frame_start d) (startbit d) (upd (cur_data_bit d) rxtx v) (datavalue d)
    (paritybit d) (stopbit1 d) (startsample d) (state d) (databits d) (out d)
    (waits d).

Definition set_datavalue (rxtx : line) (v : Z) (d : Decoder) : Decoder :=
  mkDecoder (samplerate d) (bit_width d) (bw d) (samplenum d) (matched d)
    (frame_start d) (startbit d) (cur_data_bit d) (upd (datavalue d) rxtx v)
    (paritybit d) (stopbit1 d) (startsample d) (state d) (databits d) (out d)
    (waits d).

Definition set_paritybit (rxtx : line) (v : Z) (d : Decoder) : Decoder :=
  mkDecoder (samplerate d) (bit_width d) (bw d) (samplenum d) (matched d)
    (frame_start d) (startbit d) (cur_data_bit d) (datavalue d)
    (upd (paritybit d) rxtx v) (stopbit1 d) (startsample d) (state d)
    (databits d) (out d) (waits d).

Definition set_stopbit1 (rxtx : line) (v : Z) (d : Decoder) : Decoder :=
  mkDecoder (samplerate d) (bit_width d) (bw d) (samplenum d) (matched d)
    (frame_start d) (startbit d) (cur_data_bit d) (datavalue d) (paritybit d)
    (upd (stopbit1 d) rxtx v) (startsample d) (state d) (databits d) (out d)
    (waits d).

Definition set_startsample (rxtx : line) (v : Z) (d : Decoder) : Decoder :=
  mkDecoder (samplerate d) (bit_width d) (bw d) (samplenum d) (matched d)
    (frame_start d) (startbit d) (cur_data_bit d) (datavalue d) (paritybit d)
    (stopbit1 d) (upd (startsample d) rxtx v) (state d) (databits d) (out d)
    (waits d).

Definition set_state (rxtx : line) (v : state_name) (d : Decoder) : Decoder :=
  mkDecoder (samplerate d) (bit_width d) (bw d) (samplenum d) (matched d)
    (frame_start d) (startbit d) (cur_data_bit d) (datavalue d) (paritybit d)
    (stopbit1 d) (startsample d) (upd (state d) rxtx v) (databits d) (out d)
    (waits d).

Definition set_databits (rxtx : line) (v : list (Z * Z * Z)) (d : Decoder)
  : Decoder :=
  mkDecoder (samplerate d) (bit_width d) (bw d) (samplenum d) (matched d)
    (frame_start d) (startbit d) (cur_data_bit d) (datavalue d) (paritybit d)
    (stopbit1 d) (startsample d) (state d) (upd (databits d) rxtx v) (out d)
    (waits d).

Definition set_out (v : list emitted) (d : Decoder) : Decoder :=
  mkDecoder (samplerate d) (bit_width d) (bw d) (samplenum d) (matched d)
    (frame_start d) (startbit d) (cur_data_bit d) (datavalue d) (paritybit d)
    (stopbit1 d) (startsample d) (state d) (databits d) v (waits d).

Definition set_waits (v : list (list cond)) (d : Decoder) : Decoder :=
  mkDecoder (samplerate d) (bit_width d) (bw d) (samplenum d) (matched d)
    (frame_start d) (startbit d) (cur_data_bit d) (datavalue d) (paritybit d)
    (stopbit1 d) (startsample d) (state d) (databits d) (out d) v.

(** ** Methods as computations over the object *)

(** A method runs on the object and leaves it changed, also when it
    raises. *)
Definition M (A : Type) : Type := Decoder -> outcome A * Decoder.

Definition ret {A : Type} (a : A) : M A := fun d => (Ok a, d).

Definition bind {A B : Type} (m : M A) (k : A -> M B) : M B :=
  fun d =>
    match m d with
    | (Ok a, d') => k a d'
    | (Raise e, d') => (Raise e, d')
    end.

Definition raise {A : Type} (e : exn) : M A := fun d => (Raise e, d).

Definition lift {A : Type} (r : outcome A) : M A := fun d => (r, d).

Definition gets {A : Type} (f : Decoder -> A) : M A := fun d => (Ok (f d), d).

Definition modify (f : Decoder -> Decoder) : M unit := fun d => (Ok tt, f d).

(** Reading an attribute that may not exist yet. *)
Definition attr {A : Type} (name : string) (f : Decoder -> option A) : M A :=
  fun d =>
    match f d with
    | Some a => (Ok a, d)
    | None => (Raise (AttributeError name), d)
    end.

Declare Scope decoder_scope.
Delimit Scope decoder_scope with dec.
Notation "x <- m ;; k" := (bind m (fun x => k))
  (at level 61, m at next level, right associativity) : decoder_scope.
Notation "m ;; k" := (bind m (fun _ => k))
  (at level 61, right associativity) : decoder_scope.
Open Scope decoder_scope.

(** [self.put(ss, es, output_id, data)]; an output id is identified with
    the output type it was registered for. *)
Definition put (s e : Z) (ot : output_type) (dat : data) : M unit :=
  modify (fun d => set_out (out d ++ [mkEmitted s e ot dat]) d).

Definition putx (rxtx : line) (dat : data) : M unit :=
  s <- gets (fun d => sel (startsample d) rxtx) ;;
  w <- attr "bit_width" bit_width ;;
  let halfbit := (w / 2)%float in
  lo <- lift (floor halfbit) ;;
  n <- gets samplenum ;;
  hi <- lift (ceil halfbit) ;;
  put (s - lo) (n + hi) OUTPUT_ANN dat.

Definition putpx (rxtx : line) (dat : data) : M unit :=
  s <- gets (fun d => sel (startsample d) rxtx) ;;
  w <- attr "bit_width" bit_width ;;
  let halfbit := (w / 2)%float in
  lo <- lift (floor halfbit) ;;
  n <- gets samplenum ;;
  hi <- lift (ceil halfbit) ;;
  put (s - lo) (n + hi) OUTPUT_PYTHON dat.

Definition putg (dat : data) : M unit :=
  s <- gets samplenum ;;
  w <- attr "bit_width" bit_width ;;
  let halfbit := (w / 2)%float in
  lo <- lift (floor halfbit) ;;
  hi <- lift (ceil halfbit) ;;
  put (s - lo) (s + hi) OUTPUT_ANN dat.

Definition putp (dat : data) : M unit :=
  s <- gets samplenum ;;
  w <- attr "bit_width" bit_width ;;
  let halfbit := (w / 2)%float in
  lo <- lift (floor halfbit) ;;
  hi <- lift (ceil halfbit) ;;
  put (s - lo) (s + hi) OUTPUT_PYTHON dat.

Definition putbin (rxtx : line) (dat : data) : M unit :=
  s <- gets (fun d => sel (startsample d) rxtx) ;;
  w <- attr "bit_width" bit_width ;;
  let halfbit := (w / 2)%float in
  lo <- lift (floor halfbit) ;;
  n <- gets samplenum ;;
  hi <- lift (ceil halfbit) ;;
  put (s - lo) (n + hi) OUTPUT_BINARY dat.

(** [__init__] calls [reset] on a new object. *)
Definition reset (d : Decoder) : Decoder :=
  mkDecoder None (bit_width d) (bw d) 0 (matched d) (-1, -1) (-1, -1) (0, 0)
    (0, 0) (-1, -1) (-1, -1) (-1, -1)
    (WAIT_FOR_START_BIT, WAIT_FOR_START_BIT) ([], []) (out d) (waits d).

Definition new_decoder : Decoder :=
  reset (mkDecoder None None None 0 [] (0, 0) (0, 0) (0, 0) (0, 0) (0, 0)
           (0, 0) (0, 0) (WAIT_FOR_START_BIT, WAIT_FOR_START_BIT) ([], [])
           [] []).

Definition start (o : Options) : M unit :=
  modify (set_bw (Some ((num_data_bits o + 7) / 8))).

(** [metadata(key, value)]; [is_samplerate] says whether [key] is
    [SRD_CONF_SAMPLERATE], the only key the decoder looks at. *)
Definition metadata (o : Options) (is_samplerate : bool) (value : Z) : M unit :=
  if is_samplerate then
    modify (set_samplerate (Some value)) ;;
    num <- lift (float_of_int value) ;;
    den <- lift (float_of_int (baudrate o)) ;;
    if PrimFloat.eqb den 0 then raise ZeroDivisionError
    else modify (set_bit_width (Some (num / den)%float))
  else ret tt.

Definition get_sample_point (rxtx : line) (bitnum : Z) : M float :=
  fs <- gets (fun d => sel (frame_start d) rxtx) ;;
  w <- attr "bit_width" bit_width ;;
  ffs <- lift (float_of_int fs) ;;
  let bitpos := (ffs + (w - 1) / 2)%float in
  w' <- attr "bit_width" bit_width ;;
  fnum <- lift (float_of_int bitnum) ;;
  let bitpos := (bitpos + fnum * w')%float in
  ret bitpos.

Definition wait_for_start_bit (rxtx : line) (signal : bool) : M unit :=
  n <- gets samplenum ;;
  modify (set_frame_start rxtx n) ;;
  modify (set_state rxtx GET_START_BIT).

Definition get_start_bit (rxtx : line) (signal : bool) : M unit :=
  modify (set_startbit rxtx (Z.b2z signal)) ;;
  sb <- gets (fun d => sel (startbit d) rxtx) ;;
  if negb (sb =? 0) then
    putp (Packet "INVALID STARTBIT" (line_id rxtx) (PInt sb)) ;;
    putg (Annotation (line_id rxtx + 10) ["Frame error"; "Frame err"; "FE"]%string) ;;
    modify (set_state rxtx WAIT_FOR_START_BIT)
  else
    modify (set_cur_data_bit rxtx 0) ;;
    modify (set_datavalue rxtx 0) ;;
    modify (set_startsample rxtx (-1)) ;;
    putp (Packet "STARTBIT" (line_id rxtx) (PInt sb)) ;;
    putg (Annotation (line_id rxtx + 2) ["Start bit"; "Start"; "S"]%string) ;;
    modify (set_state rxtx GET_DATA_BITS).

(** The update of [datavalue] by one data bit (lines 233 to 239). *)
Definition shift_in (o : Options) (value : Z) (signal : bool) : Z :=
  if String.eqb (bit_order o) "lsb-first" then
    Z.lor (Z.shiftr value 1) (Z.shiftl (Z.b2z signal) (num_data_bits o - 1))
  else
    Z.lor (Z.shiftl value 1) (Z.shiftl (Z.b2z signal) 0).

Definition format_value (o : Options) (v : Z) : option string :=
  let fmt := format o in
  let bits := num_data_bits o in
  if String.eqb fmt "ascii" then
    if (32 <=? v) && (v <? 126 + 1) then Some (chr v)
    else if bits <=? 8 then Some ("[" ++ format_int 16 2 v ++ "]")%string
    else Some ("[" ++ format_int 16 3 v ++ "]")%string
  else if String.eqb fmt "dec" then Some (format_int 10 0 v)
  else
    let spec :=
      if String.eqb fmt "hex" then Some ((bits + 4 - 1) / 4, 16)
      else if String.eqb fmt "oct" then Some ((bits + 3 - 1) / 3, 8)
      else if String.eqb fmt "bin" then Some (bits, 2)
      else None in
    match spec with
    | Some (digits, base) => Some (format_int base (Z.to_nat digits) v)
    | None => None
    end.

Definition get_data_bits (o : Options) (rxtx : line) (signal : bool) : M unit :=
  s0 <- gets (fun d => sel (startsample d) rxtx) ;;
  (if s0 =? -1 then
     n <- gets samplenum ;; modify (set_startsample rxtx n)
   else ret tt) ;;
  v <- gets (fun d => sel (datavalue d) rxtx) ;;
  modify (set_datavalue rxtx (shift_in o v signal)) ;;
  putg (Annotation (line_id rxtx + 12) [format_int 10 0 (Z.b2z signal)]) ;;
  s <- gets samplenum ;;
  w <- attr "bit_width" bit_width ;;
  halfbit <- lift (int_of_float (w / 2)%float) ;;
  log <- gets (fun d => sel (databits d) rxtx) ;;
  modify (set_databits rxtx (log ++ [(Z.b2z signal, s - halfbit, s + halfbit)])) ;;
  c <- gets (fun d => sel (cur_data_bit d) rxtx) ;;
  modify (set_cur_data_bit rxtx (c + 1)) ;;
  c' <- gets (fun d => sel (cur_data_bit d) rxtx) ;;
  if c' <? num_data_bits o then ret tt
  else
    b <- gets (fun d => sel (datavalue d) rxtx) ;;
    log' <- gets (fun d => sel (databits d) rxtx) ;;
    putpx rxtx (Packet "DATA" (line_id rxtx) (PData b log')) ;;
    match format_value o b with
    | Some formatted => putx rxtx (Annotation (line_id rxtx) [formatted])
    | None => ret tt
    end ;;
    width <- attr "bw" bw ;;
    bdata <- lift (to_bytes_big b width) ;;
    putbin rxtx (Binary (line_id rxtx) bdata) ;;
    putbin rxtx (Binary 2 bdata) ;;
    modify (set_databits rxtx []) ;;
    modify (set_state rxtx GET_PARITY_BIT) ;;
    if String.eqb (parity_type o) "none" then
      modify (set_state rxtx GET_STOP_BITS)
    else ret tt.

(** [if parity_ok(...)]: [None] counts as false. *)
Definition truthy (r : option bool) : bool :=
  match r with Some b => b | None => false end.

Definition get_parity_bit (o : Options) (rxtx : line) (signal : bool) : M unit :=
  modify (set_paritybit rxtx (Z.b2z signal)) ;;
  pb <- gets (fun d => sel (paritybit d) rxtx) ;;
  v <- gets (fun d => sel (datavalue d) rxtx) ;;
  (if truthy (parity_ok (parity_type o) pb v (num_data_bits o)) then
     putp (Packet "PARITYBIT" (line_id rxtx) (PInt pb)) ;;
     putg (Annotation (line_id rxtx + 4) ["Parity bit"; "Parity"; "P"]%string)
   else
     putp (Packet "PARITY ERROR" (line_id rxtx) (PTuple 0 1)) ;;
     putg (Annotation (line_id rxtx + 6) ["Parity error"; "Parity err"; "PE"]%string)) ;;
  modify (set_state rxtx GET_STOP_BITS).

Definition get_stop_bits (rxtx : line) (signal : bool) : M unit :=
  modify (set_stopbit1 rxtx (Z.b2z signal)) ;;
  sb <- gets (fun d => sel (stopbit1 d) rxtx) ;;
  (if negb (sb =? 1) then
     putp (Packet "INVALID STOPBIT" (line_id rxtx) (PInt sb)) ;;
     putg (Annotation (line_id rxtx + 10) ["Frame error"; "Frame err"; "FE"]%string)
   else ret tt) ;;
  putp (Packet "STOPBIT" (line_id rxtx) (PInt sb)) ;;
  putg (Annotation (line_id rxtx + 4) ["Stop bit"; "Stop"; "T"]%string) ;;
  modify (set_state rxtx WAIT_FOR_START_BIT).

Definition get_wait_cond (o : Options) (rxtx : line) (inv : bool) : M cond :=
  st <- gets (fun d => sel (state d) rxtx) ;;
  match st with
  | WAIT_FOR_START_BIT => ret (Edge rxtx (if inv then Rising else Falling))
  | _ =>
      bitnum <-
        match st with
        | GET_START_BIT => ret 0
        | GET_DATA_BITS =>
            c <- gets (fun d => sel (cur_data_bit d) rxtx) ;; ret (1 + c)
        | GET_PARITY_BIT => ret (1 + num_data_bits o)
        | _ =>
            ret (1 + num_data_bits o
                 + (if String.eqb (parity_type o) "none" then 0 else 1))
        end ;;
      p <- get_sample_point rxtx bitnum ;;
      want_num <- lift (ceil p) ;;
      n <- gets samplenum ;;
      ret (Skip (want_num - n))
  end.

Definition inspect_sample (o : Options) (rxtx : line) (signal inv : bool)
  : M unit :=
  let signal := if inv then negb signal else signal in
  st <- gets (fun d => sel (state d) rxtx) ;;
  match st with
  | WAIT_FOR_START_BIT => wait_for_start_bit rxtx signal
  | GET_START_BIT => get_start_bit rxtx signal
  | GET_DATA_BITS => get_data_bits o rxtx signal
  | GET_PARITY_BIT => get_parity_bit o rxtx signal
  | GET_STOP_BITS => get_stop_bits rxtx signal
  end.

(** ** The decode loop against the host *)

(** One return of [self.wait]: the sample number reached, the [matched]
    tuple and the levels of the two pins. *)
Record wait_result : Type := mkWait {
  at_sample : Z;
  matched_flags : list bool;
  pins : bool * bool
}.

Definition wait (conds : list cond) (r : wait_result) : M (bool * bool) :=
  modify (fun d => set_waits (waits d ++ [conds]) d) ;;
  modify (set_samplenum (at_sample r)) ;;
  modify (set_matched (matched_flags r)) ;;
  ret (pins r).

(** [self.matched[i]]. *)
Definition matched_at (i : nat) : M bool :=
  m <- gets matched ;;
  match nth_error m i with
  | Some b => ret b
  | None => raise IndexError
  end.

Definition build_conds (o : Options) (has_pin inv : per_line bool)
    (cond_idx : per_line (option nat))
  : M (list cond * per_line (option nat)) :=
  let conds := [] in
  r1 <- (if sel has_pin RX then
           c <- get_wait_cond o RX (sel inv RX) ;;
           ret (conds ++ [c], upd cond_idx RX (Some (List.length conds)))
         else ret (conds, cond_idx)) ;;
  let '(conds, cond_idx) := r1 in
  if sel has_pin TX then
    c <- get_wait_cond o TX (sel inv TX) ;;
    ret (conds ++ [c], upd cond_idx TX (Some (List.length conds)))
  else ret (conds, cond_idx).

Definition dispatch (o : Options) (inv : per_line bool)
    (cond_idx : per_line (option nat)) (rxtx : line) (level : bool) : M unit :=
  match sel cond_idx rxtx with
  | None => ret tt
  | Some i =>
      m <- matched_at i ;;
      if m then inspect_sample o rxtx level (sel inv rxtx) else ret tt
  end.

(** The [while True] loop, run for as long as the host answers: one
    element of [answers] per return of [self.wait]. When the answers are
    used up the loop is left inside its next [self.wait]. *)
Fixpoint decode_loop (o : Options) (has_pin inv : per_line bool)
    (cond_idx : per_line (option nat)) (answers : list wait_result) : M unit :=
  r <- build_conds o has_pin inv cond_idx ;;
  let '(conds, cond_idx) := r in
  match answers with
  | [] => modify (fun d => set_waits (waits d ++ [conds]) d)
  | a :: rest =>
      p <- wait conds a ;;
      let '(rx, tx) := p in
      dispatch o inv cond_idx RX rx ;;
      dispatch o inv cond_idx TX tx ;;
      decode_loop o has_pin inv cond_idx rest
  end.

(** [not self.samplerate]. *)
Definition not_samplerate (sr : option Z) : bool :=
  match sr with
  | None => true
  | Some v => v =? 0
  end.

Definition decode (o : Options) (has_channel : line -> bool)
    (answers : list wait_result) : M unit :=
  sr <- gets samplerate ;;
  if not_samplerate sr then
    raise (SamplerateError "Cannot decode without samplerate.")
  else
    let has_pin := (has_channel RX, has_channel TX) in
    if negb (fst has_pin) && negb (snd has_pin) then
      raise (ChannelError "Either TX or RX (or both) pins required.")
    else
      let inv := (String.eqb (invert_rx o) "yes", String.eqb (invert_tx o) "yes") in
      let cond_idx := (None, None) in
      decode_loop o has_pin inv cond_idx answers.

(** ** Definitions the statements use *)

(** The base in which a reader parses the text of each numeric format. *)
Definition format_base (fmt : string) : Z :=
  if String.eqb fmt "hex" then 16
  else if String.eqb fmt "oct" then 8
  else if String.eqb fmt "bin" then 2
  else 10.

(** A decimal numeral without padding: no zero in front of another digit. *)
Definition unpadded (s : string) : Prop :=
  match s with
  | String "0" (String _ _) => False
  | _ => True
  end.

(** The [i]-th bit of a received sequence. *)
Definition received (bits : list bool) (i : Z) : bool :=
  nth (Z.to_nat i) bits false.

(** Where the [i]-th received bit ends up in the data value. *)
Definition bit_position (o : Options) (i : Z) : Z :=
  if String.eqb (bit_order o) "lsb-first" then i
  else num_data_bits o - 1 - i.

(** The half bit width as the [put] helpers and [get_data_bits] use it:
    [bit_width] exists and [floor], [ceil] and [int] of its half are
    [lo], [hi] and [half]. *)
Definition half_bit (d : Decoder) (lo hi half : Z) : Prop :=
  exists w, bit_width d = Some w
            /\ floor (w / 2)%float = Ok lo
            /\ ceil (w / 2)%float = Ok hi
            /\ int_of_float (w / 2)%float = Ok half.

(** The object after one call of [self.put]. *)
Definition emit (s e : Z) (ot : output_type) (dat : data) (d : Decoder)
  : Decoder :=
  set_out (out d ++ [mkEmitted s e ot dat]) d.

Definition latch_startsample (rxtx : line) (d : Decoder) : Decoder :=
  if sel (startsample d) rxtx =? -1 then set_startsample rxtx (samplenum d) d
  else d.

(** The object after the part of [get_data_bits] that runs for every
    data bit. *)
Definition with_data_bit (o : Options) (rxtx : line) (signal : bool)
    (lo hi half : Z) (d : Decoder) : Decoder :=
  set_cur_data_bit rxtx (sel (cur_data_bit d) rxtx + 1)
    (set_databits rxtx
       (sel (databits d) rxtx
        ++ [(Z.b2z signal, samplenum d - half, samplenum d + half)])
       (emit (samplenum d - lo) (samplenum d + hi) OUTPUT_ANN
          (Annotation (line_id rxtx + 12) [format_int 10 0 (Z.b2z signal)])
          (set_datavalue rxtx (shift_in o (sel (datavalue d) rxtx) signal)
             (latch_startsample rxtx d)))).

(** The state that follows the data bits. *)
Definition after_data (o : Options) : state_name :=
  if String.eqb (parity_type o) "none" then GET_STOP_BITS else GET_PARITY_BIT.

(** The object after the part of [get_data_bits] that runs once all data
    bits are in; [d] is the object after the last bit was taken. *)
Definition with_data_group (o : Options) (rxtx : line) (bdata : list Z)
    (lo hi : Z) (d : Decoder) : Decoder :=
  let b := sel (datavalue d) rxtx in
  let s := sel (startsample d) rxtx - lo in
  let e := samplenum d + hi in
  let d1 := emit s e OUTPUT_PYTHON
              (Packet "DATA" (line_id rxtx) (PData b (sel (databits d) rxtx)))
              d in
  let d2 := match format_value o b with
            | Some formatted =>
                emit s e OUTPUT_ANN (Annotation (line_id rxtx) [formatted]) d1
            | None => d1
            end in
  set_state rxtx (after_data o)
    (set_databits rxtx []
       (emit s e OUTPUT_BINARY (Binary 2 bdata)
          (emit s e OUTPUT_BINARY (Binary (line_id rxtx) bdata) d2))).

(** The events for a parity bit: accepted or in error. *)
Definition parity_events (o : Options) (rxtx : line) (signal : bool)
    (value : Z) : data * data :=
  if truthy (parity_ok (parity_type o) (Z.b2z signal) value (num_data_bits o))
  then (Packet "PARITYBIT" (line_id rxtx) (PInt (Z.b2z signal)),
        Annotation (line_id rxtx + 4) ["Parity bit"; "Parity"; "P"]%string)
  else (Packet "PARITY ERROR" (line_id rxtx) (PTuple 0 1),
        Annotation (line_id rxtx + 6)
          ["Parity error"; "Parity err"; "PE"]%string).

(** The bits of a data-bit log. *)
Definition logged_bits (log : list (Z * Z * Z)) : list bool :=
  map (fun entry => fst (fst entry) =? 1) log.

(** What holds of a line between two calls of [inspect_sample]. *)
Definition line_inv (o : Options) (d : Decoder) (rxtx : line) : Prop :=
  let c := sel (cur_data_bit d) rxtx in
  let log := sel (databits d) rxtx in
  0 <= c <= num_data_bits o
  /\ match sel (state d) rxtx with
     | GET_DATA_BITS =>
         c < num_data_bits o
         /\ Z.of_nat (List.length log) = c
         /\ sel (datavalue d) rxtx = fold_left (shift_in o) (logged_bits log) 0
     | _ => log = []
     end.

(** The ordinal of the bit a line waits for: 0 for the start bit, then
    the data bits, the parity bit if there is one, and the stop bit. *)
Definition bit_number (o : Options) (st : state_name) (cur : Z) : Z :=
  match st with
  | WAIT_FOR_START_BIT | GET_START_BIT => 0
  | GET_DATA_BITS => 1 + cur
  | GET_PARITY_BIT => 1 + num_data_bits o
  | GET_STOP_BITS =>
      1 + num_data_bits o
      + (if String.eqb (parity_type o) "none" then 0 else 1)
  end.

(** The midpoint of bit number [bitnum] as the code computes it, in
    binary64 and in this order:
    [(float(frame_start) + (bit_width - 1) / 2) + float(bitnum) * bit_width]. *)
Definition double_midpoint (frame_start_sample : Z) (width : float)
    (bitnum : Z) : outcome float :=
  match float_of_int frame_start_sample with
  | Ok fs =>
      match float_of_int bitnum with
      | Ok bn => Ok (fs + (width - 1) / 2 + bn * width)%float
      | Raise e => Raise e
      end
  | Raise e => Raise e
  end.

(** The sample the code skips to: that double, rounded up. *)
Definition bit_midpoint (frame_start_sample : Z) (width : float) (bitnum : Z)
  : outcome Z :=
  match double_midpoint frame_start_sample width bitnum with
  | Ok p => ceil p
  | Raise e => Raise e
  end.

(** The number a finite double stands for, [m * 2^e] with its sign;
    [None] for an infinity and for a NaN. *)
Definition float_value (f : float) : option Q :=
  match Prim2SF f with
  | S754_zero _ => Some 0%Q
  | S754_finite s m e =>
      let n := if s then Z.neg m else Z.pos m in
      Some (if e <? 0 then Qmake n (Pos.pow 2 (Z.to_pos (- e)))
            else inject_Z (n * 2 ^ e))
  | _ => None
  end.

(** The midpoint as the specification writes it, for a real bit width
    (here a rational): [frame_start + (bit_width - 1) / 2 + bitnum *
    bit_width], with no rounding. *)
Definition exact_midpoint (frame_start_sample : Z) (width : Q) (bitnum : Z)
  : Q :=
  (inject_Z frame_start_sample + (width - 1) / 2 + inject_Z bitnum * width)%Q.

(** That midpoint rounded up to the next sample. *)
Definition exact_target (frame_start_sample : Z) (width : Q) (bitnum : Z)
  : Z :=
  Qceiling (exact_midpoint frame_start_sample width bitnum).

(** The skip condition that reaches sample [target] from sample [now]. *)
Definition skip_to (target : outcome Z) (now : Z) : outcome cond :=
  match target with
  | Ok t => Ok (Skip (t - now))
  | Raise e => Raise e
  end.

(** Two objects agree on everything that belongs to one line. *)
Definition same_line (d d' : Decoder) (rxtx : line) : Prop :=
  sel (frame_start d') rxtx = sel (frame_start d) rxtx
  /\ sel (startbit d') rxtx = sel (startbit d) rxtx
  /\ sel (cur_data_bit d') rxtx = sel (cur_data_bit d) rxtx
  /\ sel (datavalue d') rxtx = sel (datavalue d) rxtx
  /\ sel (paritybit d') rxtx = sel (paritybit d) rxtx
  /\ sel (stopbit1 d') rxtx = sel (stopbit1 d) rxtx
  /\ sel (startsample d') rxtx = sel (startsample d) rxtx
  /\ sel (state d') rxtx = sel (state d) rxtx
  /\ sel (databits d') rxtx = sel (databits d) rxtx.

(** Two objects agree on what the host and the setup calls wrote. *)
Definition same_setup (d d' : Decoder) : Prop :=
  samplerate d' = samplerate d
  /\ bit_width d' = bit_width d
  /\ bw d' = bw d
  /\ samplenum d' = samplenum d
  /\ matched d' = matched d.

Definition other (rxtx : line) : line :=
  match rxtx with RX => TX | TX => RX end.

(** The level a line's automaton sees. *)
Definition seen (level inv : bool) : bool :=
  if inv then negb level else level.

(** Two option sets that agree on everything but [parity_check] and
    [num_stop_bits]. *)
Definition same_decoding (o o' : Options) : Prop :=
  baudrate o' = baudrate o
  /\ num_data_bits o' = num_data_bits o
  /\ parity_type o' = parity_type o
  /\ bit_order o' = bit_order o
  /\ format o' = format o
  /\ invert_rx o' = invert_rx o
  /\ invert_tx o' = invert_tx o.

(** ** A concrete run

    9600 baud sampled at 96000 Hz (10 samples per bit), RX only: the
    falling edge at sample 100, then one sample per bit from sample 105
    on, for the byte 0x41 sent least significant bit first. *)
Definition scenario_options : Options :=
  mkOptions 9600 8 "none" "yes" 1.0%float "lsb-first" "hex" "no" "no".

Definition parity_options : Options :=
  mkOptions 9600 8 "even" "yes" 1.0%float "lsb-first" "hex" "no" "no".

Definition rx_only (rxtx : line) : bool :=
  match rxtx with RX => true | TX => false end.

Definition at_level (p : Z * bool) : wait_result :=
  mkWait (fst p) [true] (snd p, false).

Definition scenario_answers : list wait_result :=
  map at_level
    [(100, false); (105, false); (115, true); (125, false); (135, false);
     (145, false); (155, false); (165, false); (175, true); (185, false);
     (195, true)].

(** The object after [start], [metadata] and the first [k] answers. *)
Definition scenario (o : Options) (k : nat) : Decoder :=
  snd (decode o rx_only (firstn k scenario_answers)
         (snd (metadata o true 96000 (snd (start o new_decoder))))).

(** What [wait] writes when it returns at sample [s] with the first
    condition matched. *)
Definition arrive (s : Z) (d : Decoder) : Decoder :=
  set_matched [true] (set_samplenum s d).

(** The data bits of 0x41, least significant bit first. *)
Definition scenario_bits : list bool :=
  [true; false; false; false; false; false; true; false].

(** The object is set up for [o] and both lines satisfy their
    invariant. *)
Definition decoder_ok (o : Options) (lo hi half : Z) (d : Decoder) : Prop :=
  half_bit d lo hi half
  /\ bw d = Some ((num_data_bits o + 7) / 8)
  /\ line_inv o d RX
  /\ line_inv o d TX.

(** A method keeps a property of the object, however it ends. *)
Definition keeps (P : Decoder -> Prop) {A : Type} (m : M A) : Prop :=
  forall d, P d -> P (snd (m d)).

(** 9600 baud sampled at 2 MHz: 208.33... samples per bit. A line in
    GET DATA BITS with [cur] bits taken, its frame starting at sample 0. *)
Definition fine_options : Options :=
  mkOptions 9600 8 "none" "yes" 1.0%float "lsb-first" "hex" "no" "no".

Definition fine_decoder (cur : Z) : Decoder :=
  set_cur_data_bit RX cur
    (set_state RX GET_DATA_BITS
       (set_frame_start RX 0
          (snd (metadata fine_options true 2000000
                  (snd (start fine_options new_decoder)))))).

(** 115200 baud sampled at 1 MHz: 8.68 samples per bit. *)
Definition fast_options : Options :=
  mkOptions 115200 8 "none" "yes" 1.0%float "lsb-first" "hex" "no" "no".

Definition fast_decoder (st : state_name) : Decoder :=
  set_state RX st
    (set_frame_start RX 1000
       (set_samplenum 1000
          (snd (metadata fast_options true 1000000
                  (snd (start fast_options new_decoder)))))).

(** * Further definitions

    What the theorems on the rest of the decoder and on the SPI flash
    tables are stated with. *)

(** ** Definitions for the properties of the rest of the decoder *)

(** [P] survives every write a step of line [rxtx] can make. *)
Definition line_closed (P : Decoder -> Prop) (rxtx : line) : Prop :=
  forall d, P d ->
    (forall v, P (set_frame_start rxtx v d))
    /\ (forall v, P (set_startbit rxtx v d))
    /\ (forall v, P (set_cur_data_bit rxtx v d))
    /\ (forall v, P (set_datavalue rxtx v d))
    /\ (forall v, P (set_paritybit rxtx v d))
    /\ (forall v, P (set_stopbit1 rxtx v d))
    /\ (forall v, P (set_startsample rxtx v d))
    /\ (forall v, P (set_state rxtx v d))
    /\ (forall v, P (set_databits rxtx v d))
    /\ (forall e, P (set_out (out d ++ [e]) d)).

(** [P] survives what the loop and the host write outside the lines. *)
Definition host_closed (P : Decoder -> Prop) : Prop :=
  forall d, P d ->
    (forall c, P (set_waits (waits d ++ [c]) d))
    /\ (forall v, P (set_samplenum v d))
    /\ (forall v, P (set_matched v d)).

(** Two objects agree on the setup, on what the host wrote and on the
    waits asked so far. *)
Definition same_host (d d' : Decoder) : Prop :=
  same_setup d d' /\ waits d' = waits d.

(** [l'] is [l] with something appended. *)
Definition extends {A : Type} (l l' : list A) : Prop :=
  exists new, l' = l ++ new.

(** The wait condition of a line, as a value. *)
Definition line_cond (o : Options) (inv : per_line bool) (d : Decoder)
    (rxtx : line) : outcome cond :=
  fst (get_wait_cond o rxtx (sel inv rxtx) d).

(** The conditions of one cycle with the index of each line's condition:
    one condition per present line, RX first. *)
Definition cycle_conds (o : Options) (has_pin inv : per_line bool)
    (cond_idx : per_line (option nat)) (d : Decoder)
  : outcome (list cond * per_line (option nat)) :=
  match sel has_pin RX, sel has_pin TX with
  | false, false => Ok ([], cond_idx)
  | true, false =>
      match line_cond o inv d RX with
      | Ok c => Ok ([c], upd cond_idx RX (Some 0%nat))
      | Raise e => Raise e
      end
  | false, true =>
      match line_cond o inv d TX with
      | Ok c => Ok ([c], upd cond_idx TX (Some 0%nat))
      | Raise e => Raise e
      end
  | true, true =>
      match line_cond o inv d RX with
      | Ok c1 =>
          match line_cond o inv d TX with
          | Ok c2 => Ok ([c1; c2], (Some 0%nat, Some 1%nat))
          | Raise e => Raise e
          end
      | Raise e => Raise e
      end
  end.

(** The edge a line waits for when it is idle. *)
Definition idle_edge (o : Options) (rxtx : line) : cond :=
  match rxtx with
  | RX => Edge RX (if String.eqb (invert_rx o) "yes" then Rising else Falling)
  | TX => Edge TX (if String.eqb (invert_tx o) "yes" then Rising else Falling)
  end.

(** The conditions of a cycle in which every present line is idle. *)
Definition idle_conds (o : Options) (has_channel : line -> bool) : list cond :=
  (if has_channel RX then [idle_edge o RX] else [])
  ++ (if has_channel TX then [idle_edge o TX] else []).

(** The position of a line's condition in the list of a cycle. *)
Definition cond_position (has_channel : line -> bool) (rxtx : line) : nat :=
  match rxtx with
  | RX => 0
  | TX => if has_channel RX then 1 else 0
  end.

(** The object when [wait] returns: the wait is on record and the host
    has written the sample number and the [matched] tuple. *)
Definition arrived (conds : list cond) (a : wait_result) (d : Decoder)
  : Decoder :=
  set_matched (matched_flags a)
    (set_samplenum (at_sample a) (set_waits (waits d ++ [conds]) d)).

(** The samples of one line, taken one after the other: what the loop
    does for a line whose condition matches every time. A sample is the
    sample number the host stopped at and the level of the pin. *)
Fixpoint feed (o : Options) (rxtx : line) (inv : bool)
    (samples : list (Z * bool)) : M unit :=
  match samples with
  | [] => ret tt
  | (s, level) :: rest =>
      modify (set_samplenum s) ;;
      inspect_sample o rxtx level inv ;;
      feed o rxtx inv rest
  end.

(** What was put on the Python output, in order. *)
Definition python_puts (l : list emitted) : list emitted :=
  filter (fun e => match output e with OUTPUT_PYTHON => true | _ => false end)
    l.

(** A packet put by [putp] at sample [s]: it spans the bit around it. *)
Definition packet_at (lo hi s : Z) (p : data) : emitted :=
  mkEmitted (s - lo) (s + hi) OUTPUT_PYTHON p.

(** The log of the data bits of a frame: each bit with the samples half
    a bit before and after the one it was taken at. *)
Definition bit_log (inv : bool) (half : Z) (samples : list (Z * bool))
  : list (Z * Z * Z) :=
  map (fun p => (Z.b2z (seen (snd p) inv), fst p - half, fst p + half))
    samples.

(** The levels a line sees in a list of samples. *)
Definition seen_bits (inv : bool) (samples : list (Z * bool)) : list bool :=
  map (fun p => seen (snd p) inv) samples.

(** The sample of the parity bit, if the frame has one. *)
Definition parity_samples (o : Options) (parity : Z * bool) : list (Z * bool) :=
  if String.eqb (parity_type o) "none" then [] else [parity].

(** The packet for a parity bit: accepted or in error. *)
Definition parity_packets (o : Options) (rxtx : line) (bit : bool) (value : Z)
  : list data :=
  if String.eqb (parity_type o) "none" then []
  else if truthy (parity_ok (parity_type o) (Z.b2z bit) value (num_data_bits o))
       then [Packet "PARITYBIT" (line_id rxtx) (PInt (Z.b2z bit))]
       else [Packet "PARITY ERROR" (line_id rxtx) (PTuple 0 1)].

(** The packets for a stop bit: a level of 0 is reported first. *)
Definition stop_packets (rxtx : line) (bit : bool) : list data :=
  if bit then [Packet "STOPBIT" (line_id rxtx) (PInt 1)]
  else [Packet "INVALID STOPBIT" (line_id rxtx) (PInt 0);
        Packet "STOPBIT" (line_id rxtx) (PInt 0)].

(** [int.from_bytes(bytes, byteorder='big')]: how a reader of the binary
    output gets the number back. *)
Definition from_bytes_big (l : list Z) : Z :=
  fold_left (fun acc b => acc * 256 + b) l 0.

(** The object without what the host wrote at the last wait: the list
    of the waits asked and the match flags. *)
Definition host_blind (d : Decoder) : Decoder :=
  set_matched [] (set_waits [] d).

(** Two objects that agree on every attribute and on the output; only
    the list of waits and the match flags may differ. *)
Definition alike (d d' : Decoder) : Prop := host_blind d = host_blind d'.

(** Two computations that, from objects that are alike, end the same way
    in objects that are alike. *)
Definition sim {A : Type} (m1 m2 : M A) : Prop :=
  forall d1 d2, alike d1 d2 ->
    fst (m1 d1) = fst (m2 d2) /\ alike (snd (m1 d1)) (snd (m2 d2)).

(** What a line sees of an answer of the host: the sample and the level
    of its pin. *)
Definition sample_of (rxtx : line) (a : wait_result) : Z * bool :=
  (at_sample a, sel (pins a) rxtx).

(** The options with other values of [invert_rx] and [invert_tx]. *)
Definition with_invert (o : Options) (rx tx : string) : Options :=
  mkOptions (baudrate o) (num_data_bits o) (parity_type o) (parity_check o)
    (num_stop_bits o) (bit_order o) (format o) rx tx.

(** The answer of the host when the given lines carry the opposite
    levels. *)
Definition flip_pins (inv : per_line bool) (a : wait_result) : wait_result :=
  mkWait (at_sample a) (matched_flags a)
    (xorb (sel inv RX) (fst (pins a)), xorb (sel inv TX) (snd (pins a))).

(** Two results that end the same way in objects that are alike. *)
Definition agree {A : Type} (r1 r2 : outcome A * Decoder) : Prop :=
  fst r1 = fst r2 /\ alike (snd r1) (snd r2).

(** An event that belongs to a line: a packet carries the number of the
    line; an annotation is of one of the classes the code uses for the
    line (data, start bit, parity, parity error, warning, data bit); a
    dump of bytes is that of the line or the common one. *)
Definition names_line (rxtx : line) (e : emitted) : bool :=
  match output e, payload e with
  | OUTPUT_PYTHON, Packet _ l _ => l =? line_id rxtx
  | OUTPUT_ANN, Annotation c _ =>
      existsb (fun k => c =? line_id rxtx + k) [0; 2; 4; 6; 10; 12]
  | OUTPUT_BINARY, Binary c _ => (c =? line_id rxtx) || (c =? 2)
  | _, _ => false
  end.

(** The classes declared for the stop bits, ['rx-stop'] and
    ['tx-stop']. *)
Definition stop_class (e : emitted) : bool :=
  match payload e with
  | Annotation c _ => (c =? 8) || (c =? 9)
  | _ => false
  end.

(** ** The concrete run, before [decode] is called *)

Definition scenario_start (o : Options) : Decoder :=
  snd (metadata o true 96000 (snd (start o new_decoder))).

(** The samples of the data bits of 0x41 in the concrete run. *)
Definition scenario_data : list (Z * bool) :=
  [(115, true); (125, false); (135, false); (145, false); (155, false);
   (165, false); (175, true); (185, false)].

(** Options with a baud rate of 0. *)
Definition no_baud_options : Options :=
  mkOptions 0 8 "none" "yes" 1.0%float "lsb-first" "hex" "no" "no".

(** * SPI flash tables ([spiflash/lists.py]) *)

(** A Python dict with integer keys, as the list of its items in
    insertion order. Setting a key that is present replaces its value
    in place; a new key goes to the end. *)
Fixpoint dict_set {V : Type} (k : Z) (v : V) (l : list (Z * V))
  : list (Z * V) :=
  match l with
  | [] => [(k, v)]
  | (k', v') :: rest =>
      if k' =? k then (k', v) :: rest else (k', v') :: dict_set k v rest
  end.

Fixpoint dict_get {V : Type} (k : Z) (l : list (Z * V)) : option V :=
  match l with
  | [] => None
  | (k', v) :: rest => if k' =? k then Some v else dict_get k rest
  end.

(** [OrderedDict(items)]. *)
Definition ordered_dict {V : Type} (items : list (Z * V)) : list (Z * V) :=
  fold_left (fun acc kv => dict_set (fst kv) (snd kv) acc) items [].

(** The items [cmds] is built from: command ID, name and description. *)
Definition cmds_items : list (Z * (string * string)) :=
  [(0x01, ("WRSR", "Write status register"));
   (0x02, ("PP", "Page program"));
   (0x03, ("READ", "Read data"));
   (0x04, ("WRDI", "Write disable"));
   (0x05, ("RDSR", "Read status register"));
   (0x06, ("WREN", "Write enable"));
   (0x0b, ("FAST/READ", "Fast read data"));
   (0x20, ("SE", "Sector erase"));
   (0x2b, ("RDSCUR", "Read security register"));
   (0x2f, ("WRSCUR", "Write security register"));
   (0x35, ("RDSR2", "Read status register 2"));
   (0x60, ("CE", "Chip erase"));
   (0x70, ("ESRY", "Enable SO to output RY/BY#"));
   (0x80, ("DSRY", "Disable SO to output RY/BY#"));
   (0x90, ("REMS", "Read electronic manufacturer & device ID"));
   (0x9f, ("RDID", "Read identification"));
   (0xab, ("RDP/RES", "Release from deep powerdown / Read electronic ID"));
   (0xad, ("CP", "Continuously program mode"));
   (0xb1, ("ENSO", "Enter secured OTP"));
   (0xb9, ("DP", "Deep power down"));
   (0xbb, ("2READ", "2x I/O read"));
   (0xc1, ("EXSO", "Exit secured OTP"));
   (0xc7, ("CE2", "Chip erase"));
   (0xd8, ("BE", "Block erase"));
   (0xef, ("REMS2", "Read ID for 2x I/O mode"))]%string.

Definition cmds : list (Z * (string * string)) := ordered_dict cmds_items.

(** A dict with string keys, as the list of its items. *)
Fixpoint str_get {V : Type} (k : string) (l : list (string * V)) : option V :=
  match l with
  | [] => None
  | (k', v) :: rest => if String.eqb k' k then Some v else str_get k rest
  end.

Definition device_name : list (string * list (Z * string)) :=
  [("fidelix", [(0x15, "FM25Q32")]);
   ("macronix",
    [(0x14, "MX25L1605D"); (0x15, "MX25L3205D"); (0x16, "MX25L6405D")])
  ]%string.

Record chip : Type := mkChip {
  vendor : string;
  model : string;
  res_id : Z;
  rems_id : Z;
  rems2_id : Z;
  rdid_id : Z;
  page_size : Z;
  sector_size : Z;
  block_size : Z
}.

Definition chips : list (string * chip) :=
  [("fidelix_fm25q32",
    mkChip "FIDELIX" "FM25Q32" 0x15 0xa115 0xa115 0xa14016
      256 (4 * 1024) (64 * 1024));
   ("macronix_mx25l1605d",
    mkChip "Macronix" "MX25L1605D" 0x14 0xc214 0xc214 0xc22015
      256 (4 * 1024) (64 * 1024));
   ("macronix_mx25l3205d",
    mkChip "Macronix" "MX25L3205D" 0x15 0xc215 0xc215 0xc22016
      256 (4 * 1024) (64 * 1024));
   ("macronix_mx25l6405d",
    mkChip "Macronix" "MX25L6405D" 0x16 0xc216 0xc216 0xc22017
      256 (4 * 1024) (64 * 1024))]%string.

(** [s.lower()] on ASCII. *)
Definition lower_char (c : ascii) : ascii :=
  let code := N_of_ascii c in
  if ((65 <=? code) && (code <=? 90))%N then ascii_of_N (code + 32) else c.

Fixpoint lower (s : string) : string :=
  match s with
  | EmptyString => EmptyString
  | String c s' => String (lower_char c) (lower s')
  end.

(** The keys of a list of items go up strictly. *)
Fixpoint ascending (keys : list Z) : Prop :=
  match keys with
  | [] => True
  | k :: rest => Forall (fun k' => k < k') rest /\ ascending rest
  end.

(** A chip entry is consistent with its key and with [device_name]. *)
Definition chip_consistent (entry : string * chip) : Prop :=
  let '(key, c) := entry in
  key = (lower (vendor c) ++ "_" ++ lower (model c))%string
  /\ (exists names,
        str_get (lower (vendor c)) device_name = Some names
        /\ dict_get (res_id c) names = Some (model c))
  /\ rems2_id c = rems_id c
  /\ rems_id c mod 256 = res_id c
  /\ rems_id c / 256 = rdid_id c / 65536
  /\ (page_size c | sector_size c)
  /\ (sector_size c | block_size c).

(** * Proofs *)

(** ** Numerals *)

Lemma digit_value_char (d : Z) :
  0 <= d < 16 -> digit_value (digit_char d) = Some d.
Proof.
  intros H.
  assert (C : d = 0 \/ d = 1 \/ d = 2 \/ d = 3 \/ d = 4 \/ d = 5 \/ d = 6
              \/ d = 7 \/ d = 8 \/ d = 9 \/ d = 10 \/ d = 11 \/ d = 12
              \/ d = 13 \/ d = 14 \/ d = 15) by lia.
  repeat (destruct C as [C | C]; [subst d; reflexivity | ]).
  subst d; reflexivity.
Qed.

Lemma half_fuel (base n : Z) (fuel : nat) :
  2 <= base -> 0 <= n < 2 ^ Z.of_nat (S fuel) ->
  0 <= n / base < 2 ^ Z.of_nat fuel.
Proof.
  intros Hb [Hn Hlt]. split.
  - apply Z.div_pos; lia.
  - apply Z.le_lt_trans with (n / 2).
    + apply Z.div_le_compat_l; lia.
    + apply Z.div_lt_upper_bound; [lia | ].
      rewrite Nat2Z.inj_succ, Z.pow_succ_r in Hlt by lia. exact Hlt.
Qed.

Lemma log2_fuel (n : Z) :
  0 <= n -> 0 <= n < 2 ^ Z.of_nat (S (Z.to_nat (Z.log2 n))).
Proof.
  intros Hn. split; [exact Hn | ].
  rewrite Nat2Z.inj_succ, Z2Nat.id by apply Z.log2_nonneg.
  destruct (Z.eq_dec n 0) as [-> | Hnz]; [reflexivity | ].
  apply Z.log2_spec. lia.
Qed.

Lemma parse_digits_aux (base : Z) :
  2 <= base <= 16 ->
  forall fuel n acc,
    0 <= n < 2 ^ Z.of_nat fuel ->
    parse_from base 0 (digits_aux fuel base n acc) = parse_from base n acc.
Proof.
  intros Hb. induction fuel as [| fuel IH]; intros n acc Hn.
  - simpl in Hn. replace n with 0 by lia. reflexivity.
  - simpl digits_aux.
    assert (Hm : 0 <= n mod base < base) by (apply Z.mod_pos_bound; lia).
    assert (Hd : n = base * (n / base) + n mod base)
      by (apply Z.div_mod; lia).
    destruct (Z.eqb_spec (n / base) 0) as [Hz | Hz].
    + simpl. rewrite digit_value_char by lia.
      destruct (Z.ltb_spec (n mod base) base); [ | lia].
      f_equal. lia.
    + rewrite IH by (apply half_fuel; [lia | assumption]).
      simpl. rewrite digit_value_char by lia.
      destruct (Z.ltb_spec (n mod base) base); [ | lia].
      f_equal. lia.
Qed.

Lemma digits_aux_cons (fuel : nat) (base n : Z) (acc : string) :
  exists c s, digits_aux (S fuel) base n acc = String c s.
Proof.
  revert n acc. induction fuel as [| fuel IH]; intros n acc.
  - simpl. destruct (n / base =? 0); eauto.
  - change (digits_aux (S (S fuel)) base n acc)
      with (if n / base =? 0 then String (digit_char (n mod base)) acc
            else digits_aux (S fuel) base (n / base)
                   (String (digit_char (n mod base)) acc)).
    destruct (n / base =? 0); eauto.
Qed.

Lemma parse_zeros (base : Z) (k : nat) (s : string) :
  0 < base -> parse_from base 0 (zeros k s) = parse_from base 0 s.
Proof.
  intros Hb. induction k as [| k IH]; [reflexivity | ].
  simpl. destruct (Z.ltb_spec 0 base); [ | lia]. exact IH.
Qed.

Lemma zeros_cons (k : nat) (c : ascii) (s : string) :
  exists c' s', zeros k (String c s) = String c' s'.
Proof. destruct k; simpl; eauto. Qed.

Lemma length_zeros (k : nat) (s : string) :
  String.length (zeros k s) = (k + String.length s)%nat.
Proof. induction k as [| k IH]; simpl; [reflexivity | now rewrite IH]. Qed.

Lemma length_zero_pad (w : nat) (s : string) :
  (String.length s <= w)%nat -> String.length (zero_pad w s) = w.
Proof. intros H. unfold zero_pad. rewrite length_zeros. lia. Qed.

(** Reading back what [format_int] printed. *)
Lemma parse_format_int (base : Z) (width : nat) (v : Z) :
  2 <= base <= 16 -> 0 <= v ->
  parse_base base (format_int base width v) = Some v.
Proof.
  intros Hb Hv. unfold format_int.
  destruct (Z.ltb_spec v 0); [lia | ].
  unfold zero_pad, digits.
  destruct (digits_aux_cons (Z.to_nat (Z.log2 v)) base v EmptyString)
    as (c & s & E).
  assert (P : parse_from base 0
                (digits_aux (S (Z.to_nat (Z.log2 v))) base v EmptyString)
              = Some v)
    by (rewrite parse_digits_aux by (auto using log2_fuel); reflexivity).
  rewrite E in *.
  destruct (zeros_cons (width - String.length (String c s)) c s)
    as (c' & s' & E').
  unfold parse_base. rewrite <- P, <- (parse_zeros base
    (width - String.length (String c s)) (String c s)) by lia.
  rewrite E'. reflexivity.
Qed.

Lemma length_digits_aux (base : Z) :
  2 <= base ->
  forall fuel n (k : nat) acc,
    (1 <= k)%nat -> 0 <= n < base ^ Z.of_nat k ->
    (String.length (digits_aux fuel base n acc) <= k + String.length acc)%nat.
Proof.
  intros Hb. induction fuel as [| fuel IH]; intros n k acc Hk Hn.
  - simpl. lia.
  - simpl digits_aux.
    destruct (Z.eqb_spec (n / base) 0) as [Hz | Hz]; [simpl; lia | ].
    destruct k as [| [| k]]; [lia | | ].
    + exfalso. apply Hz. apply Z.div_small. simpl in Hn. lia.
    + specialize (IH (n / base) (S k)
                     (String (digit_char (n mod base)) acc)).
      simpl String.length in IH.
      assert (0 <= n / base < base ^ Z.of_nat (S k)).
      { split; [apply Z.div_pos; lia | ].
        apply Z.div_lt_upper_bound; [lia | ].
        rewrite (Nat2Z.inj_succ (S k)), Z.pow_succ_r in Hn by lia. lia. }
      specialize (IH ltac:(lia) H). lia.
Qed.

(** A value below [base ^ width] is printed on exactly [width] digits. *)
Lemma length_format_int (base : Z) (width : nat) (v : Z) :
  2 <= base -> (1 <= width)%nat -> 0 <= v < base ^ Z.of_nat width ->
  String.length (format_int base width v) = width.
Proof.
  intros Hb Hw Hv. unfold format_int.
  destruct (Z.ltb_spec v 0); [lia | ].
  apply length_zero_pad. unfold digits.
  pose proof (length_digits_aux base Hb (S (Z.to_nat (Z.log2 v))) v width
                EmptyString Hw Hv) as L.
  change (String.length EmptyString) with 0%nat in L. lia.
Qed.

Lemma digit_char_nonzero (d : Z) :
  0 < d < 16 -> digit_char d <> "0"%char.
Proof.
  intros H.
  assert (C : d = 1 \/ d = 2 \/ d = 3 \/ d = 4 \/ d = 5 \/ d = 6
              \/ d = 7 \/ d = 8 \/ d = 9 \/ d = 10 \/ d = 11 \/ d = 12
              \/ d = 13 \/ d = 14 \/ d = 15) by lia.
  repeat (destruct C as [C | C]; [subst d; discriminate | ]).
  subst d; discriminate.
Qed.

Lemma digits_aux_leading (base : Z) :
  2 <= base <= 16 ->
  forall fuel n acc,
    0 < n < 2 ^ Z.of_nat fuel ->
    exists c s, digits_aux fuel base n acc = String c s /\ c <> "0"%char.
Proof.
  intros Hb. induction fuel as [| fuel IH]; intros n acc Hn.
  - simpl in Hn. lia.
  - simpl digits_aux.
    destruct (Z.eqb_spec (n / base) 0) as [Hz | Hz].
    + do 2 eexists. split; [reflexivity | ].
      apply digit_char_nonzero.
      assert (n < base) by (apply Z.div_small_iff in Hz; lia).
      rewrite Z.mod_small; lia.
    + apply IH.
      pose proof (half_fuel base n fuel ltac:(lia) ltac:(lia)). lia.
Qed.

(** The decimal text has no padding. *)
Lemma unpadded_format_dec (v : Z) :
  0 <= v -> unpadded (format_int 10 0 v).
Proof.
  intros Hv. unfold format_int.
  destruct (Z.ltb_spec v 0); [lia | ].
  unfold zero_pad. simpl zeros.
  destruct (Z.eq_dec v 0) as [-> | Hnz]; [exact I | ].
  destruct (digits_aux_leading 10 ltac:(lia) (S (Z.to_nat (Z.log2 v))) v
              EmptyString) as (c & s & E & Hc).
  { pose proof (log2_fuel v Hv). lia. }
  unfold digits. rewrite E. unfold unpadded.
  destruct c as [[] [] [] [] [] [] [] []]; try exact I.
  congruence.
Qed.

(** ** Counting ones *)

Lemma popcount_half (n : Z) :
  0 <= n -> popcount n = popcount (n / 2) + n mod 2.
Proof.
  intros Hn. destruct n as [| p | p]; [reflexivity | | lia].
  destruct p as [q | q | ].
  - change (popcount (Z.pos q~1)) with (1 + popcount (Z.pos q)).
    replace (Z.pos q~1) with (1 + Z.pos q * 2) by lia.
    rewrite Z.div_add, Z.mod_add by lia.
    change (1 / 2) with 0. change (1 mod 2) with 1. rewrite Z.add_0_l. lia.
  - change (popcount (Z.pos q~0)) with (popcount (Z.pos q)).
    replace (Z.pos q~0) with (0 + Z.pos q * 2) by lia.
    rewrite Z.div_add, Z.mod_add by lia.
    change (0 / 2) with 0. change (0 mod 2) with 0. rewrite Z.add_0_l. lia.
  - reflexivity.
Qed.

Lemma count_digits_aux_2 (fuel : nat) :
  forall n acc,
    0 <= n < 2 ^ Z.of_nat fuel ->
    count "1" (digits_aux fuel 2 n acc) = popcount n + count "1" acc.
Proof.
  induction fuel as [| fuel IH]; intros n acc Hn.
  - simpl in Hn. replace n with 0 by lia. reflexivity.
  - simpl digits_aux.
    assert (Hm : n mod 2 = 0 \/ n mod 2 = 1)
      by (pose proof (Z.mod_pos_bound n 2); lia).
    assert (Hc : count "1" (String (digit_char (n mod 2)) acc)
                 = n mod 2 + count "1" acc)
      by (destruct Hm as [-> | ->]; reflexivity).
    destruct (Z.eqb_spec (n / 2) 0) as [Hz | Hz].
    + rewrite Hc, (popcount_half n), Hz by lia. reflexivity.
    + rewrite IH by (apply half_fuel; lia).
      rewrite Hc, (popcount_half n) by lia. lia.
Qed.

Lemma count_digits_2 (n : Z) :
  0 <= n -> count "1" (digits 2 n) = popcount n.
Proof.
  intros Hn. unfold digits.
  rewrite count_digits_aux_2 by (apply log2_fuel; exact Hn).
  simpl. lia.
Qed.

(** [bin(data).count('1')] is the number of set bits. *)
Lemma count_bin (v : Z) : count "1" (bin v) = popcount v.
Proof.
  unfold bin. destruct (Z.ltb_spec v 0) as [Hneg | Hpos].
  - change (count "1" ("-0b" ++ digits 2 (- v)))
      with (0 + (0 + (0 + count "1" (digits 2 (- v))))).
    rewrite count_digits_2 by lia.
    destruct v; try lia. reflexivity.
  - change (count "1" ("0b" ++ digits 2 v))
      with (0 + (0 + count "1" (digits 2 v))).
    rewrite count_digits_2 by lia. lia.
Qed.

Lemma mod2_odd (a : Z) : (a mod 2 =? 1) = Z.odd a.
Proof. rewrite Zmod_odd. destruct (Z.odd a); reflexivity. Qed.

Lemma mod2_even (a : Z) : (a mod 2 =? 0) = Z.even a.
Proof. rewrite Zmod_even. destruct (Z.even a); reflexivity. Qed.

(** ** Shifting the data bits in *)

Lemma testbit_b2z (b : bool) (j : Z) :
  Z.testbit (Z.b2z b) j = (j =? 0) && b.
Proof.
  destruct (Z.eqb_spec j 0) as [-> | Hj].
  - apply Z.b2z_bit0.
  - destruct b; simpl; [ | apply Z.bits_0].
    destruct j; try reflexivity; lia.
Qed.

Lemma fold_left_snoc {A B : Type} (f : A -> B -> A) (l : list B) (b : B) (a : A) :
  fold_left f (l ++ [b]) a = f (fold_left f l a) b.
Proof. now rewrite fold_left_app. Qed.

Lemma shift_in_nonneg (o : Options) (v : Z) (b : bool) :
  0 <= v -> 0 <= shift_in o v b.
Proof.
  intros Hv. unfold shift_in.
  assert (0 <= Z.b2z b) by (destruct b; simpl; lia).
  destruct (String.eqb (bit_order o) "lsb-first");
    apply Z.lor_nonneg; split;
    try (apply Z.shiftr_nonneg; lia); apply Z.shiftl_nonneg; lia.
Qed.

Lemma fold_shift_in_nonneg (o : Options) (bits : list bool) :
  0 <= fold_left (shift_in o) bits 0.
Proof.
  induction bits as [| b bits IH] using rev_ind; [simpl; lia | ].
  rewrite fold_left_snoc. now apply shift_in_nonneg.
Qed.

Lemma shift_in_lsb (o : Options) (v : Z) (b : bool) :
  bit_order o = "lsb-first"%string ->
  shift_in o v b
  = Z.lor (Z.shiftr v 1) (Z.shiftl (Z.b2z b) (num_data_bits o - 1)).
Proof. intros Ho. unfold shift_in. now rewrite Ho. Qed.

Lemma shift_in_msb (o : Options) (v : Z) (b : bool) :
  bit_order o <> "lsb-first"%string ->
  shift_in o v b = Z.lor (Z.shiftl v 1) (Z.shiftl (Z.b2z b) 0).
Proof.
  intros Ho. apply String.eqb_neq in Ho. unfold shift_in. now rewrite Ho.
Qed.

(** With least significant bit first, after [k] of [n] bits the value
    holds them in positions [n - k] to [n - 1]. *)
Lemma fold_lsb_first (o : Options) (bits : list bool) :
  bit_order o = "lsb-first"%string ->
  Z.of_nat (List.length bits) <= num_data_bits o ->
  forall j, 0 <= j ->
    Z.testbit (fold_left (shift_in o) bits 0) j
    = if (num_data_bits o - Z.of_nat (List.length bits) <=? j)
         && (j <? num_data_bits o)
      then received bits (j - (num_data_bits o - Z.of_nat (List.length bits)))
      else false.
Proof.
  intros Ho. induction bits as [| b bits IH] using rev_ind; intros Hlen j Hj.
  - simpl. rewrite Z.bits_0. unfold received.
    destruct (_ && _); [ | reflexivity]. now destruct (Z.to_nat _).
  - rewrite length_app in *. simpl List.length in *.
    rewrite fold_left_snoc, shift_in_lsb by exact Ho.
    rewrite Z.lor_spec, Z.shiftr_spec, Z.shiftl_spec, testbit_b2z by lia.
    rewrite IH by lia. unfold received.
    set (n := num_data_bits o) in *. set (k := List.length bits) in *.
    destruct (Z.leb_spec (n - Z.of_nat (k + 1)) j);
      destruct (Z.ltb_spec j n); destruct (Z.leb_spec (n - Z.of_nat k) (j + 1));
      destruct (Z.ltb_spec (j + 1) n); destruct (Z.eqb_spec (j - (n - 1)) 0);
      simpl; try lia; try reflexivity.
    + rewrite app_nth1 by (fold k; lia). rewrite orb_false_r. f_equal. lia.
    + replace (Z.to_nat (j - (n - Z.of_nat (k + 1)))) with k by lia.
      unfold k. now rewrite nth_middle.
Qed.

(** With most significant bit first, after [k] bits the value holds them
    in positions [k - 1] down to [0]. *)
Lemma fold_msb_first (o : Options) (bits : list bool) :
  bit_order o <> "lsb-first"%string ->
  forall j, 0 <= j ->
    Z.testbit (fold_left (shift_in o) bits 0) j
    = if j <? Z.of_nat (List.length bits)
      then received bits (Z.of_nat (List.length bits) - 1 - j)
      else false.
Proof.
  intros Ho.
  induction bits as [| b bits IH] using rev_ind; intros j Hj.
  - simpl. rewrite Z.bits_0. unfold received.
    destruct (j <? 0); [now destruct (Z.to_nat _) | reflexivity].
  - rewrite length_app. simpl List.length.
    rewrite fold_left_snoc, shift_in_msb by exact Ho.
    rewrite Z.lor_spec, !Z.shiftl_spec, testbit_b2z by lia.
    rewrite Z.sub_0_r. unfold received.
    set (k := List.length bits) in *.
    destruct (Z.eqb_spec j 0) as [-> | Hnz].
    + rewrite Z.testbit_neg_r by lia. simpl.
      destruct (Z.ltb_spec 0 (Z.of_nat (k + 1))); [ | lia].
      replace (Z.to_nat (Z.of_nat (k + 1) - 1 - 0)) with k by lia.
      unfold k. now rewrite nth_middle.
    + rewrite IH by lia. simpl. rewrite orb_false_r. unfold received.
      fold k.
      destruct (Z.ltb_spec (j - 1) (Z.of_nat k));
        destruct (Z.ltb_spec j (Z.of_nat (k + 1))); try lia; try reflexivity.
      rewrite app_nth1 by (fold k; lia). f_equal. lia.
Qed.

(** A non-negative integer without bits from position [n] on is below
    [2 ^ n]. *)
Lemma below_pow2_of_bits (v n : Z) :
  0 <= v -> 0 <= n ->
  (forall j, n <= j -> Z.testbit v j = false) ->
  v < 2 ^ n.
Proof.
  intros Hv Hn Hbits.
  destruct (Z.eq_dec v 0) as [-> | Hnz]; [apply Z.pow_pos_nonneg; lia | ].
  apply Z.log2_lt_pow2; [lia | ].
  destruct (Z.lt_ge_cases (Z.log2 v) n) as [Hlt | Hge]; [exact Hlt | ].
  specialize (Hbits (Z.log2 v) Hge).
  rewrite Z.bit_log2 in Hbits by lia. discriminate.
Qed.

(** The value of a complete group of data bits. *)
Lemma complete_value (o : Options) (bits : list bool) :
  Z.of_nat (List.length bits) = num_data_bits o ->
  let v := fold_left (shift_in o) bits 0 in
  0 <= v < 2 ^ num_data_bits o
  /\ (forall i, 0 <= i < num_data_bits o ->
        Z.testbit v (bit_position o i) = received bits i)
  /\ (forall j, num_data_bits o <= j -> Z.testbit v j = false).
Proof.
  intros Hlen v.
  assert (Hhigh : forall j, num_data_bits o <= j -> Z.testbit v j = false).
  { intros j Hj. unfold v.
    destruct (String.eqb_spec (bit_order o) "lsb-first") as [Ho | Ho].
    - rewrite fold_lsb_first by (try exact Ho; lia).
      destruct (Z.ltb_spec j (num_data_bits o)); [lia | ].
      now rewrite andb_false_r.
    - rewrite fold_msb_first by (try exact Ho; lia).
      destruct (Z.ltb_spec j (Z.of_nat (List.length bits))); [lia | ].
      reflexivity. }
  split; [ | split]; [ | | exact Hhigh].
  - split; [apply fold_shift_in_nonneg | ].
    apply below_pow2_of_bits; [apply fold_shift_in_nonneg | lia | exact Hhigh].
  - intros i Hi. unfold v, bit_position.
    destruct (String.eqb_spec (bit_order o) "lsb-first") as [Ho | Ho].
    + rewrite fold_lsb_first by (try exact Ho; lia).
      destruct (Z.leb_spec (num_data_bits o - Z.of_nat (List.length bits)) i);
        [ | lia].
      destruct (Z.ltb_spec i (num_data_bits o)); [ | lia].
      simpl. f_equal. lia.
    + rewrite fold_msb_first by (try exact Ho; lia).
      destruct (Z.ltb_spec (num_data_bits o - 1 - i)
                  (Z.of_nat (List.length bits))); [ | lia].
      f_equal. lia.
Qed.

(** ** [format_value] *)

Lemma format_value_roundtrip (o : Options) (fmt : string) (v : Z) :
  0 <= v ->
  In fmt ["hex"; "oct"; "bin"; "dec"]%string ->
  exists s, format_value (with_format o fmt) v = Some s
            /\ parse_base (format_base fmt) s = Some v.
Proof.
  intros Hv Hin. simpl in Hin.
  destruct Hin as [<- | [<- | [<- | [<- | []]]]];
    eexists; (split; [reflexivity | ]);
    apply parse_format_int; simpl; lia.
Qed.

(** C2: [parity_ok] accepts a zero parity bit for "zero", a one for "one",
    an odd number of ones among the data bits and the parity bit for
    "odd", and an even number of them for "even", whatever the data. *)
Theorem parity_ok_spec (parity_bit data num_bits : Z) :
  parity_ok "zero" parity_bit data num_bits = Some (parity_bit =? 0)
  /\ parity_ok "one" parity_bit data num_bits = Some (parity_bit =? 1)
  /\ parity_ok "odd" parity_bit data num_bits
     = Some (Z.odd (popcount data + parity_bit))
  /\ parity_ok "even" parity_bit data num_bits
     = Some (Z.even (popcount data + parity_bit)).
Proof.
  repeat split; unfold parity_ok; simpl String.eqb; cbv iota;
    try reflexivity; rewrite count_bin.
  - now rewrite mod2_odd.
  - now rewrite mod2_even.
Qed.

(** C3: for 5 to 9 data bits and either bit order, shifting the received
    bits in from 0 gives the integer whose bit [i] (least significant bit
    first) or bit [n - 1 - i] (most significant bit first) is the [i]-th
    received bit and which has no other bit set; and the texts of that
    value in the formats hex, oct, bin and dec parse back to it in base
    16, 8, 2 and 10. *)
Theorem data_bits_roundtrip (o : Options) (bits : list bool) :
  5 <= num_data_bits o <= 9 ->
  Z.of_nat (List.length bits) = num_data_bits o ->
  let v := fold_left (shift_in o) bits 0 in
  (forall i, 0 <= i < num_data_bits o ->
     Z.testbit v (bit_position o i) = received bits i)
  /\ (forall j, num_data_bits o <= j -> Z.testbit v j = false)
  /\ 0 <= v < 2 ^ num_data_bits o
  /\ (forall fmt, In fmt ["hex"; "oct"; "bin"; "dec"]%string ->
        exists s, format_value (with_format o fmt) v = Some s
                  /\ parse_base (format_base fmt) s = Some v).
Proof.
  intros _ Hlen v.
  destruct (complete_value o bits Hlen) as (Hrange & Hbits & Hhigh).
  repeat split; try assumption; try apply Hrange.
  intros fmt Hin. apply format_value_roundtrip; [apply Hrange | exact Hin].
Qed.

Lemma data_bits_roundtrip_witness :
  5 <= num_data_bits default_options <= 9
  /\ Z.of_nat (List.length scenario_bits) = num_data_bits default_options
  /\ fold_left (shift_in default_options) scenario_bits 0 = 65
  /\ (forall i, 0 <= i < 8 ->
        Z.testbit 65 (bit_position default_options i)
        = received scenario_bits i)
  /\ exists s, format_value (with_format default_options "hex") 65 = Some s
               /\ parse_base 16 s = Some 65.
Proof.
  assert (H1 : 5 <= num_data_bits default_options <= 9) by (simpl; lia).
  assert (H2 : Z.of_nat (List.length scenario_bits)
               = num_data_bits default_options) by reflexivity.
  destruct (data_bits_roundtrip default_options scenario_bits H1 H2)
    as (B & _ & _ & F).
  split; [exact H1 | ]. split; [exact H2 | ]. split; [reflexivity | ].
  split; [exact B | ].
  apply (F "hex"%string). simpl; auto.
Defined.

Lemma five_to_nine (n : Z) :
  5 <= n <= 9 -> n = 5 \/ n = 6 \/ n = 7 \/ n = 8 \/ n = 9.
Proof. lia. Qed.

(** Text of a value in one of the padded formats: it parses back in the
    base and has exactly [width] digits. *)
Lemma padded_numeral (base : Z) (width : nat) (v : Z) :
  2 <= base <= 16 -> (1 <= width)%nat -> 0 <= v < base ^ Z.of_nat width ->
  parse_base base (format_int base width v) = Some v
  /\ String.length (format_int base width v) = width.
Proof.
  intros Hb Hw Hv. split.
  - apply parse_format_int; lia.
  - apply length_format_int; lia.
Qed.

(** C10: [format_value] renders a data value [v] of an [n]-bit frame
    (5 <= n <= 9, 0 <= v < 2^n) as follows. ascii: the single character
    with code [v] when 32 <= v <= 126, otherwise an upper-case hexadecimal
    numeral of [v] between brackets, of 2 digits when n <= 8 and 3
    otherwise. dec: the decimal numeral without padding. hex, oct, bin: a
    numeral of exactly ceiling(n/4), ceiling(n/3) and n digits. And the
    four unit checks "A", "[C8]", "0A" and "00101". *)
Theorem format_value_spec (o : Options) (v : Z) :
  5 <= num_data_bits o <= 9 ->
  0 <= v < 2 ^ num_data_bits o ->
  (format o = "ascii"%string -> 32 <= v <= 126 ->
     exists c, format_value o v = Some (String c EmptyString)
               /\ Z.of_N (N_of_ascii c) = v)
  /\ (format o = "ascii"%string -> ~ 32 <= v <= 126 ->
        exists h, format_value o v = Some ("[" ++ h ++ "]")%string
                  /\ parse_base 16 h = Some v
                  /\ String.length h
                     = if num_data_bits o <=? 8 then 2%nat else 3%nat)
  /\ (format o = "dec"%string ->
        exists s, format_value o v = Some s
                  /\ parse_base 10 s = Some v /\ unpadded s)
  /\ (format o = "hex"%string ->
        exists s w, format_value o v = Some s
                    /\ parse_base 16 s = Some v
                    /\ Z.of_nat (String.length s) = w
                    /\ 4 * (w - 1) < num_data_bits o <= 4 * w)
  /\ (format o = "oct"%string ->
        exists s w, format_value o v = Some s
                    /\ parse_base 8 s = Some v
                    /\ Z.of_nat (String.length s) = w
                    /\ 3 * (w - 1) < num_data_bits o <= 3 * w)
  /\ (format o = "bin"%string ->
        exists s, format_value o v = Some s
                  /\ parse_base 2 s = Some v
                  /\ Z.of_nat (String.length s) = num_data_bits o)
  /\ format_value (mkOptions 115200 8 "none" "yes" 1.0%float "lsb-first"
                     "ascii" "no" "no") 65 = Some "A"%string
  /\ format_value (mkOptions 115200 8 "none" "yes" 1.0%float "lsb-first"
                     "ascii" "no" "no") 200 = Some "[C8]"%string
  /\ format_value (mkOptions 115200 8 "none" "yes" 1.0%float "lsb-first"
                     "hex" "no" "no") 10 = Some "0A"%string
  /\ format_value (mkOptions 115200 5 "none" "yes" 1.0%float "lsb-first"
                     "bin" "no" "no") 5 = Some "00101"%string.
Proof.
  intros Hn Hv.
  split; [ | split; [ | split; [ | split; [ | split; [ | split ]]]]].
  - intros Hf Hp. unfold format_value. rewrite Hf. simpl String.eqb. cbv iota.
    destruct (Z.leb_spec 32 v); [ | lia].
    destruct (Z.ltb_spec v (126 + 1)); [ | lia].
    simpl andb. cbv iota. unfold chr. eexists. split; [reflexivity | ].
    rewrite N_ascii_embedding by lia. lia.
  - intros Hf Hp. unfold format_value. rewrite Hf. simpl String.eqb. cbv iota.
    assert (E : (32 <=? v) && (v <? 126 + 1) = false).
    { destruct (Z.leb_spec 32 v); destruct (Z.ltb_spec v (126 + 1));
        simpl; try reflexivity; lia. }
    rewrite E.
    assert (v < 512).
    { apply Z.lt_le_trans with (2 ^ num_data_bits o); [lia | ].
      change 512 with (2 ^ 9). apply Z.pow_le_mono_r; lia. }
    destruct (Z.leb_spec (num_data_bits o) 8) as [H8 | H8].
    + assert (v < 256).
      { apply Z.lt_le_trans with (2 ^ num_data_bits o); [lia | ].
        change 256 with (2 ^ 8). apply Z.pow_le_mono_r; lia. }
      exists (format_int 16 2 v). split; [reflexivity | ].
      apply padded_numeral; simpl; lia.
    + exists (format_int 16 3 v). split; [reflexivity | ].
      apply padded_numeral; simpl; lia.
  - intros Hf. unfold format_value. rewrite Hf. simpl String.eqb. cbv iota.
    eexists. split; [reflexivity | ]. split.
    + apply parse_format_int; lia.
    + apply unpadded_format_dec; lia.
  - intros Hf. unfold format_value. rewrite Hf. simpl String.eqb. cbv iota.
    destruct (five_to_nine _ Hn) as [E | [E | [E | [E | E]]]];
      rewrite E in *; simpl in Hv;
      do 2 eexists; (split; [reflexivity | ]);
      match goal with
      | |- parse_base _ (format_int ?b ?w v) = _ /\ _ =>
          destruct (padded_numeral b w v) as [P L];
          [lia | simpl; lia | simpl; lia | ];
          split; [exact P | split; [rewrite L; reflexivity | simpl; lia]]
      end.
  - intros Hf. unfold format_value. rewrite Hf. simpl String.eqb. cbv iota.
    destruct (five_to_nine _ Hn) as [E | [E | [E | [E | E]]]];
      rewrite E in *; simpl in Hv;
      do 2 eexists; (split; [reflexivity | ]);
      match goal with
      | |- parse_base _ (format_int ?b ?w v) = _ /\ _ =>
          destruct (padded_numeral b w v) as [P L];
          [lia | simpl; lia | simpl; lia | ];
          split; [exact P | split; [rewrite L; reflexivity | simpl; lia]]
      end.
  - intros Hf. unfold format_value. rewrite Hf. simpl String.eqb. cbv iota.
    destruct (five_to_nine _ Hn) as [E | [E | [E | [E | E]]]];
      rewrite E in *; simpl in Hv;
      eexists; (split; [reflexivity | ]);
      match goal with
      | |- parse_base _ (format_int ?b ?w v) = _ /\ _ =>
          destruct (padded_numeral b w v) as [P L];
          [lia | simpl; lia | simpl; lia | ];
          split; [exact P | rewrite L; reflexivity]
      end.
  - repeat split; reflexivity.
Qed.

(** ** Running the methods *)

Lemma bind_run {A B : Type} (m : M A) (k : A -> M B) (d d' : Decoder) (a : A) :
  m d = (Ok a, d') -> bind m k d = k a d'.
Proof. intros H. unfold bind. now rewrite H. Qed.

Lemma bind_assoc {A B C : Type} (m : M A) (f : A -> M B) (g : B -> M C)
    (d : Decoder) :
  bind (bind m f) g d = bind m (fun a => bind (f a) g) d.
Proof. unfold bind. destruct (m d) as [[a | e] d']; reflexivity. Qed.

Lemma bind_ext {A B : Type} (m : M A) (k k' : A -> M B) (d : Decoder) :
  (forall a d', k a d' = k' a d') -> bind m k d = bind m k' d.
Proof. intros H. unfold bind. destruct (m d) as [[a | e] d']; auto. Qed.

Lemma attr_run {A : Type} (name : string) (f : Decoder -> option A)
    (d : Decoder) (a : A) :
  f d = Some a -> attr name f d = (Ok a, d).
Proof. intros H. unfold attr. now rewrite H. Qed.

Lemma lift_run {A : Type} (r : outcome A) (d : Decoder) (a : A) :
  r = Ok a -> lift r d = (Ok a, d).
Proof. intros ->. reflexivity. Qed.

Section Puts.
Variables (d : Decoder) (w : float) (lo hi : Z) (dat : data).
Hypothesis Hw : bit_width d = Some w.
Hypothesis Hlo : floor (w / 2)%float = Ok lo.
Hypothesis Hhi : ceil (w / 2)%float = Ok hi.

Lemma putp_run :
  putp dat d
  = (Ok tt, emit (samplenum d - lo) (samplenum d + hi) OUTPUT_PYTHON dat d).
Proof.
  unfold putp, put, bind, gets, attr, lift, modify. now rewrite Hw, Hlo, Hhi.
Qed.

Lemma putg_run :
  putg dat d
  = (Ok tt, emit (samplenum d - lo) (samplenum d + hi) OUTPUT_ANN dat d).
Proof.
  unfold putg, put, bind, gets, attr, lift, modify. now rewrite Hw, Hlo, Hhi.
Qed.

Lemma putx_run (rxtx : line) :
  putx rxtx dat d
  = (Ok tt, emit (sel (startsample d) rxtx - lo) (samplenum d + hi)
              OUTPUT_ANN dat d).
Proof.
  unfold putx, put, bind, gets, attr, lift, modify. now rewrite Hw, Hlo, Hhi.
Qed.

Lemma putpx_run (rxtx : line) :
  putpx rxtx dat d
  = (Ok tt, emit (sel (startsample d) rxtx - lo) (samplenum d + hi)
              OUTPUT_PYTHON dat d).
Proof.
  unfold putpx, put, bind, gets, attr, lift, modify. now rewrite Hw, Hlo, Hhi.
Qed.

Lemma putbin_run (rxtx : line) :
  putbin rxtx dat d
  = (Ok tt, emit (sel (startsample d) rxtx - lo) (samplenum d + hi)
              OUTPUT_BINARY dat d).
Proof.
  unfold putbin, put, bind, gets, attr, lift, modify. now rewrite Hw, Hlo, Hhi.
Qed.
End Puts.

Ltac norm_state :=
  cbn [set_samplerate set_bit_width set_bw set_samplenum set_matched
       set_frame_start set_startbit set_cur_data_bit set_datavalue
       set_paritybit set_stopbit1 set_startsample set_state set_databits
       set_out set_waits emit
       samplerate bit_width bw samplenum matched frame_start startbit
       cur_data_bit datavalue paritybit stopbit1 startsample state databits
       out waits sel upd fst snd line_id Z.b2z negb Z.eqb Pos.eqb].

Ltac resolve_test c :=
  first [ match goal with H : c = _ |- _ => rewrite H end
        | destruct c eqn:? ].

Ltac norm_all :=
  cbn [set_samplerate set_bit_width set_bw set_samplenum set_matched
       set_frame_start set_startbit set_cur_data_bit set_datavalue
       set_paritybit set_stopbit1 set_startsample set_state set_databits
       set_out set_waits emit
       samplerate bit_width bw samplenum matched frame_start startbit
       cur_data_bit datavalue paritybit stopbit1 startsample state databits
       out waits sel upd fst snd line_id Z.b2z negb Z.eqb Pos.eqb] in *.

(** One step of a method: the first action of the goal's computation. *)
Ltac method_step :=
  norm_state;
  lazymatch goal with
  | |- bind (bind _ _) _ _ = _ => rewrite bind_assoc
  | |- bind (if ?c then _ else _) _ _ = _ => resolve_test c
  | |- bind (match ?c with Some _ => _ | None => _ end) _ _ = _ =>
      resolve_test c
  | |- (if ?c then _ else _) _ = _ => resolve_test c
  | |- bind (putp _) _ _ = _ =>
      erewrite bind_run by (eapply putp_run; eassumption)
  | |- bind (putg _) _ _ = _ =>
      erewrite bind_run by (eapply putg_run; eassumption)
  | |- bind (putx _ _) _ _ = _ =>
      erewrite bind_run by (eapply putx_run; eassumption)
  | |- bind (putpx _ _) _ _ = _ =>
      erewrite bind_run by (eapply putpx_run; eassumption)
  | |- bind (putbin _ _) _ _ = _ =>
      erewrite bind_run by (eapply putbin_run; eassumption)
  | |- bind (attr _ _) _ _ = _ =>
      erewrite bind_run by (eapply attr_run; eassumption)
  | |- bind (lift _) _ _ = _ =>
      erewrite bind_run by (eapply lift_run; eassumption)
  | |- bind _ _ _ = _ => erewrite bind_run by reflexivity
  end;
  cbv beta.

Ltac flatten_state :=
  cbv beta iota delta
    [set_samplerate set_bit_width set_bw set_samplenum set_matched
     set_frame_start set_startbit set_cur_data_bit set_datavalue
     set_paritybit set_stopbit1 set_startsample set_state set_databits
     set_out set_waits emit modify ret
     samplerate bit_width bw samplenum matched frame_start startbit
     cur_data_bit datavalue paritybit stopbit1 startsample state databits
     out waits sel upd fst snd line_id].

Ltac run_method := repeat method_step; flatten_state; try reflexivity.

Lemma inspect_sample_at (o : Options) (rxtx : line) (level inv : bool)
    (d : Decoder) :
  inspect_sample o rxtx level inv d
  = let signal := if inv then negb level else level in
    match sel (state d) rxtx with
    | WAIT_FOR_START_BIT => wait_for_start_bit rxtx signal d
    | GET_START_BIT => get_start_bit rxtx signal d
    | GET_DATA_BITS => get_data_bits o rxtx signal d
    | GET_PARITY_BIT => get_parity_bit o rxtx signal d
    | GET_STOP_BITS => get_stop_bits rxtx signal d
    end.
Proof.
  unfold inspect_sample, bind, gets.
  destruct (sel (state d) rxtx); reflexivity.
Qed.

Lemma wait_for_start_bit_run (rxtx : line) (signal : bool) (d : Decoder) :
  wait_for_start_bit rxtx signal d
  = (Ok tt, set_state rxtx GET_START_BIT (set_frame_start rxtx (samplenum d) d)).
Proof. reflexivity. Qed.

Lemma get_data_bits_done (o : Options) (rxtx : line) (signal : bool)
    (d : Decoder) (lo hi half width : Z) (bdata : list Z) :
  half_bit d lo hi half ->
  bw d = Some width ->
  num_data_bits o <= sel (cur_data_bit d) rxtx + 1 ->
  to_bytes_big (shift_in o (sel (datavalue d) rxtx) signal) width = Ok bdata ->
  get_data_bits o rxtx signal d
  = (Ok tt,
     with_data_group o rxtx bdata lo hi
       (with_data_bit o rxtx signal lo hi half d)).
Proof.
  intros (w & Hw & Hlo & Hhi & Hhalf) Hbw Hc Hbytes.
  apply Z.ltb_ge in Hc.
  unfold get_data_bits, with_data_group, with_data_bit, latch_startsample,
    after_data.
  revert Hc Hbytes.
  destruct rxtx; norm_state; intros Hc Hbytes.
  all: run_method.
Qed.

Lemma get_data_bits_more (o : Options) (rxtx : line) (signal : bool)
    (d : Decoder) (lo hi half : Z) :
  half_bit d lo hi half ->
  sel (cur_data_bit d) rxtx + 1 < num_data_bits o ->
  get_data_bits o rxtx signal d
  = (Ok tt, with_data_bit o rxtx signal lo hi half d).
Proof.
  intros (w & Hw & Hlo & Hhi & Hhalf) Hc.
  apply Z.ltb_lt in Hc.
  unfold get_data_bits, with_data_bit, latch_startsample.
  revert Hc.
  destruct rxtx; norm_state; intros Hc.
  all: run_method.
Qed.

Lemma get_start_bit_invalid (rxtx : line) (d : Decoder) (lo hi half : Z) :
  half_bit d lo hi half ->
  get_start_bit rxtx true d
  = (Ok tt,
     set_state rxtx WAIT_FOR_START_BIT
       (emit (samplenum d - lo) (samplenum d + hi) OUTPUT_ANN
          (Annotation (line_id rxtx + 10)
             ["Frame error"; "Frame err"; "FE"]%string)
          (emit (samplenum d - lo) (samplenum d + hi) OUTPUT_PYTHON
             (Packet "INVALID STARTBIT" (line_id rxtx) (PInt 1))
             (set_startbit rxtx 1 d)))).
Proof.
  intros (w & Hw & Hlo & Hhi & _).
  unfold get_start_bit. destruct rxtx; run_method.
Qed.

Lemma get_start_bit_valid (rxtx : line) (d : Decoder) (lo hi half : Z) :
  half_bit d lo hi half ->
  get_start_bit rxtx false d
  = (Ok tt,
     set_state rxtx GET_DATA_BITS
       (emit (samplenum d - lo) (samplenum d + hi) OUTPUT_ANN
          (Annotation (line_id rxtx + 2) ["Start bit"; "Start"; "S"]%string)
          (emit (samplenum d - lo) (samplenum d + hi) OUTPUT_PYTHON
             (Packet "STARTBIT" (line_id rxtx) (PInt 0))
             (set_startsample rxtx (-1)
                (set_datavalue rxtx 0
                   (set_cur_data_bit rxtx 0 (set_startbit rxtx 0 d))))))).
Proof.
  intros (w & Hw & Hlo & Hhi & _).
  unfold get_start_bit. destruct rxtx; run_method.
Qed.

Lemma get_parity_bit_run (o : Options) (rxtx : line) (signal : bool)
    (d : Decoder) (lo hi half : Z) :
  half_bit d lo hi half ->
  get_parity_bit o rxtx signal d
  = (Ok tt,
     set_state rxtx GET_STOP_BITS
       (emit (samplenum d - lo) (samplenum d + hi) OUTPUT_ANN
          (snd (parity_events o rxtx signal (sel (datavalue d) rxtx)))
          (emit (samplenum d - lo) (samplenum d + hi) OUTPUT_PYTHON
             (fst (parity_events o rxtx signal (sel (datavalue d) rxtx)))
             (set_paritybit rxtx (Z.b2z signal) d)))).
Proof.
  intros (w & Hw & Hlo & Hhi & _).
  unfold get_parity_bit, parity_events. destruct rxtx; run_method.
Qed.

Lemma get_stop_bits_valid (rxtx : line) (d : Decoder) (lo hi half : Z) :
  half_bit d lo hi half ->
  get_stop_bits rxtx true d
  = (Ok tt,
     set_state rxtx WAIT_FOR_START_BIT
       (emit (samplenum d - lo) (samplenum d + hi) OUTPUT_ANN
          (Annotation (line_id rxtx + 4) ["Stop bit"; "Stop"; "T"]%string)
          (emit (samplenum d - lo) (samplenum d + hi) OUTPUT_PYTHON
             (Packet "STOPBIT" (line_id rxtx) (PInt 1))
             (set_stopbit1 rxtx 1 d)))).
Proof.
  intros (w & Hw & Hlo & Hhi & _).
  unfold get_stop_bits. destruct rxtx; run_method.
Qed.

Lemma get_stop_bits_invalid (rxtx : line) (d : Decoder) (lo hi half : Z) :
  half_bit d lo hi half ->
  get_stop_bits rxtx false d
  = (Ok tt,
     set_state rxtx WAIT_FOR_START_BIT
       (emit (samplenum d - lo) (samplenum d + hi) OUTPUT_ANN
          (Annotation (line_id rxtx + 4) ["Stop bit"; "Stop"; "T"]%string)
          (emit (samplenum d - lo) (samplenum d + hi) OUTPUT_PYTHON
             (Packet "STOPBIT" (line_id rxtx) (PInt 0))
             (emit (samplenum d - lo) (samplenum d + hi) OUTPUT_ANN
                (Annotation (line_id rxtx + 10)
                   ["Frame error"; "Frame err"; "FE"]%string)
                (emit (samplenum d - lo) (samplenum d + hi) OUTPUT_PYTHON
                   (Packet "INVALID STOPBIT" (line_id rxtx) (PInt 0))
                   (set_stopbit1 rxtx 0 d)))))).
Proof.
  intros (w & Hw & Hlo & Hhi & _).
  unfold get_stop_bits. destruct rxtx; run_method.
Qed.

(** ** The data value fits its bytes *)

Lemma to_bytes_big_fits (n v : Z) :
  1 <= n -> 0 <= v < 2 ^ n ->
  exists bdata, to_bytes_big v ((n + 7) / 8) = Ok bdata.
Proof.
  intros Hn Hv. unfold to_bytes_big.
  assert (Hq : 0 <= (n + 7) / 8) by (apply Z.div_pos; lia).
  assert (Hle : n <= 8 * ((n + 7) / 8)).
  { pose proof (Z.div_mod (n + 7) 8 ltac:(lia)).
    pose proof (Z.mod_pos_bound (n + 7) 8 ltac:(lia)). lia. }
  destruct (Z.ltb_spec ((n + 7) / 8) 0); [lia | ].
  destruct (Z.ltb_spec v 0); [lia | ].
  assert (v < 256 ^ ((n + 7) / 8)).
  { change 256 with (2 ^ 8). rewrite <- Z.pow_mul_r by lia.
    apply Z.lt_le_trans with (2 ^ n); [lia | ].
    apply Z.pow_le_mono_r; lia. }
  destruct (Z.leb_spec (256 ^ ((n + 7) / 8)) v); [lia | ].
  simpl. eauto.
Qed.

Lemma logged_bits_snoc (log : list (Z * Z * Z)) (signal : bool) (s e : Z) :
  logged_bits (log ++ [(Z.b2z signal, s, e)]) = logged_bits log ++ [signal].
Proof.
  unfold logged_bits. rewrite map_app. simpl. now destruct signal.
Qed.

Lemma length_logged_bits (log : list (Z * Z * Z)) :
  List.length (logged_bits log) = List.length log.
Proof. apply length_map. Qed.

(** ** What a step leaves alone *)

Lemma line_inv_same (o : Options) (d d' : Decoder) (rxtx : line) :
  same_line d d' rxtx -> line_inv o d rxtx -> line_inv o d' rxtx.
Proof.
  intros (_ & _ & Hc & Hv & _ & _ & _ & Hs & Hl). unfold line_inv.
  now rewrite Hc, Hv, Hs, Hl.
Qed.

Lemma half_bit_same (d d' : Decoder) (lo hi half : Z) :
  same_setup d d' -> half_bit d lo hi half -> half_bit d' lo hi half.
Proof.
  intros (_ & Hw & _) (w & H & Hrest). exists w. now rewrite Hw.
Qed.

Lemma with_data_bit_fields (o : Options) (rxtx : line) (signal : bool)
    (lo hi half : Z) (d : Decoder) :
  let d' := with_data_bit o rxtx signal lo hi half d in
  sel (cur_data_bit d') rxtx = sel (cur_data_bit d) rxtx + 1
  /\ sel (datavalue d') rxtx = shift_in o (sel (datavalue d) rxtx) signal
  /\ sel (databits d') rxtx
     = sel (databits d) rxtx
       ++ [(Z.b2z signal, samplenum d - half, samplenum d + half)]
  /\ sel (state d') rxtx = sel (state d) rxtx
  /\ out d'
     = out d
       ++ [mkEmitted (samplenum d - lo) (samplenum d + hi) OUTPUT_ANN
             (Annotation (line_id rxtx + 12)
                [format_int 10 0 (Z.b2z signal)])]
  /\ same_line d d' (other rxtx)
  /\ same_setup d d'.
Proof.
  unfold with_data_bit, latch_startsample, same_line, same_setup.
  destruct rxtx; cbn [sel other]; destruct (_ =? -1);
    repeat split; flatten_state; reflexivity.
Qed.

Lemma with_data_group_fields (o : Options) (rxtx : line) (bdata : list Z)
    (lo hi : Z) (d : Decoder) :
  let d' := with_data_group o rxtx bdata lo hi d in
  sel (cur_data_bit d') rxtx = sel (cur_data_bit d) rxtx
  /\ sel (datavalue d') rxtx = sel (datavalue d) rxtx
  /\ sel (databits d') rxtx = []
  /\ sel (state d') rxtx = after_data o
  /\ (exists rest,
        out d'
        = out d
          ++ mkEmitted (sel (startsample d) rxtx - lo) (samplenum d + hi)
               OUTPUT_PYTHON
               (Packet "DATA" (line_id rxtx)
                  (PData (sel (datavalue d) rxtx) (sel (databits d) rxtx)))
             :: rest)
  /\ same_line d d' (other rxtx)
  /\ same_setup d d'.
Proof.
  unfold with_data_group, same_line, same_setup.
  destruct rxtx; cbn [sel other]; destruct (format_value o _);
    repeat split; try (flatten_state; reflexivity);
    eexists; flatten_state; rewrite <- !app_assoc; reflexivity.
Qed.

Lemma after_data_not_data (o : Options) : after_data o <> GET_DATA_BITS.
Proof. unfold after_data. destruct (String.eqb _ _); discriminate. Qed.

(** ** One step of a line's automaton *)

(** [inspect_sample] returns, keeps the invariant of its line, and leaves
    the other line and the setup alone. *)
Lemma inspect_sample_step (o : Options) (rxtx : line) (level inv : bool)
    (d : Decoder) (lo hi half : Z) :
  1 <= num_data_bits o ->
  half_bit d lo hi half ->
  bw d = Some ((num_data_bits o + 7) / 8) ->
  line_inv o d rxtx ->
  exists d',
    inspect_sample o rxtx level inv d = (Ok tt, d')
    /\ line_inv o d' rxtx
    /\ same_line d d' (other rxtx)
    /\ same_setup d d'.
Proof.
  intros Hn Hhalf Hbw (Hc & Hinv).
  rewrite inspect_sample_at. cbv zeta. fold (seen level inv).
  destruct (sel (state d) rxtx) eqn:Hst.
  - rewrite wait_for_start_bit_run. eexists. split; [reflexivity | ].
    unfold line_inv, same_line, same_setup.
    destruct rxtx; norm_all; rewrite Hinv; repeat split; auto; lia.
  - destruct (seen level inv).
    + rewrite (get_start_bit_invalid _ _ lo hi half) by exact Hhalf.
      eexists. split; [reflexivity | ].
      unfold line_inv, same_line, same_setup.
      destruct rxtx; norm_all; rewrite Hinv; repeat split; auto; lia.
    + rewrite (get_start_bit_valid _ _ lo hi half) by exact Hhalf.
      eexists. split; [reflexivity | ].
      unfold line_inv, same_line, same_setup.
      destruct rxtx; norm_all; rewrite Hinv; repeat split; auto; lia.
  - destruct Hinv as (Hlt & Hlen & Hval).
    destruct (Z.lt_ge_cases (sel (cur_data_bit d) rxtx + 1) (num_data_bits o))
      as [Hmore | Hdone].
    + rewrite (get_data_bits_more _ _ _ _ lo hi half) by assumption.
      eexists. split; [reflexivity | ].
      destruct (with_data_bit_fields o rxtx (seen level inv) lo hi half d)
        as (Fc & Fv & Fl & Fs & _ & Fo & Fsame).
      split; [ | split; assumption].
      unfold line_inv. rewrite Fc, Fv, Fl, Fs, Hst.
      rewrite logged_bits_snoc, fold_left_snoc, length_app, <- Hval.
      simpl List.length. repeat split; lia.
    + assert (Hbits : Z.of_nat (List.length
                (logged_bits (sel (databits d) rxtx) ++ [seen level inv]))
              = num_data_bits o)
        by (rewrite length_app, length_logged_bits; simpl List.length; lia).
      destruct (complete_value o _ Hbits) as (Hrange & _).
      rewrite fold_left_snoc, <- Hval in Hrange.
      destruct (to_bytes_big_fits (num_data_bits o) _ Hn Hrange)
        as (bdata & Hbytes).
      rewrite (get_data_bits_done _ _ _ _ lo hi half
                 ((num_data_bits o + 7) / 8) bdata) by assumption.
      eexists. split; [reflexivity | ].
      destruct (with_data_bit_fields o rxtx (seen level inv) lo hi half d)
        as (Fc & Fv & Fl & Fs & _ & Fo & Fsetup).
      destruct (with_data_group_fields o rxtx bdata lo hi
                  (with_data_bit o rxtx (seen level inv) lo hi half d))
        as (Gc & Gv & Gl & Gs & _ & Go & Gsetup).
      split; [ | split].
      * unfold line_inv. rewrite Gc, Gl, Gs, Fc.
        pose proof (after_data_not_data o).
        destruct (after_data o); try contradiction; split; auto; lia.
      * unfold same_line in *. intuition congruence.
      * unfold same_setup in *. intuition congruence.
  - rewrite (get_parity_bit_run _ _ _ _ lo hi half) by exact Hhalf.
    eexists. split; [reflexivity | ].
    unfold line_inv, same_line, same_setup.
    destruct rxtx; norm_all; rewrite Hinv; repeat split; auto; lia.
  - destruct (seen level inv).
    + rewrite (get_stop_bits_valid _ _ lo hi half) by exact Hhalf.
      eexists. split; [reflexivity | ].
      unfold line_inv, same_line, same_setup.
      destruct rxtx; norm_all; rewrite Hinv; repeat split; auto; lia.
    + rewrite (get_stop_bits_invalid _ _ lo hi half) by exact Hhalf.
      eexists. split; [reflexivity | ].
      unfold line_inv, same_line, same_setup.
      destruct rxtx; norm_all; rewrite Hinv; repeat split; auto; lia.
Qed.

(** ** The wait condition *)

(** [math.ceil] of a double is the ceiling of the number it stands
    for. *)
Lemma ceil_exact (f : float) (z : Z) :
  ceil f = Ok z -> exists q, float_value f = Some q /\ z = Qceiling q.
Proof.
  unfold ceil, float_value.
  destruct (Prim2SF f) as [s | s | | s m e]; try discriminate; intros E;
    inversion E; subst z; clear E.
  - exists 0%Q. split; reflexivity.
  - eexists. split; [reflexivity | ]. cbv zeta.
    destruct (Z.ltb_spec e 0) as [Hneg | Hpos].
    + assert (Hp : Z.pos (2 ^ Z.to_pos (- e)) = 2 ^ (- e)).
      { rewrite Pos2Z.inj_pow, Z2Pos.id by lia. reflexivity. }
      unfold Qceiling, Qfloor, Qopp. cbn [Qnum Qden]. rewrite Hp.
      destruct s; rewrite Z.shiftl_div_pow2 by lia; reflexivity.
    + rewrite Qceiling_Z.
      destruct s; rewrite Z.shiftl_mul_pow2, <- Z.mul_opp_l by lia;
        reflexivity.
Qed.

(** C1, as stated, fails: the code computes the midpoint in binary64, and
    the ceiling of what it gets is not always the ceiling of the formula.
    At 2 MHz and 9600 baud, with the frame starting at sample 0, the code
    samples bit number 7 at 1563 where the formula, with the bit width
    2000000 / 9600, gives 1562.  With the bit width taken as the number
    the stored double stands for, the formula gives 313 for bit number 1,
    which the code samples at 312. *)
Lemma skip_target_counterexample :
  samplerate (fine_decoder 6) = Some 2000000
  /\ baudrate fine_options = 9600
  /\ sel (state (fine_decoder 6)) RX = GET_DATA_BITS
  /\ bit_number fine_options GET_DATA_BITS
       (sel (cur_data_bit (fine_decoder 6)) RX) = 7
  /\ fst (get_wait_cond fine_options RX false (fine_decoder 6))
     = Ok (Skip 1563)
  /\ exact_target (sel (frame_start (fine_decoder 6)) RX)
       (inject_Z 2000000 / inject_Z 9600) 7
     - samplenum (fine_decoder 6) = 1562
  /\ fst (get_wait_cond fine_options RX false (fine_decoder 6))
     <> Ok (Skip (exact_target (sel (frame_start (fine_decoder 6)) RX)
                    (inject_Z 2000000 / inject_Z 9600) 7
                  - samplenum (fine_decoder 6)))
  /\ (exists w q,
        bit_width (fine_decoder 0) = Some w
        /\ float_value w = Some q
        /\ fst (get_wait_cond fine_options RX false (fine_decoder 0))
           = Ok (Skip 312)
        /\ exact_target (sel (frame_start (fine_decoder 0)) RX) q
             (bit_number fine_options GET_DATA_BITS
                (sel (cur_data_bit (fine_decoder 0)) RX))
           - samplenum (fine_decoder 0) = 313).
Proof.
  repeat (split; [vm_compute; reflexivity | ]).
  split; [vm_compute; discriminate | ].
  eexists. eexists.
  split; [vm_compute; reflexivity | ].
  split; [vm_compute; reflexivity | ].
  split; vm_compute; reflexivity.
Qed.

(** C1, amended: in WAIT FOR START BIT [get_wait_cond] asks for an edge
    of its line, falling, or rising when the line is inverted. In every
    other state it asks to skip, from the current sample, to the ceiling
    of the midpoint as the code computes it in binary64,
    [(float(frame_start) + (bit_width - 1) / 2) + float(bitnum) * bit_width]
    with [bit_width] the stored double, where [bitnum] is 0 for the
    start bit, [1 + cur_data_bit] for a data bit, [1 + num_data_bits]
    for the parity bit and one more for the stop bit when there is a
    parity bit. Only the arithmetic of the midpoint is rounded: the
    sample asked for is the least integer not below the number that
    double stands for, so it is the sample of the formula over the reals
    whenever the double is the exact midpoint. The object is left as it
    was. *)
Theorem get_wait_cond_spec (o : Options) (rxtx : line) (inv : bool)
    (d : Decoder) :
  (sel (state d) rxtx = WAIT_FOR_START_BIT ->
     get_wait_cond o rxtx inv d
     = (Ok (Edge rxtx (if inv then Rising else Falling)), d))
  /\ (sel (state d) rxtx <> WAIT_FOR_START_BIT ->
      forall width, bit_width d = Some width ->
        get_wait_cond o rxtx inv d
        = (skip_to
             (bit_midpoint (sel (frame_start d) rxtx) width
                (bit_number o (sel (state d) rxtx)
                   (sel (cur_data_bit d) rxtx)))
             (samplenum d),
           d))
  /\ (sel (state d) rxtx <> WAIT_FOR_START_BIT ->
      forall width n, bit_width d = Some width ->
        fst (get_wait_cond o rxtx inv d) = Ok (Skip n) ->
        exists p q,
          double_midpoint (sel (frame_start d) rxtx) width
            (bit_number o (sel (state d) rxtx) (sel (cur_data_bit d) rxtx))
          = Ok p
          /\ float_value p = Some q
          /\ samplenum d + n = Qceiling q
          /\ (inject_Z (samplenum d + n - 1) < q
              <= inject_Z (samplenum d + n))%Q
          /\ (forall w : Q,
                (q == exact_midpoint (sel (frame_start d) rxtx) w
                        (bit_number o (sel (state d) rxtx)
                           (sel (cur_data_bit d) rxtx)))%Q ->
                samplenum d + n
                = exact_target (sel (frame_start d) rxtx) w
                    (bit_number o (sel (state d) rxtx)
                       (sel (cur_data_bit d) rxtx)))).
Proof.
  assert (Hskip : sel (state d) rxtx <> WAIT_FOR_START_BIT ->
            forall width, bit_width d = Some width ->
              get_wait_cond o rxtx inv d
              = (skip_to
                   (bit_midpoint (sel (frame_start d) rxtx) width
                      (bit_number o (sel (state d) rxtx)
                         (sel (cur_data_bit d) rxtx)))
                   (samplenum d),
                 d)).
  { intros Hst width Hw.
    unfold get_wait_cond, bit_midpoint, double_midpoint, skip_to, bit_number,
      bind at 1, gets at 1.
    cbv beta iota.
    destruct (sel (state d) rxtx); try contradiction;
      unfold get_sample_point, bind, gets, attr, lift, ret;
      cbv beta iota; rewrite Hw;
      destruct (float_of_int (sel (frame_start d) rxtx)); try reflexivity;
      cbv beta iota; rewrite ?Hw;
      destruct (float_of_int _); try reflexivity;
      cbv beta iota;
      destruct (ceil _); reflexivity. }
  split; [ | split; [exact Hskip | ]].
  - intros Hst. unfold get_wait_cond, bind, gets. now rewrite Hst.
  - intros Hst width n Hw. rewrite (Hskip Hst width Hw). cbn [fst].
    unfold skip_to, bit_midpoint.
    destruct (double_midpoint _ _ _) as [p | e]; [ | discriminate].
    destruct (ceil p) as [t | e] eqn:Hc; [ | discriminate].
    intros E. inversion E as [Ht].
    destruct (ceil_exact p t Hc) as (q & Hq & Hz).
    exists p, q. split; [reflexivity | ]. split; [exact Hq | ].
    assert (Hn : samplenum d + (t - samplenum d) = t) by lia.
    rewrite Hn. split; [exact Hz | ].
    subst t. split; [split; [apply Qceiling_lt | apply Qle_ceiling] | ].
    intros w Hexact. unfold exact_target. now rewrite <- Hexact.
Qed.

(** ** Start and stop bits *)

Ltac line_fields :=
  match goal with
  | rxtx : line |- _ =>
      destruct rxtx; norm_all; rewrite <- ?app_assoc; reflexivity
  end.

(** C5: a line in GET START BIT that samples a 1 puts out one INVALID
    STARTBIT packet and one frame-error annotation, nothing else, and is
    back in WAIT FOR START BIT; the other line is not touched. *)
Theorem invalid_start_bit (o : Options) (rxtx : line) (level inv : bool)
    (d : Decoder) (lo hi half : Z) :
  sel (state d) rxtx = GET_START_BIT ->
  half_bit d lo hi half ->
  seen level inv = true ->
  exists d',
    inspect_sample o rxtx level inv d = (Ok tt, d')
    /\ out d'
       = out d
         ++ [mkEmitted (samplenum d - lo) (samplenum d + hi) OUTPUT_PYTHON
               (Packet "INVALID STARTBIT" (line_id rxtx) (PInt 1));
             mkEmitted (samplenum d - lo) (samplenum d + hi) OUTPUT_ANN
               (Annotation (line_id rxtx + 10)
                  ["Frame error"; "Frame err"; "FE"]%string)]
    /\ sel (state d') rxtx = WAIT_FOR_START_BIT
    /\ same_line d d' (other rxtx).
Proof.
  intros Hst Hhalf Hseen.
  rewrite inspect_sample_at. cbv zeta. fold (seen level inv).
  rewrite Hst, Hseen, (get_start_bit_invalid _ _ lo hi half) by exact Hhalf.
  eexists. split; [reflexivity | ]. split; [line_fields | ].
  unfold same_line. destruct rxtx; norm_all; repeat split; reflexivity.
Qed.

(** C6: a line in GET STOP BITS that samples a 0 puts out the INVALID
    STOPBIT packet with a frame-error annotation and then the STOPBIT
    packet with the stop-bit annotation; whatever the level, the line is
    back in WAIT FOR START BIT, from where the next edge starts a frame
    and a start bit of 0 is taken as usual. *)
Theorem invalid_stop_bit (o : Options) (rxtx : line) (level inv : bool)
    (d : Decoder) (lo hi half : Z) :
  sel (state d) rxtx = GET_STOP_BITS ->
  half_bit d lo hi half ->
  exists d',
    inspect_sample o rxtx level inv d = (Ok tt, d')
    /\ sel (state d') rxtx = WAIT_FOR_START_BIT
    /\ (seen level inv = false ->
        out d'
        = out d
          ++ [mkEmitted (samplenum d - lo) (samplenum d + hi) OUTPUT_PYTHON
                (Packet "INVALID STOPBIT" (line_id rxtx) (PInt 0));
              mkEmitted (samplenum d - lo) (samplenum d + hi) OUTPUT_ANN
                (Annotation (line_id rxtx + 10)
                   ["Frame error"; "Frame err"; "FE"]%string);
              mkEmitted (samplenum d - lo) (samplenum d + hi) OUTPUT_PYTHON
                (Packet "STOPBIT" (line_id rxtx) (PInt 0));
              mkEmitted (samplenum d - lo) (samplenum d + hi) OUTPUT_ANN
                (Annotation (line_id rxtx + 4)
                   ["Stop bit"; "Stop"; "T"]%string)])
    /\ (seen level inv = true ->
        out d'
        = out d
          ++ [mkEmitted (samplenum d - lo) (samplenum d + hi) OUTPUT_PYTHON
                (Packet "STOPBIT" (line_id rxtx) (PInt 1));
              mkEmitted (samplenum d - lo) (samplenum d + hi) OUTPUT_ANN
                (Annotation (line_id rxtx + 4)
                   ["Stop bit"; "Stop"; "T"]%string)])
    /\ (forall (s1 s2 : Z) (m1 m2 : list bool) (level1 level2 : bool),
          seen level2 inv = false ->
          exists d1 d2,
            inspect_sample o rxtx level1 inv
              (set_matched m1 (set_samplenum s1 d')) = (Ok tt, d1)
            /\ sel (state d1) rxtx = GET_START_BIT
            /\ sel (frame_start d1) rxtx = s1
            /\ out d1 = out d'
            /\ inspect_sample o rxtx level2 inv
                 (set_matched m2 (set_samplenum s2 d1)) = (Ok tt, d2)
            /\ sel (state d2) rxtx = GET_DATA_BITS
            /\ out d2
               = out d'
                 ++ [mkEmitted (s2 - lo) (s2 + hi) OUTPUT_PYTHON
                       (Packet "STARTBIT" (line_id rxtx) (PInt 0));
                     mkEmitted (s2 - lo) (s2 + hi) OUTPUT_ANN
                       (Annotation (line_id rxtx + 2)
                          ["Start bit"; "Start"; "S"]%string)]).
Proof.
  intros Hst Hhalf.
  assert (Hnext :
    forall d', sel (state d') rxtx = WAIT_FOR_START_BIT ->
      half_bit d' lo hi half ->
      forall (s1 s2 : Z) (m1 m2 : list bool) (level1 level2 : bool),
        seen level2 inv = false ->
        exists d1 d2,
          inspect_sample o rxtx level1 inv
            (set_matched m1 (set_samplenum s1 d')) = (Ok tt, d1)
          /\ sel (state d1) rxtx = GET_START_BIT
          /\ sel (frame_start d1) rxtx = s1
          /\ out d1 = out d'
          /\ inspect_sample o rxtx level2 inv
               (set_matched m2 (set_samplenum s2 d1)) = (Ok tt, d2)
          /\ sel (state d2) rxtx = GET_DATA_BITS
          /\ out d2
             = out d'
               ++ [mkEmitted (s2 - lo) (s2 + hi) OUTPUT_PYTHON
                     (Packet "STARTBIT" (line_id rxtx) (PInt 0));
                   mkEmitted (s2 - lo) (s2 + hi) OUTPUT_ANN
                     (Annotation (line_id rxtx + 2)
                        ["Start bit"; "Start"; "S"]%string)]).
  { intros d' Hst' Hhalf' s1 s2 m1 m2 level1 level2 Hseen.
    do 2 eexists.
    split.
    { rewrite inspect_sample_at. cbv zeta.
      replace (sel (state (set_matched m1 (set_samplenum s1 d'))) rxtx)
        with WAIT_FOR_START_BIT by (symmetry; exact Hst').
      apply wait_for_start_bit_run. }
    split; [destruct rxtx; reflexivity | ].
    split; [destruct rxtx; reflexivity | ].
    split; [reflexivity | ].
    split.
    { rewrite inspect_sample_at. cbv zeta. fold (seen level2 inv).
      rewrite Hseen.
      match goal with
      | |- match sel (state ?x) rxtx with _ => _ end = _ =>
          replace (sel (state x) rxtx) with GET_START_BIT
            by (destruct rxtx; reflexivity)
      end.
      apply (get_start_bit_valid _ _ lo hi half). exact Hhalf'. }
    split; [destruct rxtx; reflexivity | ].
    line_fields. }
  rewrite inspect_sample_at. cbv zeta. fold (seen level inv). rewrite Hst.
  destruct (seen level inv).
  - rewrite (get_stop_bits_valid _ _ lo hi half) by exact Hhalf.
    eexists. split; [reflexivity | ].
    split; [destruct rxtx; reflexivity | ].
    split; [discriminate | ].
    split; [intros _; line_fields | ].
    apply Hnext; [destruct rxtx; reflexivity | exact Hhalf].
  - rewrite (get_stop_bits_invalid _ _ lo hi half) by exact Hhalf.
    eexists. split; [reflexivity | ].
    split; [destruct rxtx; reflexivity | ].
    split; [ | split; [discriminate | ]].
    + intros _. line_fields.
    + apply Hnext; [destruct rxtx; reflexivity | exact Hhalf].
Qed.

(** ** Starting to decode *)

(** C9: without a sample rate ([None], as after [reset], or 0) [decode]
    raises [SamplerateError] at once, and with one but neither RX nor TX
    present it raises [ChannelError] at once; the object, and with it the
    output and the list of waits, is as before the call, whatever the
    host would have answered. *)
Theorem decode_fails_fast (o : Options) (has_channel : line -> bool)
    (answers : list wait_result) (d : Decoder) :
  (not_samplerate (samplerate d) = true ->
     decode o has_channel answers d
     = (Raise (SamplerateError "Cannot decode without samplerate."), d))
  /\ (not_samplerate (samplerate d) = false ->
      has_channel RX = false -> has_channel TX = false ->
      decode o has_channel answers d
      = (Raise (ChannelError "Either TX or RX (or both) pins required."), d))
  /\ not_samplerate None = true
  /\ samplerate (reset d) = None.
Proof.
  split; [ | split; [ | split; reflexivity]].
  - intros Hs. unfold decode, bind, gets. rewrite Hs. reflexivity.
  - intros Hs Hrx Htx. unfold decode, bind, gets.
    rewrite Hs, Hrx, Htx. reflexivity.
Qed.

(** ** Options that are never read *)

Section SameDecoding.
Variables o o' : Options.
Hypothesis Hsame : same_decoding o o'.

Lemma same_decoding_inspect :
  inspect_sample o' = inspect_sample o.
Proof.
  destruct o, o', Hsame as (H1 & H2 & H3 & H4 & H5 & H6 & H7).
  cbn in H1, H2, H3, H4, H5, H6, H7. subst. reflexivity.
Qed.

Lemma same_decoding_wait_cond :
  get_wait_cond o' = get_wait_cond o.
Proof.
  destruct o, o', Hsame as (H1 & H2 & H3 & H4 & H5 & H6 & H7).
  cbn in H1, H2, H3, H4, H5, H6, H7. subst. reflexivity.
Qed.

Lemma same_decoding_build :
  build_conds o' = build_conds o.
Proof. unfold build_conds. now rewrite same_decoding_wait_cond. Qed.

Lemma same_decoding_dispatch :
  dispatch o' = dispatch o.
Proof. unfold dispatch. now rewrite same_decoding_inspect. Qed.

Lemma same_decoding_loop (has_pin inv : per_line bool)
    (answers : list wait_result) :
  forall cond_idx d,
    decode_loop o' has_pin inv cond_idx answers d
    = decode_loop o has_pin inv cond_idx answers d.
Proof.
  induction answers as [| a rest IH]; intros cond_idx d.
  - cbn [decode_loop]. now rewrite same_decoding_build.
  - cbn [decode_loop]. rewrite same_decoding_build, same_decoding_dispatch.
    apply bind_ext. intros [conds ci] d1.
    apply bind_ext. intros [rx tx] d2.
    apply bind_ext. intros _ d3.
    apply bind_ext. intros _ d4.
    apply IH.
Qed.

Lemma same_decoding_decode (has_channel : line -> bool)
    (answers : list wait_result) (d : Decoder) :
  decode o' has_channel answers d = decode o has_channel answers d.
Proof.
  unfold decode, bind, gets.
  destruct (not_samplerate (samplerate d)); [reflexivity | ].
  destruct (negb _ && negb _); [reflexivity | ].
  destruct Hsame as (_ & _ & _ & _ & _ & -> & ->).
  apply same_decoding_loop.
Qed.
End SameDecoding.

Lemma same_decoding_parity_check (o : Options) (v : string) :
  same_decoding o (with_parity_check o v).
Proof. repeat split. Qed.

Lemma same_decoding_num_stop_bits (o : Options) (v : float) :
  same_decoding o (with_num_stop_bits o v).
Proof. repeat split. Qed.

(** C7, as stated, fails: 2.0 is not among the stop-bit counts the
    decoder declares (and 0.0 is). *)
Lemma stop_bit_values_counterexample :
  ~ (forall x : float,
       In x num_stop_bits_values <-> In x [0.5; 1.0; 1.5; 2.0]%float).
Proof.
  intros H. destruct (H 2%float) as [_ H2].
  assert (Hin : In 2%float num_stop_bits_values) by (apply H2; simpl; auto).
  unfold num_stop_bits_values in Hin. simpl in Hin.
  destruct Hin as [E | [E | [E | [E | []]]]];
    apply (f_equal (fun x => PrimFloat.eqb x 2)) in E;
    vm_compute in E; discriminate.
Qed.

(** C7, amended: the declared stop-bit counts are 0.0, 0.5, 1.0 and 1.5,
    and whichever is configured the decoder takes one stop-bit sample per
    frame: the option changes neither a wait condition nor a step nor a
    run, and a line in GET STOP BITS records the sampled level as the
    first stop bit, checks it, and is in WAIT FOR START BIT right after. *)
Theorem stop_bits_spec (o : Options) (v : float) :
  (forall x : float,
     In x num_stop_bits_values
     <-> x = 0.0%float \/ x = 0.5%float \/ x = 1.0%float \/ x = 1.5%float)
  /\ (forall has_channel answers d,
        decode (with_num_stop_bits o v) has_channel answers d
        = decode o has_channel answers d)
  /\ (forall rxtx inv d,
        get_wait_cond (with_num_stop_bits o v) rxtx inv d
        = get_wait_cond o rxtx inv d)
  /\ (forall rxtx level inv d lo hi half,
        sel (state d) rxtx = GET_STOP_BITS ->
        half_bit d lo hi half ->
        exists d',
          inspect_sample (with_num_stop_bits o v) rxtx level inv d
          = (Ok tt, d')
          /\ sel (stopbit1 d') rxtx = Z.b2z (seen level inv)
          /\ sel (state d') rxtx = WAIT_FOR_START_BIT
          /\ (exists rest,
                out d'
                = out d
                  ++ mkEmitted (samplenum d - lo) (samplenum d + hi)
                       OUTPUT_PYTHON
                       (Packet (if seen level inv then "STOPBIT"
                                else "INVALID STOPBIT")
                          (line_id rxtx) (PInt (Z.b2z (seen level inv))))
                     :: rest)).
Proof.
  pose proof (same_decoding_num_stop_bits o v) as Hsame.
  split; [ | split; [ | split]].
  - intros x. unfold num_stop_bits_values. simpl. intuition congruence.
  - intros. now apply same_decoding_decode.
  - intros. now rewrite (same_decoding_wait_cond o _ Hsame).
  - intros rxtx level inv d lo hi half Hst Hhalf.
    rewrite (same_decoding_inspect o _ Hsame).
    rewrite inspect_sample_at. cbv zeta. fold (seen level inv). rewrite Hst.
    destruct (seen level inv).
    + rewrite (get_stop_bits_valid _ _ lo hi half) by exact Hhalf.
      eexists. split; [reflexivity | ].
      split; [line_fields | ]. split; [line_fields | ].
      destruct rxtx; eexists; norm_all; rewrite <- ?app_assoc; reflexivity.
    + rewrite (get_stop_bits_invalid _ _ lo hi half) by exact Hhalf.
      eexists. split; [reflexivity | ].
      split; [line_fields | ]. split; [line_fields | ].
      destruct rxtx; eexists; norm_all; rewrite <- ?app_assoc; reflexivity.
Qed.

(** C8: the [parity_check] option changes nothing: a run, a step and a
    wait condition are the same for any value of it. Whenever the parity
    type is not "none", the last data bit leads to GET PARITY BIT, and
    there the sampled bit is validated: a PARITYBIT packet and a parity
    annotation if [parity_ok] accepts it, a PARITY ERROR packet and a
    parity-error annotation otherwise. *)
Theorem parity_check_ignored (o : Options) (v : string) :
  (forall has_channel answers d,
     decode (with_parity_check o v) has_channel answers d
     = decode o has_channel answers d)
  /\ (forall rxtx level inv d,
        inspect_sample (with_parity_check o v) rxtx level inv d
        = inspect_sample o rxtx level inv d)
  /\ (forall rxtx inv d,
        get_wait_cond (with_parity_check o v) rxtx inv d
        = get_wait_cond o rxtx inv d)
  /\ (forall rxtx level inv d lo hi half,
        1 <= num_data_bits o ->
        half_bit d lo hi half ->
        bw d = Some ((num_data_bits o + 7) / 8) ->
        line_inv o d rxtx ->
        sel (state d) rxtx = GET_DATA_BITS ->
        sel (cur_data_bit d) rxtx + 1 = num_data_bits o ->
        parity_type o <> "none"%string ->
        exists d',
          inspect_sample (with_parity_check o v) rxtx level inv d
          = (Ok tt, d')
          /\ sel (state d') rxtx = GET_PARITY_BIT)
  /\ (forall rxtx level inv d lo hi half,
        sel (state d) rxtx = GET_PARITY_BIT ->
        half_bit d lo hi half ->
        exists d',
          inspect_sample (with_parity_check o v) rxtx level inv d
          = (Ok tt, d')
          /\ sel (state d') rxtx = GET_STOP_BITS
          /\ out d'
             = out d
               ++ if truthy (parity_ok (parity_type o)
                               (Z.b2z (seen level inv))
                               (sel (datavalue d) rxtx) (num_data_bits o))
                  then
                    [mkEmitted (samplenum d - lo) (samplenum d + hi)
                       OUTPUT_PYTHON
                       (Packet "PARITYBIT" (line_id rxtx)
                          (PInt (Z.b2z (seen level inv))));
                     mkEmitted (samplenum d - lo) (samplenum d + hi)
                       OUTPUT_ANN
                       (Annotation (line_id rxtx + 4)
                          ["Parity bit"; "Parity"; "P"]%string)]
                  else
                    [mkEmitted (samplenum d - lo) (samplenum d + hi)
                       OUTPUT_PYTHON
                       (Packet "PARITY ERROR" (line_id rxtx) (PTuple 0 1));
                     mkEmitted (samplenum d - lo) (samplenum d + hi)
                       OUTPUT_ANN
                       (Annotation (line_id rxtx + 6)
                          ["Parity error"; "Parity err"; "PE"]%string)]).
Proof.
  pose proof (same_decoding_parity_check o v) as Hsame.
  split; [ | split; [ | split; [ | split]]].
  - intros. now apply same_decoding_decode.
  - intros. now rewrite (same_decoding_inspect o _ Hsame).
  - intros. now rewrite (same_decoding_wait_cond o _ Hsame).
  - intros rxtx level inv d lo hi half Hn Hhalf Hbw Hinv Hst Hc Hpar.
    rewrite (same_decoding_inspect o _ Hsame).
    destruct Hinv as (_ & Hinv). rewrite Hst in Hinv.
    destruct Hinv as (_ & Hlen & Hval).
    assert (Hbits : Z.of_nat (List.length
              (logged_bits (sel (databits d) rxtx) ++ [seen level inv]))
            = num_data_bits o)
      by (rewrite length_app, length_logged_bits; simpl List.length; lia).
    destruct (complete_value o _ Hbits) as (Hrange & _).
    rewrite fold_left_snoc, <- Hval in Hrange.
    destruct (to_bytes_big_fits (num_data_bits o) _ Hn Hrange)
      as (bdata & Hbytes).
    rewrite inspect_sample_at. cbv zeta. fold (seen level inv). rewrite Hst.
    rewrite (get_data_bits_done _ _ _ _ lo hi half
               ((num_data_bits o + 7) / 8) bdata) by (assumption || lia).
    eexists. split; [reflexivity | ].
    destruct (with_data_group_fields o rxtx bdata lo hi
                (with_data_bit o rxtx (seen level inv) lo hi half d))
      as (_ & _ & _ & Gs & _).
    rewrite Gs. unfold after_data.
    apply String.eqb_neq in Hpar. now rewrite Hpar.
  - intros rxtx level inv d lo hi half Hst Hhalf.
    rewrite (same_decoding_inspect o _ Hsame).
    rewrite inspect_sample_at. cbv zeta. fold (seen level inv). rewrite Hst.
    rewrite (get_parity_bit_run _ _ _ _ lo hi half) by exact Hhalf.
    eexists. split; [reflexivity | ]. split; [line_fields | ].
    unfold parity_events.
    destruct (truthy _); line_fields.
Qed.

(** ** A whole run *)

Section Keeps.
Variable P : Decoder -> Prop.

Lemma keeps_bind {A B : Type} (m : M A) (k : A -> M B) :
  keeps P m -> (forall a, keeps P (k a)) -> keeps P (bind m k).
Proof.
  intros Hm Hk d Hd. unfold bind.
  specialize (Hm d Hd). destruct (m d) as [[a | e] d']; simpl in Hm.
  - now apply Hk.
  - exact Hm.
Qed.

Lemma keeps_ret {A : Type} (a : A) : keeps P (ret a).
Proof. intros d Hd. exact Hd. Qed.

Lemma keeps_raise {A : Type} (e : exn) : keeps P (@raise A e).
Proof. intros d Hd. exact Hd. Qed.

Lemma keeps_gets {A : Type} (f : Decoder -> A) : keeps P (gets f).
Proof. intros d Hd. exact Hd. Qed.

Lemma keeps_lift {A : Type} (r : outcome A) : keeps P (lift r).
Proof. intros d Hd. exact Hd. Qed.

Lemma keeps_attr {A : Type} (name : string) (f : Decoder -> option A) :
  keeps P (attr name f).
Proof. intros d Hd. unfold attr. destruct (f d); exact Hd. Qed.

Lemma keeps_modify (f : Decoder -> Decoder) :
  (forall d, P d -> P (f d)) -> keeps P (modify f).
Proof. intros Hf d Hd. now apply Hf. Qed.

(** [get_wait_cond] only reads. *)
Lemma keeps_get_wait_cond (o : Options) (rxtx : line) (inv : bool) :
  keeps P (get_wait_cond o rxtx inv).
Proof.
  unfold get_wait_cond, get_sample_point.
  apply keeps_bind; [apply keeps_gets | intros st].
  destruct st; try apply keeps_ret;
    repeat (apply keeps_bind; [ | intros ? ]);
    auto using keeps_ret, keeps_gets, keeps_lift, keeps_attr.
Qed.

Lemma keeps_build_conds (o : Options) (has_pin inv : per_line bool)
    (cond_idx : per_line (option nat)) :
  keeps P (build_conds o has_pin inv cond_idx).
Proof.
  unfold build_conds.
  apply keeps_bind.
  - destruct (sel has_pin RX); [ | apply keeps_ret].
    apply keeps_bind; [apply keeps_get_wait_cond | intros; apply keeps_ret].
  - intros [conds ci].
    destruct (sel has_pin TX); [ | apply keeps_ret].
    apply keeps_bind; [apply keeps_get_wait_cond | intros; apply keeps_ret].
Qed.
End Keeps.

Section RunInvariant.
Variables (o : Options) (lo hi half : Z).
Hypothesis Hbits : 1 <= num_data_bits o.

Lemma keeps_inspect_sample (rxtx : line) (level inv : bool) :
  keeps (decoder_ok o lo hi half) (inspect_sample o rxtx level inv).
Proof.
  intros d (Hhalf & Hbw & Hrx & Htx).
  assert (Hline : line_inv o d rxtx) by (destruct rxtx; assumption).
  destruct (inspect_sample_step o rxtx level inv d lo hi half
              Hbits Hhalf Hbw Hline)
    as (d' & -> & Hinv & Hother & Hsetup).
  cbn [snd].
  pose proof (line_inv_same o d d' (other rxtx) Hother) as Hkeep.
  split; [now apply (half_bit_same d) | ].
  split; [destruct Hsetup as (_ & _ & -> & _); exact Hbw | ].
  destruct rxtx; cbn [other] in Hkeep; split; auto.
Qed.

Lemma keeps_host_write (f : Decoder -> Decoder) :
  (forall d, bit_width (f d) = bit_width d) ->
  (forall d, bw (f d) = bw d) ->
  (forall d l, same_line d (f d) l) ->
  keeps (decoder_ok o lo hi half) (modify f).
Proof.
  intros Hw Hb Hl. apply keeps_modify.
  intros d ((w & Hwd & Hrest) & Hbw & Hrx & Htx).
  split; [exists w; now rewrite Hw | ].
  split; [now rewrite Hb | ].
  split; eapply line_inv_same; eauto.
Qed.

Lemma keeps_wait (conds : list cond) (a : wait_result) :
  keeps (decoder_ok o lo hi half) (wait conds a).
Proof.
  unfold wait.
  repeat (apply keeps_bind; [ | intros ? ]); try apply keeps_ret;
    apply keeps_host_write; intros; repeat split; reflexivity.
Qed.

Lemma keeps_dispatch (inv : per_line bool) (cond_idx : per_line (option nat))
    (rxtx : line) (level : bool) :
  keeps (decoder_ok o lo hi half) (dispatch o inv cond_idx rxtx level).
Proof.
  unfold dispatch. destruct (sel cond_idx rxtx) as [i | ]; [ | apply keeps_ret].
  apply keeps_bind.
  - unfold matched_at. apply keeps_bind; [apply keeps_gets | intros m].
    destruct (nth_error m i); [apply keeps_ret | apply keeps_raise].
  - intros [ | ]; [apply keeps_inspect_sample | apply keeps_ret].
Qed.

(** However long the host answers and however the run ends, both lines
    satisfy their invariant. *)
Lemma keeps_decode_loop (has_pin inv : per_line bool)
    (answers : list wait_result) :
  forall cond_idx,
    keeps (decoder_ok o lo hi half)
      (decode_loop o has_pin inv cond_idx answers).
Proof.
  induction answers as [| a rest IH]; intros cond_idx; cbn [decode_loop];
    (apply keeps_bind; [apply keeps_build_conds | intros [conds ci]]).
  - apply keeps_host_write; intros; repeat split; reflexivity.
  - apply keeps_bind; [apply keeps_wait | intros [rx tx]].
    apply keeps_bind; [apply keeps_dispatch | intros _].
    apply keeps_bind; [apply keeps_dispatch | intros _].
    apply IH.
Qed.

Lemma keeps_decode (has_channel : line -> bool) (answers : list wait_result) :
  keeps (decoder_ok o lo hi half) (decode o has_channel answers).
Proof.
  unfold decode. apply keeps_bind; [apply keeps_gets | intros sr].
  destruct (not_samplerate sr); [apply keeps_raise | ].
  destruct (negb _ && negb _); [apply keeps_raise | ].
  apply keeps_decode_loop.
Qed.
End RunInvariant.

(** ** The data-bit counter and the data value *)

Lemma line_inv_reset (o : Options) (d : Decoder) (rxtx : line) :
  0 <= num_data_bits o -> line_inv o (reset d) rxtx.
Proof.
  intros Hn. unfold line_inv, reset. destruct rxtx; cbn; split; auto; lia.
Qed.

(** C4: each step of a line's automaton keeps [cur_data_bit] between 0
    and the number of data bits. A valid start bit resets it to 0 on
    entering GET DATA BITS, each data-bit sample adds one to it, and the
    line leaves GET DATA BITS exactly when it reaches the number of data
    bits. At that point the data value is below [2 ^ num_data_bits] and
    its bit [i] (least significant bit first) or [num_data_bits - 1 - i]
    (most significant bit first) is the [i]-th bit received, and the DATA
    packet carries that value with the log of the bits. A run of
    [decode] from an object that satisfies the invariant ends in one that
    does, for all answers of the host. *)
Theorem cur_data_bit_invariant (o : Options) (rxtx : line) (level inv : bool)
    (d : Decoder) (lo hi half : Z) :
  5 <= num_data_bits o <= 9 ->
  half_bit d lo hi half ->
  bw d = Some ((num_data_bits o + 7) / 8) ->
  line_inv o d rxtx ->
  (forall d0 l, line_inv o (reset d0) l)
  /\ (forall has_channel answers d0,
        decoder_ok o lo hi half d0 ->
        decoder_ok o lo hi half (snd (decode o has_channel answers d0)))
  /\ exists d',
       inspect_sample o rxtx level inv d = (Ok tt, d')
       /\ line_inv o d' rxtx
       /\ 0 <= sel (cur_data_bit d') rxtx <= num_data_bits o
       /\ same_line d d' (other rxtx)
       /\ (sel (state d) rxtx = GET_START_BIT -> seen level inv = false ->
           sel (state d') rxtx = GET_DATA_BITS
           /\ sel (cur_data_bit d') rxtx = 0
           /\ sel (datavalue d') rxtx = 0)
       /\ (sel (state d) rxtx = GET_DATA_BITS ->
           let bits := logged_bits (sel (databits d) rxtx) ++ [seen level inv] in
           let entry := (Z.b2z (seen level inv),
                         samplenum d - half, samplenum d + half) in
           let v := sel (datavalue d') rxtx in
           sel (cur_data_bit d') rxtx = sel (cur_data_bit d) rxtx + 1
           /\ v = fold_left (shift_in o) bits 0
           /\ (sel (state d') rxtx <> GET_DATA_BITS
               <-> sel (cur_data_bit d') rxtx = num_data_bits o)
           /\ (sel (cur_data_bit d') rxtx < num_data_bits o ->
               sel (databits d') rxtx = sel (databits d) rxtx ++ [entry])
           /\ (sel (cur_data_bit d') rxtx = num_data_bits o ->
               Z.of_nat (List.length bits) = num_data_bits o
               /\ 0 <= v < 2 ^ num_data_bits o
               /\ (forall i, 0 <= i < num_data_bits o ->
                     Z.testbit v (bit_position o i) = received bits i)
               /\ (forall j, num_data_bits o <= j -> Z.testbit v j = false)
               /\ exists s e,
                    In (mkEmitted s e OUTPUT_PYTHON
                          (Packet "DATA" (line_id rxtx)
                             (PData v (sel (databits d) rxtx ++ [entry]))))
                       (out d'))).
Proof.
  intros Hn Hhalf Hbw Hinv.
  split; [intros d0 l; apply line_inv_reset; lia | ].
  split; [intros hc answers d0; apply keeps_decode; lia | ].
  destruct (inspect_sample_step o rxtx level inv d lo hi half
              ltac:(lia) Hhalf Hbw Hinv) as (d' & Hrun & Hinv' & Hother & _).
  exists d'. split; [exact Hrun | ]. split; [exact Hinv' | ].
  split; [apply Hinv' | ]. split; [exact Hother | ].
  rewrite inspect_sample_at in Hrun. cbv zeta in Hrun.
  fold (seen level inv) in Hrun.
  split.
  - intros Hst Hseen. rewrite Hst, Hseen in Hrun.
    rewrite (get_start_bit_valid _ _ lo hi half) in Hrun by exact Hhalf.
    injection Hrun as <-. repeat split; line_fields.
  - intros Hst bits entry v. rewrite Hst in Hrun.
    destruct Hinv as (Hc & Hinv). rewrite Hst in Hinv.
    destruct Hinv as (Hlt & Hlen & Hval).
    destruct (with_data_bit_fields o rxtx (seen level inv) lo hi half d)
      as (Fc & Fv & Fl & Fs & _).
    assert (Hfold : shift_in o (sel (datavalue d) rxtx) (seen level inv)
                    = fold_left (shift_in o) bits 0)
      by (unfold bits; now rewrite fold_left_snoc, Hval).
    destruct (Z.lt_ge_cases (sel (cur_data_bit d) rxtx + 1) (num_data_bits o))
      as [Hmore | Hdone].
    + rewrite (get_data_bits_more _ _ _ _ lo hi half) in Hrun by assumption.
      injection Hrun as <-. unfold v.
      rewrite Fc, Fv, Fl, Fs, Hst.
      split; [reflexivity | ]. split; [exact Hfold | ].
      split; [split; [congruence | lia] | ].
      split; [reflexivity | lia].
    + assert (Hbits : Z.of_nat (List.length bits) = num_data_bits o)
        by (unfold bits; rewrite length_app, length_logged_bits;
            simpl List.length; lia).
      destruct (complete_value o bits Hbits) as (Hrange & Hpos & Hhigh).
      rewrite <- Hfold in Hrange, Hpos, Hhigh.
      destruct (to_bytes_big_fits (num_data_bits o) _ ltac:(lia) Hrange)
        as (bdata & Hbytes).
      rewrite (get_data_bits_done _ _ _ _ lo hi half
                 ((num_data_bits o + 7) / 8) bdata) in Hrun by assumption.
      injection Hrun as <-.
      destruct (with_data_group_fields o rxtx bdata lo hi
                  (with_data_bit o rxtx (seen level inv) lo hi half d))
        as (Gc & Gv & Gl & Gs & (rest & Gout) & _).
      unfold v. rewrite Gc, Gv, Gs, Fc, Fv.
      split; [reflexivity | ]. split; [exact Hfold | ].
      split; [split; [lia | intros _; apply after_data_not_data] | ].
      split; [lia | ]. intros _.
      repeat (split; [assumption | ]).
      do 2 eexists. rewrite Gout, Fv, Fl.
      apply in_or_app. right. left. reflexivity.
Qed.

(** ** The concrete run *)

Example bin_examples :
  bin 5 = "0b101"%string /\ bin (-6) = "-0b110"%string.
Proof. split; reflexivity. Qed.

Example format_int_examples :
  format_int 16 2 10 = "0A"%string
  /\ format_int 16 5 (-10) = "-000A"%string
  /\ format_int 10 0 511 = "511"%string
  /\ format_int 8 3 65 = "101"%string.
Proof. repeat split; reflexivity. Qed.

Example rounding_examples :
  ceil 8.5%float = Ok 9 /\ floor (-8.5)%float = Ok (-9)
  /\ int_of_float (-8.5)%float = Ok (-8) /\ ceil (-8.5)%float = Ok (-8)
  /\ ceil infinity = Raise OverflowError.
Proof. vm_compute. repeat split. Qed.

Example scenario_bit_width :
  bit_width (scenario scenario_options 0) = Some 10%float.
Proof. vm_compute. reflexivity. Qed.

(** The frame of 0x41: one STARTBIT, eight bit annotations, one DATA
    packet with value 65, the text "41", the byte twice, one STOPBIT. *)
Example scenario_frame :
  map payload (out (scenario scenario_options 11))
  = [Packet "STARTBIT" 0 (PInt 0);
     Annotation 2 ["Start bit"; "Start"; "S"]%string;
     Annotation 12 ["1"%string]; Annotation 12 ["0"%string];
     Annotation 12 ["0"%string]; Annotation 12 ["0"%string];
     Annotation 12 ["0"%string]; Annotation 12 ["0"%string];
     Annotation 12 ["1"%string]; Annotation 12 ["0"%string];
     Packet "DATA" 0
       (PData 65
          [(1, 110, 120); (0, 120, 130); (0, 130, 140); (0, 140, 150);
           (0, 150, 160); (0, 160, 170); (1, 170, 180); (0, 180, 190)]);
     Annotation 0 ["41"%string];
     Binary 0 [65]; Binary 2 [65];
     Packet "STOPBIT" 0 (PInt 1);
     Annotation 4 ["Stop bit"; "Stop"; "T"]%string]
  /\ state (scenario scenario_options 11)
     = (WAIT_FOR_START_BIT, WAIT_FOR_START_BIT)
  /\ waits (scenario scenario_options 11)
     = [[Edge RX Falling]; [Skip 5]; [Skip 10]; [Skip 10]; [Skip 10];
        [Skip 10]; [Skip 10]; [Skip 10]; [Skip 10]; [Skip 10]; [Skip 10];
        [Edge RX Falling]].
Proof. vm_compute. repeat split. Qed.

(** With even parity the level 1 that follows the two ones of 0x41 is a
    parity error, and the line goes on to the stop bit. *)
Example scenario_parity :
  map payload (skipn 14 (out (scenario parity_options 11)))
  = [Packet "PARITY ERROR" 0 (PTuple 0 1);
     Annotation 6 ["Parity error"; "Parity err"; "PE"]%string]
  /\ state (scenario parity_options 11)
     = (GET_STOP_BITS, WAIT_FOR_START_BIT).
Proof. vm_compute. repeat split. Qed.

(** With 8.68 samples per bit the start bit is sampled 4 samples after
    the edge (3.84 rounded up) and the stop bit, bit number 9, 82 samples
    after it (81.97 rounded up). *)
Example fractional_bit_width :
  fst (get_wait_cond fast_options RX false (fast_decoder GET_START_BIT))
  = Ok (Skip 4)
  /\ fst (get_wait_cond fast_options RX false (fast_decoder GET_STOP_BITS))
     = Ok (Skip 82)
  /\ fst (get_wait_cond fast_options RX true
            (fast_decoder WAIT_FOR_START_BIT))
     = Ok (Edge RX Rising).
Proof. vm_compute. repeat split. Qed.

(** ** The theorems at the concrete run *)

Lemma get_wait_cond_spec_witness :
  sel (state (scenario scenario_options 0)) RX = WAIT_FOR_START_BIT
  /\ get_wait_cond scenario_options RX false (scenario scenario_options 0)
     = (Ok (Edge RX Falling), scenario scenario_options 0)
  /\ sel (state (scenario scenario_options 5)) RX <> WAIT_FOR_START_BIT
  /\ bit_width (scenario scenario_options 5) = Some 10%float
  /\ get_wait_cond scenario_options RX false (scenario scenario_options 5)
     = (Ok (Skip 10), scenario scenario_options 5)
  /\ exists p q,
       double_midpoint (sel (frame_start (scenario scenario_options 5)) RX)
         10%float
         (bit_number scenario_options
            (sel (state (scenario scenario_options 5)) RX)
            (sel (cur_data_bit (scenario scenario_options 5)) RX))
       = Ok p
       /\ float_value p = Some q
       /\ samplenum (scenario scenario_options 5) + 10 = Qceiling q
       /\ samplenum (scenario scenario_options 5) + 10
          = exact_target 100 (inject_Z 96000 / inject_Z 9600) 4.
Proof.
  assert (H0 : sel (state (scenario scenario_options 0)) RX
               = WAIT_FOR_START_BIT) by (vm_compute; reflexivity).
  assert (H5 : sel (state (scenario scenario_options 5)) RX
               <> WAIT_FOR_START_BIT) by (vm_compute; discriminate).
  assert (Hw : bit_width (scenario scenario_options 5) = Some 10%float)
    by (vm_compute; reflexivity).
  destruct (get_wait_cond_spec scenario_options RX false
              (scenario scenario_options 0)) as [E _].
  destruct (get_wait_cond_spec scenario_options RX false
              (scenario scenario_options 5)) as [_ [S T]].
  assert (E5 : get_wait_cond scenario_options RX false
                 (scenario scenario_options 5)
               = (Ok (Skip 10), scenario scenario_options 5))
    by (rewrite (S H5 _ Hw); vm_compute; reflexivity).
  split; [exact H0 | ]. split; [exact (E H0) | ].
  split; [exact H5 | ]. split; [exact Hw | ]. split; [exact E5 | ].
  destruct (T H5 _ 10 Hw (f_equal fst E5))
    as (p & q & Hp & Hq & Hc & _ & Hex).
  exists p, q. split; [exact Hp | ]. split; [exact Hq | ].
  split; [exact Hc | ].
  rewrite (Hex (inject_Z 96000 / inject_Z 9600)%Q).
  - vm_compute. reflexivity.
  - vm_compute in Hp. inversion Hp; subst p.
    vm_compute in Hq. inversion Hq; subst q.
    vm_compute. reflexivity.
Defined.

Lemma invalid_start_bit_witness :
  sel (state (arrive 105 (scenario scenario_options 1))) RX = GET_START_BIT
  /\ half_bit (arrive 105 (scenario scenario_options 1)) 5 5 5
  /\ seen true false = true
  /\ exists d',
       inspect_sample scenario_options RX true false
         (arrive 105 (scenario scenario_options 1)) = (Ok tt, d')
       /\ out d'
          = [mkEmitted 100 110 OUTPUT_PYTHON
               (Packet "INVALID STARTBIT" 0 (PInt 1));
             mkEmitted 100 110 OUTPUT_ANN
               (Annotation 10 ["Frame error"; "Frame err"; "FE"]%string)]
       /\ sel (state d') RX = WAIT_FOR_START_BIT.
Proof.
  assert (H1 : sel (state (arrive 105 (scenario scenario_options 1))) RX
               = GET_START_BIT) by (vm_compute; reflexivity).
  assert (H2 : half_bit (arrive 105 (scenario scenario_options 1)) 5 5 5)
    by (exists 10%float; vm_compute; repeat split).
  destruct (invalid_start_bit scenario_options RX true false _ 5 5 5
              H1 H2 eq_refl) as (d' & Hrun & Hout & Hst & _).
  split; [exact H1 | ]. split; [exact H2 | ]. split; [reflexivity | ].
  exists d'. split; [exact Hrun | ]. split; [ | exact Hst].
  rewrite Hout. vm_compute. reflexivity.
Defined.

Lemma invalid_stop_bit_witness :
  sel (state (arrive 195 (scenario scenario_options 10))) RX = GET_STOP_BITS
  /\ half_bit (arrive 195 (scenario scenario_options 10)) 5 5 5
  /\ exists d',
       inspect_sample scenario_options RX false false
         (arrive 195 (scenario scenario_options 10)) = (Ok tt, d')
       /\ sel (state d') RX = WAIT_FOR_START_BIT
       /\ map payload (skipn 14 (out d'))
          = [Packet "INVALID STOPBIT" 0 (PInt 0);
             Annotation 10 ["Frame error"; "Frame err"; "FE"]%string;
             Packet "STOPBIT" 0 (PInt 0);
             Annotation 4 ["Stop bit"; "Stop"; "T"]%string].
Proof.
  assert (H1 : sel (state (arrive 195 (scenario scenario_options 10))) RX
               = GET_STOP_BITS) by (vm_compute; reflexivity).
  assert (H2 : half_bit (arrive 195 (scenario scenario_options 10)) 5 5 5)
    by (exists 10%float; vm_compute; repeat split).
  destruct (invalid_stop_bit scenario_options RX false false _ 5 5 5 H1 H2)
    as (d' & Hrun & Hst & Hout & _).
  split; [exact H1 | ]. split; [exact H2 | ].
  exists d'. split; [exact Hrun | ]. split; [exact Hst | ].
  rewrite (Hout eq_refl). vm_compute. reflexivity.
Defined.

Lemma decode_fails_fast_witness :
  not_samplerate (samplerate new_decoder) = true
  /\ decode scenario_options rx_only scenario_answers new_decoder
     = (Raise (SamplerateError "Cannot decode without samplerate."),
        new_decoder)
  /\ not_samplerate (samplerate (scenario scenario_options 0)) = false
  /\ decode scenario_options (fun _ => false) scenario_answers
       (scenario scenario_options 0)
     = (Raise (ChannelError "Either TX or RX (or both) pins required."),
        scenario scenario_options 0).
Proof.
  destruct (decode_fails_fast scenario_options rx_only scenario_answers
              new_decoder) as (S & _).
  destruct (decode_fails_fast scenario_options (fun _ => false)
              scenario_answers (scenario scenario_options 0)) as (_ & C & _).
  split; [reflexivity | ]. split; [exact (S eq_refl) | ].
  assert (H : not_samplerate (samplerate (scenario scenario_options 0))
              = false) by (vm_compute; reflexivity).
  split; [exact H | ]. exact (C H eq_refl eq_refl).
Defined.

Lemma format_value_spec_witness :
  5 <= num_data_bits default_options <= 9
  /\ 0 <= 10 < 2 ^ num_data_bits default_options
  /\ exists s w, format_value default_options 10 = Some s
                 /\ parse_base 16 s = Some 10
                 /\ Z.of_nat (String.length s) = w
                 /\ 4 * (w - 1) < num_data_bits default_options <= 4 * w.
Proof.
  assert (H1 : 5 <= num_data_bits default_options <= 9) by (simpl; lia).
  assert (H2 : 0 <= 10 < 2 ^ num_data_bits default_options)
    by (simpl; lia).
  destruct (format_value_spec default_options 10 H1 H2)
    as (_ & _ & _ & H & _).
  split; [exact H1 | ]. split; [exact H2 | ]. exact (H eq_refl).
Defined.

Ltac concrete_line_inv :=
  unfold line_inv;
  match goal with
  | |- context [sel (cur_data_bit ?d) ?l] =>
      let c := eval vm_compute in (sel (cur_data_bit d) l) in
      let st := eval vm_compute in (sel (state d) l) in
      replace (sel (cur_data_bit d) l) with c by (vm_compute; reflexivity);
      replace (sel (state d) l) with st by (vm_compute; reflexivity)
  end;
  cbv zeta beta iota;
  repeat split; try (simpl; lia); vm_compute; reflexivity.

Lemma cur_data_bit_invariant_witness :
  5 <= num_data_bits scenario_options <= 9
  /\ half_bit (arrive 185 (scenario scenario_options 9)) 5 5 5
  /\ bw (arrive 185 (scenario scenario_options 9))
     = Some ((num_data_bits scenario_options + 7) / 8)
  /\ line_inv scenario_options (arrive 185 (scenario scenario_options 9)) RX
  /\ exists d',
       inspect_sample scenario_options RX false false
         (arrive 185 (scenario scenario_options 9)) = (Ok tt, d')
       /\ line_inv scenario_options d' RX
       /\ sel (cur_data_bit d') RX = 7 + 1
       /\ sel (datavalue d') RX = 65
       /\ sel (state d') RX <> GET_DATA_BITS.
Proof.
  assert (H1 : 5 <= num_data_bits scenario_options <= 9) by (simpl; lia).
  assert (H2 : half_bit (arrive 185 (scenario scenario_options 9)) 5 5 5)
    by (exists 10%float; vm_compute; repeat split).
  assert (H3 : bw (arrive 185 (scenario scenario_options 9))
               = Some ((num_data_bits scenario_options + 7) / 8))
    by (vm_compute; reflexivity).
  assert (H4 : line_inv scenario_options
                 (arrive 185 (scenario scenario_options 9)) RX)
    by concrete_line_inv.
  destruct (cur_data_bit_invariant scenario_options RX false false _ 5 5 5
              H1 H2 H3 H4) as (_ & _ & d' & Hrun & Hinv & _ & _ & _ & Hdata).
  assert (Hst : sel (state (arrive 185 (scenario scenario_options 9))) RX
                = GET_DATA_BITS) by (vm_compute; reflexivity).
  destruct (Hdata Hst) as (Hc & Hv & Hdone & _).
  split; [exact H1 | ]. split; [exact H2 | ]. split; [exact H3 | ].
  split; [exact H4 | ].
  exists d'. split; [exact Hrun | ]. split; [exact Hinv | ].
  split; [rewrite Hc; vm_compute; reflexivity | ].
  split; [rewrite Hv; vm_compute; reflexivity | ].
  apply Hdone. rewrite Hc. vm_compute. reflexivity.
Defined.

Lemma stop_bits_spec_witness :
  sel (state (arrive 195 (scenario scenario_options 10))) RX = GET_STOP_BITS
  /\ half_bit (arrive 195 (scenario scenario_options 10)) 5 5 5
  /\ In 1.5%float num_stop_bits_values
  /\ exists d',
       inspect_sample (with_num_stop_bits scenario_options 1.5%float) RX
         true false (arrive 195 (scenario scenario_options 10)) = (Ok tt, d')
       /\ sel (stopbit1 d') RX = 1
       /\ sel (state d') RX = WAIT_FOR_START_BIT.
Proof.
  assert (H1 : sel (state (arrive 195 (scenario scenario_options 10))) RX
               = GET_STOP_BITS) by (vm_compute; reflexivity).
  assert (H2 : half_bit (arrive 195 (scenario scenario_options 10)) 5 5 5)
    by (exists 10%float; vm_compute; repeat split).
  destruct (stop_bits_spec scenario_options 1.5%float) as (V & _ & _ & S).
  destruct (S RX true false _ 5 5 5 H1 H2) as (d' & Hrun & Hsb & Hst & _).
  split; [exact H1 | ]. split; [exact H2 | ].
  split; [apply V; auto | ].
  exists d'. split; [exact Hrun | ]. split; [exact Hsb | exact Hst].
Defined.

Lemma parity_check_ignored_witness :
  1 <= num_data_bits parity_options
  /\ half_bit (arrive 185 (scenario parity_options 9)) 5 5 5
  /\ bw (arrive 185 (scenario parity_options 9))
     = Some ((num_data_bits parity_options + 7) / 8)
  /\ line_inv parity_options (arrive 185 (scenario parity_options 9)) RX
  /\ sel (state (arrive 185 (scenario parity_options 9))) RX = GET_DATA_BITS
  /\ sel (cur_data_bit (arrive 185 (scenario parity_options 9))) RX + 1
     = num_data_bits parity_options
  /\ parity_type parity_options <> "none"%string
  /\ (exists d',
        inspect_sample (with_parity_check parity_options "no") RX false false
          (arrive 185 (scenario parity_options 9)) = (Ok tt, d')
        /\ sel (state d') RX = GET_PARITY_BIT)
  /\ sel (state (arrive 195 (scenario parity_options 10))) RX = GET_PARITY_BIT
  /\ half_bit (arrive 195 (scenario parity_options 10)) 5 5 5
  /\ (exists d',
        inspect_sample (with_parity_check parity_options "no") RX true false
          (arrive 195 (scenario parity_options 10)) = (Ok tt, d')
        /\ sel (state d') RX = GET_STOP_BITS
        /\ map payload (skipn 14 (out d'))
           = [Packet "PARITY ERROR" 0 (PTuple 0 1);
              Annotation 6 ["Parity error"; "Parity err"; "PE"]%string])
  /\ decode (with_parity_check parity_options "no") rx_only scenario_answers
       (scenario parity_options 0)
     = decode parity_options rx_only scenario_answers
         (scenario parity_options 0).
Proof.
  assert (H1 : 1 <= num_data_bits parity_options) by (simpl; lia).
  assert (H2 : half_bit (arrive 185 (scenario parity_options 9)) 5 5 5)
    by (exists 10%float; vm_compute; repeat split).
  assert (H3 : bw (arrive 185 (scenario parity_options 9))
               = Some ((num_data_bits parity_options + 7) / 8))
    by (vm_compute; reflexivity).
  assert (H4 : line_inv parity_options
                 (arrive 185 (scenario parity_options 9)) RX)
    by concrete_line_inv.
  assert (H5 : sel (state (arrive 185 (scenario parity_options 9))) RX
               = GET_DATA_BITS) by (vm_compute; reflexivity).
  assert (H6 : sel (cur_data_bit (arrive 185 (scenario parity_options 9))) RX
               + 1 = num_data_bits parity_options)
    by (vm_compute; reflexivity).
  assert (H7 : parity_type parity_options <> "none"%string)
    by (simpl; discriminate).
  assert (H8 : sel (state (arrive 195 (scenario parity_options 10))) RX
               = GET_PARITY_BIT) by (vm_compute; reflexivity).
  assert (H9 : half_bit (arrive 195 (scenario parity_options 10)) 5 5 5)
    by (exists 10%float; vm_compute; repeat split).
  destruct (parity_check_ignored parity_options "no")
    as (D & _ & _ & L & P).
  destruct (L RX false false _ 5 5 5 H1 H2 H3 H4 H5 H6 H7) as (d1 & R1 & S1).
  destruct (P RX true false _ 5 5 5 H8 H9) as (d2 & R2 & S2 & O2).
  repeat (split; [assumption | ]).
  split; [exists d1; split; assumption | ].
  repeat (split; [assumption | ]).
  split; [ | apply D].
  exists d2. split; [exact R2 | ]. split; [exact S2 | ].
  rewrite O2. vm_compute. reflexivity.
Defined.

(** * The rest of the decoder *)

(** ** What a step and a run leave alone *)

Ltac keeps_write H :=
  apply keeps_modify;
  let d := fresh "d" in
  let Hd := fresh "Hd" in
  intros d Hd;
  destruct (H d Hd) as (? & ? & ? & ? & ? & ? & ? & ? & ? & ?); auto.

Ltac keeps_step H :=
  lazymatch goal with
  | |- keeps _ (bind _ _) => apply keeps_bind; [ | intros ? ]
  | |- keeps _ (ret _) => apply keeps_ret
  | |- keeps _ (gets _) => apply keeps_gets
  | |- keeps _ (attr _ _) => apply keeps_attr
  | |- keeps _ (lift _) => apply keeps_lift
  | |- keeps _ (raise _) => apply keeps_raise
  | |- keeps _ (modify _) => keeps_write H
  | |- keeps _ (if ?c then _ else _) => destruct c
  | |- keeps _ (match ?c with Some _ => _ | None => _ end) => destruct c
  end.

Section LineFrame.
Variables (P : Decoder -> Prop) (rxtx : line).
Hypothesis Hclosed : line_closed P rxtx.

Lemma keeps_inspect_line (o : Options) (level inv : bool) :
  keeps P (inspect_sample o rxtx level inv).
Proof.
  unfold inspect_sample.
  apply keeps_bind; [apply keeps_gets | intros st].
  destruct st;
    unfold wait_for_start_bit, get_start_bit, get_data_bits, get_parity_bit,
      get_stop_bits, putp, putg, putx, putpx, putbin, put;
    repeat keeps_step Hclosed.
Qed.

Lemma keeps_dispatch_line (o : Options) (inv : per_line bool)
    (cond_idx : per_line (option nat)) (level : bool) :
  keeps P (dispatch o inv cond_idx rxtx level).
Proof.
  unfold dispatch. destruct (sel cond_idx rxtx) as [i | ]; [ | apply keeps_ret].
  apply keeps_bind.
  - unfold matched_at. apply keeps_bind; [apply keeps_gets | intros m].
    destruct (nth_error m i); [apply keeps_ret | apply keeps_raise].
  - intros [ | ]; [apply keeps_inspect_line | apply keeps_ret].
Qed.
End LineFrame.

Section RunFrame.
Variable P : Decoder -> Prop.
Hypothesis Hrx : line_closed P RX.
Hypothesis Htx : line_closed P TX.
Hypothesis Hhost : host_closed P.

Lemma keeps_wait_of (conds : list cond) (a : wait_result) :
  keeps P (wait conds a).
Proof.
  unfold wait.
  repeat (apply keeps_bind; [ | intros ? ]); try apply keeps_ret;
    apply keeps_modify; intros d Hd; destruct (Hhost d Hd) as (? & ? & ?);
    auto.
Qed.

Lemma keeps_dispatch_of (o : Options) (inv : per_line bool)
    (cond_idx : per_line (option nat)) (rxtx : line) (level : bool) :
  keeps P (dispatch o inv cond_idx rxtx level).
Proof.
  destruct rxtx; now apply keeps_dispatch_line.
Qed.

Lemma keeps_decode_loop_of (o : Options) (has_pin inv : per_line bool)
    (answers : list wait_result) :
  forall cond_idx, keeps P (decode_loop o has_pin inv cond_idx answers).
Proof.
  induction answers as [| a rest IH]; intros cond_idx; cbn [decode_loop];
    (apply keeps_bind; [apply keeps_build_conds | intros [conds ci]]).
  - apply keeps_modify. intros d Hd. now apply Hhost.
  - apply keeps_bind; [apply keeps_wait_of | intros [rx tx]].
    apply keeps_bind; [apply keeps_dispatch_of | intros _].
    apply keeps_bind; [apply keeps_dispatch_of | intros _].
    apply IH.
Qed.

End RunFrame.

Lemma extends_refl {A : Type} (l : list A) : extends l l.
Proof. exists []. now rewrite app_nil_r. Qed.

Lemma extends_snoc {A : Type} (l l' : list A) (a : A) :
  extends l l' -> extends l (l' ++ [a]).
Proof. intros (new & ->). exists (new ++ [a]). now rewrite app_assoc. Qed.

(** X1: a step of one line leaves every attribute of the other line as
    it was, however the step ends. *)
Theorem other_line_untouched (o : Options) (rxtx : line) (level inv : bool)
    (d : Decoder) :
  same_line d (snd (inspect_sample o rxtx level inv d)) (other rxtx).
Proof.
  apply (keeps_inspect_line (fun d' => same_line d d' (other rxtx)) rxtx).
  - intros d' H. unfold same_line in *.
    destruct rxtx; cbn [other] in *; repeat split; norm_all; apply H.
  - repeat split.
Qed.

(** X2: a step writes none of [samplerate], [bit_width], [bw],
    [samplenum] and [matched] and asks no wait, however it ends. *)
Theorem step_leaves_host_fields (o : Options) (rxtx : line)
    (level inv : bool) (d : Decoder) :
  same_host d (snd (inspect_sample o rxtx level inv d)).
Proof.
  apply (keeps_inspect_line (fun d' => same_host d d') rxtx).
  - intros d' H. unfold same_host, same_setup in *.
    repeat split; norm_all; apply H.
  - repeat split.
Qed.

(** ** Asking for the next sample *)

Lemma get_wait_cond_pure (o : Options) (rxtx : line) (inv : bool)
    (d : Decoder) :
  snd (get_wait_cond o rxtx inv d) = d.
Proof. now apply (keeps_get_wait_cond (fun d' => d' = d)). Qed.

Lemma get_wait_cond_eq (o : Options) (inv : per_line bool) (rxtx : line)
    (d : Decoder) :
  get_wait_cond o rxtx (sel inv rxtx) d = (line_cond o inv d rxtx, d).
Proof.
  unfold line_cond. rewrite <- (get_wait_cond_pure o rxtx (sel inv rxtx) d) at 3.
  now destruct (get_wait_cond o rxtx (sel inv rxtx) d).
Qed.

(** X4: computing a wait condition never changes the object, also when
    it raises; and outside WAIT FOR START BIT it raises [AttributeError]
    when [metadata] has not set [bit_width]. *)
Theorem get_wait_cond_reads_only (o : Options) (rxtx : line) (inv : bool)
    (d : Decoder) :
  snd (get_wait_cond o rxtx inv d) = d
  /\ (sel (state d) rxtx <> WAIT_FOR_START_BIT -> bit_width d = None ->
      fst (get_wait_cond o rxtx inv d) = Raise (AttributeError "bit_width")).
Proof.
  split; [apply get_wait_cond_pure | ].
  intros Hst Hw.
  unfold get_wait_cond, get_sample_point, bind at 1, gets at 1.
  cbv beta iota.
  destruct (sel (state d) rxtx); try contradiction;
    unfold bind, gets, attr, lift, ret; cbv beta iota; rewrite Hw; reflexivity.
Qed.

(** The list of conditions the loop builds in a cycle. *)
Lemma build_conds_eq (o : Options) (has_pin inv : per_line bool)
    (cond_idx : per_line (option nat)) (d : Decoder) :
  build_conds o has_pin inv cond_idx d
  = (cycle_conds o has_pin inv cond_idx d, d).
Proof.
  unfold build_conds, cycle_conds.
  destruct (sel has_pin RX), (sel has_pin TX); unfold bind, ret;
    rewrite ?get_wait_cond_eq;
    repeat match goal with
           | |- context [line_cond ?o ?i ?d ?l] =>
               destruct (line_cond o i d l); cbv beta iota;
               rewrite ?get_wait_cond_eq
           end;
    try reflexivity.
  all: destruct cond_idx; reflexivity.
Qed.

(** ** The loop, cycle by cycle *)

Lemma decode_loop_nil (o : Options) (has_pin inv : per_line bool)
    (cond_idx : per_line (option nat)) (d : Decoder) :
  decode_loop o has_pin inv cond_idx [] d
  = match cycle_conds o has_pin inv cond_idx d with
    | Ok (conds, _) => (Ok tt, set_waits (waits d ++ [conds]) d)
    | Raise e => (Raise e, d)
    end.
Proof.
  cbn [decode_loop]. unfold bind. rewrite build_conds_eq.
  destruct (cycle_conds o has_pin inv cond_idx d) as [[conds ci] | e];
    reflexivity.
Qed.

Lemma decode_loop_cons (o : Options) (has_pin inv : per_line bool)
    (cond_idx : per_line (option nat)) (a : wait_result)
    (rest : list wait_result) (d : Decoder) :
  decode_loop o has_pin inv cond_idx (a :: rest) d
  = match cycle_conds o has_pin inv cond_idx d with
    | Ok (conds, ci) =>
        (dispatch o inv ci RX (fst (pins a)) ;;
         dispatch o inv ci TX (snd (pins a)) ;;
         decode_loop o has_pin inv ci rest) (arrived conds a d)
    | Raise e => (Raise e, d)
    end.
Proof.
  cbn [decode_loop]. unfold bind at 1. rewrite build_conds_eq.
  destruct (cycle_conds o has_pin inv cond_idx d) as [[conds ci] | e];
    [ | reflexivity].
  destruct a as [s m [rx tx]]. reflexivity.
Qed.

Lemma line_cond_idle (o : Options) (inv : per_line bool) (d : Decoder)
    (rxtx : line) :
  sel (state d) rxtx = WAIT_FOR_START_BIT ->
  line_cond o inv d rxtx
  = Ok (Edge rxtx (if sel inv rxtx then Rising else Falling)).
Proof.
  intros Hst. unfold line_cond, get_wait_cond, bind, gets. now rewrite Hst.
Qed.

Lemma cycle_conds_idle (o : Options) (has_channel : line -> bool)
    (cond_idx : per_line (option nat)) (d : Decoder) :
  (forall l, has_channel l = true -> sel (state d) l = WAIT_FOR_START_BIT) ->
  exists ci,
    cycle_conds o (has_channel RX, has_channel TX)
      (String.eqb (invert_rx o) "yes", String.eqb (invert_tx o) "yes")
      cond_idx d
    = Ok (idle_conds o has_channel, ci).
Proof.
  intros Hidle. unfold cycle_conds, idle_conds, idle_edge. cbn [sel fst snd].
  destruct (has_channel RX) eqn:Hrx, (has_channel TX) eqn:Htx;
    rewrite ?(line_cond_idle _ _ _ RX) by auto;
    rewrite ?(line_cond_idle _ _ _ TX) by auto;
    cbn [sel fst snd app]; eauto.
Qed.

Lemma waits_closed_line (l : list (list cond)) (rxtx : line) :
  line_closed (fun d' => extends l (waits d')) rxtx.
Proof. intros d' H. repeat split; intros; exact H. Qed.

Lemma waits_closed_host (l : list (list cond)) :
  host_closed (fun d' => extends l (waits d')).
Proof.
  intros d' H. repeat split; intros; norm_all; try exact H.
  now apply extends_snoc.
Qed.

(** X5: with a sample rate, a line present and every present line idle,
    [decode] starts: the first wait it asks is for the edge of each
    present line, RX first, rising for an inverted line and falling
    otherwise; if the host never answers, nothing else happens. *)
Theorem decode_first_wait (o : Options) (has_channel : line -> bool)
    (answers : list wait_result) (d : Decoder) :
  not_samplerate (samplerate d) = false ->
  has_channel RX = true \/ has_channel TX = true ->
  (forall l, has_channel l = true -> sel (state d) l = WAIT_FOR_START_BIT) ->
  extends (waits d ++ [idle_conds o has_channel])
    (waits (snd (decode o has_channel answers d)))
  /\ decode o has_channel [] d
     = (Ok tt, set_waits (waits d ++ [idle_conds o has_channel]) d).
Proof.
  intros Hs Hpin Hidle.
  assert (Hgo : forall answers,
            decode o has_channel answers d
            = decode_loop o (has_channel RX, has_channel TX)
                (String.eqb (invert_rx o) "yes", String.eqb (invert_tx o) "yes")
                (None, None) answers d).
  { intros ans. unfold decode, bind, gets. rewrite Hs. cbn [fst snd].
    destruct (has_channel RX), (has_channel TX); try reflexivity.
    destruct Hpin; discriminate. }
  destruct (cycle_conds_idle o has_channel (None, None) d Hidle) as (ci & E).
  split.
  - rewrite Hgo. destruct answers as [| a rest].
    + rewrite decode_loop_nil, E. apply extends_refl.
    + rewrite decode_loop_cons, E.
      set (P := fun d' : Decoder =>
                  extends (waits d ++ [idle_conds o has_channel]) (waits d')).
      assert (K : forall ci', keeps P
                (dispatch o (String.eqb (invert_rx o) "yes",
                             String.eqb (invert_tx o) "yes") ci' RX
                   (fst (pins a)) ;;
                 dispatch o (String.eqb (invert_rx o) "yes",
                             String.eqb (invert_tx o) "yes") ci' TX
                   (snd (pins a)) ;;
                 decode_loop o (has_channel RX, has_channel TX)
                   (String.eqb (invert_rx o) "yes",
                    String.eqb (invert_tx o) "yes") ci' rest)).
      { intros ci'.
        apply keeps_bind;
          [apply keeps_dispatch_line, waits_closed_line | intros _].
        apply keeps_bind;
          [apply keeps_dispatch_line, waits_closed_line | intros _].
        apply keeps_decode_loop_of;
          [apply waits_closed_line | apply waits_closed_line
          | apply waits_closed_host]. }
      apply K. unfold P, arrived. norm_all. apply extends_refl.
  - rewrite Hgo, decode_loop_nil, E. reflexivity.
Qed.

(** ** A line that is absent or never matched *)

Lemma cycle_conds_index (o : Options) (has_channel : line -> bool)
    (inv : per_line bool) (cond_idx ci : per_line (option nat))
    (conds : list cond) (d : Decoder) (rxtx : line) :
  cycle_conds o (has_channel RX, has_channel TX) inv cond_idx d
  = Ok (conds, ci) ->
  sel ci rxtx
  = if has_channel rxtx then Some (cond_position has_channel rxtx)
    else sel cond_idx rxtx.
Proof.
  unfold cycle_conds, cond_position. destruct cond_idx as [i1 i2].
  cbn [sel fst snd upd].
  destruct (has_channel RX) eqn:Hrx, (has_channel TX) eqn:Htx;
    repeat match goal with
           | |- context [line_cond ?o ?i ?d ?l] => destruct (line_cond o i d l)
           end;
    intros E; inversion E; subst; destruct rxtx; rewrite ?Hrx, ?Htx;
    reflexivity.
Qed.

(** A line whose condition did not match is not inspected. *)
Lemma dispatch_quiet (o : Options) (inv : per_line bool)
    (cond_idx : per_line (option nat)) (rxtx : line) (level : bool)
    (d : Decoder) :
  match sel cond_idx rxtx with
  | None => True
  | Some i => nth_error (matched d) i <> Some true
  end ->
  exists r, dispatch o inv cond_idx rxtx level d = (r, d).
Proof.
  unfold dispatch, matched_at, bind, gets.
  destruct (sel cond_idx rxtx) as [i | ]; [ | eexists; reflexivity].
  destruct (nth_error (matched d) i) as [[ | ] | ]; intros H;
    try contradiction; eexists; reflexivity.
Qed.

Lemma same_line_closed (d : Decoder) (rxtx : line) :
  line_closed (fun d' => same_line d d' (other rxtx)) rxtx.
Proof.
  intros d' H. unfold same_line in *.
  destruct rxtx; cbn [other] in *; repeat split; norm_all; apply H.
Qed.

Lemma matched_closed (m : list bool) (rxtx : line) :
  line_closed (fun d' => matched d' = m) rxtx.
Proof. intros d' H. repeat split; intros; exact H. Qed.

Lemma closed_and (P Q : Decoder -> Prop) (rxtx : line) :
  line_closed P rxtx -> line_closed Q rxtx ->
  line_closed (fun d => P d /\ Q d) rxtx.
Proof.
  intros HP HQ d [Hp Hq].
  destruct (HP d Hp) as (? & ? & ? & ? & ? & ? & ? & ? & ? & ?).
  destruct (HQ d Hq) as (? & ? & ? & ? & ? & ? & ? & ? & ? & ?).
  repeat split; auto.
Qed.

Section QuietLine.
Variables (o : Options) (has_channel : line -> bool) (inv : per_line bool).
Variables (d : Decoder) (rxtx : line).

Lemma quiet_line_loop (answers : list wait_result) :
  has_channel rxtx = false
  \/ Forall (fun a => nth_error (matched_flags a)
                        (cond_position has_channel rxtx) <> Some true)
       answers ->
  forall cond_idx,
    (has_channel rxtx = false -> sel cond_idx rxtx = None) ->
    keeps (fun d' => same_line d d' rxtx)
      (decode_loop o (has_channel RX, has_channel TX) inv cond_idx answers).
Proof.
  induction answers as [| a rest IH]; intros Hquiet cond_idx Hidx d' Hd'.
  - rewrite decode_loop_nil.
    destruct (cycle_conds _ _ _ _ _) as [[conds ci] | e]; exact Hd'.
  - rewrite decode_loop_cons.
    destruct (cycle_conds o (has_channel RX, has_channel TX) inv cond_idx d')
      as [[conds ci] | e] eqn:E; [ | exact Hd'].
    pose proof (cycle_conds_index _ _ _ _ _ _ _ rxtx E) as Hci.
    assert (Hrest : has_channel rxtx = false
                    \/ Forall (fun a => nth_error (matched_flags a)
                                 (cond_position has_channel rxtx)
                                 <> Some true) rest).
    { destruct Hquiet as [H | H]; [now left | right].
      now inversion H. }
    assert (Hnext : has_channel rxtx = false -> sel ci rxtx = None).
    { intros H. rewrite Hci, H. auto. }
    assert (Hq : forall d1, matched d1 = matched_flags a ->
              match sel ci rxtx with
              | None => True
              | Some i => nth_error (matched d1) i <> Some true
              end).
    { intros d1 Hm. rewrite Hci.
      destruct (has_channel rxtx) eqn:Hp.
      - destruct Hquiet as [H | H]; [discriminate | ].
        inversion H; subst. now rewrite Hm.
      - now rewrite (Hidx eq_refl). }
    assert (H1 : same_line d (arrived conds a d') rxtx)
      by (destruct rxtx; exact Hd').
    assert (M1 : matched (arrived conds a d') = matched_flags a)
      by reflexivity.
    specialize (IH Hrest ci Hnext).
    destruct rxtx.
    + destruct (dispatch_quiet o inv ci RX (fst (pins a)) _ (Hq _ M1))
        as (r & Er).
      unfold bind at 1. rewrite Er. destruct r as [[] | e]; [ | exact H1].
      refine (keeps_bind (fun d1 => same_line d d1 RX) _ _ _ _ _ H1);
        [ | intros _; exact IH].
      apply keeps_dispatch_line. apply (same_line_closed d TX).
    + unfold bind at 1.
      pose proof (keeps_dispatch_line
                    (fun d1 => same_line d d1 TX
                               /\ matched d1 = matched_flags a) RX
                    (closed_and _ _ RX (same_line_closed d RX)
                       (matched_closed _ RX))
                    o inv ci (fst (pins a)) _ (conj H1 M1)) as K.
      destruct (dispatch o inv ci RX (fst (pins a)) (arrived conds a d'))
        as [[[] | e] d3]; cbn [snd] in K; destruct K as [H3 M3];
        [ | exact H3].
      destruct (dispatch_quiet o inv ci TX (snd (pins a)) d3 (Hq _ M3))
        as (r & Er).
      unfold bind. rewrite Er. destruct r as [[] | e]; [ | exact H3].
      now apply IH.
Qed.
End QuietLine.

(** X6: a line that is not present, or whose condition the host never
    reports as matched, keeps every attribute through a whole run of
    [decode], whatever happens on the other line and however the run
    ends. *)
Theorem quiet_line_untouched (o : Options) (has_channel : line -> bool)
    (answers : list wait_result) (d : Decoder) (rxtx : line) :
  has_channel rxtx = false
  \/ Forall (fun a => nth_error (matched_flags a)
                        (cond_position has_channel rxtx) <> Some true)
       answers ->
  same_line d (snd (decode o has_channel answers d)) rxtx.
Proof.
  intros Hquiet.
  assert (K : keeps (fun d' => same_line d d' rxtx)
                (decode o has_channel answers)).
  { unfold decode. apply keeps_bind; [apply keeps_gets | intros sr].
    destruct (not_samplerate sr); [apply keeps_raise | ].
    cbn [fst snd].
    destruct (negb _ && negb _); [apply keeps_raise | ].
    apply quiet_line_loop; [exact Hquiet | intros _; now destruct rxtx]. }
  apply K. repeat split.
Qed.

Lemma last_nonempty {A : Type} (l : list A) :
  forall z x y : A, last (z :: l) x = last (z :: l) y.
Proof.
  induction l as [| a l IH]; intros z x y; [reflexivity | ].
  change (last (a :: l) x = last (a :: l) y). apply IH.
Qed.

(** ** A whole frame *)

Lemma python_puts_app (l l' : list emitted) :
  python_puts (l ++ l') = python_puts l ++ python_puts l'.
Proof. apply filter_app. Qed.

Lemma feed_app (o : Options) (rxtx : line) (inv : bool)
    (l1 l2 : list (Z * bool)) (d d1 : Decoder) :
  feed o rxtx inv l1 d = (Ok tt, d1) ->
  feed o rxtx inv (l1 ++ l2) d = feed o rxtx inv l2 d1.
Proof.
  revert d. induction l1 as [| [s level] l1 IH]; intros d H.
  - cbn in H. now inversion H.
  - cbn [feed app] in *. unfold bind at 1 in H. unfold bind at 1.
    cbn [modify] in *. unfold bind at 1 in H. unfold bind at 1.
    destruct (inspect_sample o rxtx level inv (set_samplenum s d))
      as [[[] | e] d2]; [ | discriminate].
    now apply IH.
Qed.

Lemma feed_one (o : Options) (rxtx : line) (inv : bool) (s : Z) (level : bool)
    (rest : list (Z * bool)) (d : Decoder) :
  feed o rxtx inv ((s, level) :: rest) d
  = (inspect_sample o rxtx level inv ;; feed o rxtx inv rest)
      (set_samplenum s d).
Proof. reflexivity. Qed.

(** The output of the part of [get_data_bits] that closes the group. *)
Lemma with_data_group_out (o : Options) (rxtx : line) (bdata : list Z)
    (lo hi : Z) (d : Decoder) :
  out (with_data_group o rxtx bdata lo hi d)
  = out d
    ++ [mkEmitted (sel (startsample d) rxtx - lo) (samplenum d + hi)
          OUTPUT_PYTHON
          (Packet "DATA" (line_id rxtx)
             (PData (sel (datavalue d) rxtx) (sel (databits d) rxtx)))]
    ++ match format_value o (sel (datavalue d) rxtx) with
       | Some text =>
           [mkEmitted (sel (startsample d) rxtx - lo) (samplenum d + hi)
              OUTPUT_ANN (Annotation (line_id rxtx) [text])]
       | None => []
       end
    ++ [mkEmitted (sel (startsample d) rxtx - lo) (samplenum d + hi)
          OUTPUT_BINARY (Binary (line_id rxtx) bdata);
        mkEmitted (sel (startsample d) rxtx - lo) (samplenum d + hi)
          OUTPUT_BINARY (Binary 2 bdata)].
Proof.
  unfold with_data_group.
  destruct rxtx; destruct (format_value o _); norm_all;
    rewrite <- ?app_assoc; reflexivity.
Qed.

Lemma with_data_bit_latch (o : Options) (rxtx : line) (signal : bool)
    (lo hi half : Z) (d : Decoder) :
  let d' := with_data_bit o rxtx signal lo hi half d in
  sel (startsample d') rxtx
  = (if sel (startsample d) rxtx =? -1 then samplenum d
     else sel (startsample d) rxtx)
  /\ samplenum d' = samplenum d
  /\ sel (frame_start d') rxtx = sel (frame_start d) rxtx.
Proof.
  unfold with_data_bit, latch_startsample.
  destruct rxtx; destruct (_ =? -1) eqn:E; norm_all; rewrite ?E;
    repeat split; reflexivity.
Qed.

Section Frame.
Variables (o : Options) (rxtx : line) (inv : bool) (lo hi half : Z).
Hypothesis Hbits : 1 <= num_data_bits o.

Lemma decoder_ok_line (d : Decoder) :
  decoder_ok o lo hi half d ->
  half_bit d lo hi half /\ bw d = Some ((num_data_bits o + 7) / 8)
  /\ line_inv o d rxtx.
Proof. intros (H1 & H2 & H3 & H4). destruct rxtx; auto. Qed.

Lemma feed_data_bits (data : list (Z * bool)) :
  forall d,
    data <> [] ->
    Forall (fun p => fst p <> -1) data ->
    decoder_ok o lo hi half d ->
    sel (state d) rxtx = GET_DATA_BITS ->
    sel (cur_data_bit d) rxtx + Z.of_nat (List.length data) = num_data_bits o ->
    exists d',
      feed o rxtx inv data d = (Ok tt, d')
      /\ decoder_ok o lo hi half d'
      /\ sel (state d') rxtx = after_data o
      /\ sel (datavalue d') rxtx
         = fold_left (shift_in o)
             (logged_bits (sel (databits d) rxtx) ++ seen_bits inv data) 0
      /\ python_puts (out d')
         = python_puts (out d)
           ++ [mkEmitted
                 ((if sel (startsample d) rxtx =? -1
                   then fst (hd (0, false) data)
                   else sel (startsample d) rxtx) - lo)
                 (fst (last data (0, false)) + hi)
                 OUTPUT_PYTHON
                 (Packet "DATA" (line_id rxtx)
                    (PData (sel (datavalue d') rxtx)
                       (sel (databits d) rxtx ++ bit_log inv half data)))]
      /\ sel (frame_start d') rxtx = sel (frame_start d) rxtx.
Proof.
  induction data as [| [s level] rest IH]; intros d Hne Hs Hok Hst Hlen;
    [contradiction | ].
  set (d1 := set_samplenum s d).
  assert (Hok1 : decoder_ok o lo hi half d1) by exact Hok.
  assert (Hok2 : decoder_ok o lo hi half
                   (snd (inspect_sample o rxtx level inv d1)))
    by (apply keeps_inspect_sample; assumption).
  destruct (decoder_ok_line d1 Hok1) as (Hhalf & Hbw & _ & Hinv).
  assert (Hst1 : sel (state d1) rxtx = GET_DATA_BITS) by exact Hst.
  rewrite Hst1 in Hinv. destruct Hinv as (_ & Hl & Hval).
  assert (Hat : inspect_sample o rxtx level inv d1
                = get_data_bits o rxtx (seen level inv) d1).
  { rewrite inspect_sample_at. cbv zeta. rewrite Hst1. reflexivity. }
  rewrite Hat in Hok2.
  destruct (with_data_bit_fields o rxtx (seen level inv) lo hi half d1)
    as (Fc & Fv & Fl & Fs & Fo & _).
  destruct (with_data_bit_latch o rxtx (seen level inv) lo hi half d1)
    as (Ls & Ln & Lf).
  cbn [List.length] in Hlen. rewrite Nat2Z.inj_succ in Hlen.
  change (sel (cur_data_bit d) rxtx) with (sel (cur_data_bit d1) rxtx) in Hlen.
  change (sel (databits d) rxtx) with (sel (databits d1) rxtx).
  change (sel (startsample d) rxtx) with (sel (startsample d1) rxtx).
  change (out d) with (out d1).
  change (sel (frame_start d) rxtx) with (sel (frame_start d1) rxtx).
  change (samplenum d1) with s in Ls, Ln.
  inversion Hs as [| p l Hs1 Hsrest]; subst p l. cbn [fst] in Hs1.
  rewrite feed_one. fold d1. cbn [hd fst].
  destruct rest as [| p rest'].
  - (* the last data bit *)
    assert (Hfold : shift_in o (sel (datavalue d1) rxtx) (seen level inv)
                    = fold_left (shift_in o)
                        (logged_bits (sel (databits d1) rxtx)
                         ++ seen_bits inv [(s, level)]) 0).
    { unfold seen_bits. cbn [map snd]. rewrite fold_left_snoc.
      f_equal. exact Hval. }
    assert (Hn : Z.of_nat (List.length
                   (logged_bits (sel (databits d1) rxtx)
                    ++ seen_bits inv [(s, level)])) = num_data_bits o).
    { rewrite length_app, length_logged_bits. cbn [seen_bits map List.length].
      cbn [List.length] in Hlen. lia. }
    destruct (complete_value o _ Hn) as (Hrange & _).
    rewrite <- Hfold in Hrange.
    destruct (to_bytes_big_fits (num_data_bits o) _ Hbits Hrange)
      as (bdata & Hbytes).
    assert (Hrun : get_data_bits o rxtx (seen level inv) d1
                   = (Ok tt,
                      with_data_group o rxtx bdata lo hi
                        (with_data_bit o rxtx (seen level inv) lo hi half d1))).
    { apply (get_data_bits_done _ _ _ _ lo hi half
               ((num_data_bits o + 7) / 8) bdata); try assumption.
      cbn [List.length] in Hlen. lia. }
    rewrite Hrun in Hok2, Hat. cbn [snd] in Hok2.
    rewrite (bind_run _ _ _ _ _ Hat).
    destruct (with_data_group_fields o rxtx bdata lo hi
                (with_data_bit o rxtx (seen level inv) lo hi half d1))
      as (Gc & Gv & Gl & Gs & _ & _ & _).
    exists (with_data_group o rxtx bdata lo hi
              (with_data_bit o rxtx (seen level inv) lo hi half d1)).
    split; [reflexivity | ].
    split; [exact Hok2 | ]. split; [exact Gs | ].
    rewrite Gv, Fv. split; [exact Hfold | ].
    split.
    + rewrite with_data_group_out, Fo, Fv, Fl, Ls, Ln, !python_puts_app.
      cbn [last fst bit_log map snd].
      destruct (format_value o _); cbn [python_puts filter output app];
        rewrite ?app_nil_r; reflexivity.
    + destruct rxtx; unfold with_data_group, with_data_bit, latch_startsample;
        destruct (format_value o _); destruct (_ =? -1); reflexivity.
  - (* a data bit that is not the last *)
    assert (Hrun : get_data_bits o rxtx (seen level inv) d1
                   = (Ok tt, with_data_bit o rxtx (seen level inv) lo hi half d1)).
    { apply (get_data_bits_more _ _ _ _ lo hi half); try assumption.
      cbn [List.length] in Hlen. lia. }
    rewrite Hrun in Hok2, Hat. cbn [snd] in Hok2.
    rewrite (bind_run _ _ _ _ _ Hat).
    destruct (IH (with_data_bit o rxtx (seen level inv) lo hi half d1))
      as (d' & Hrun' & Hok' & Hst' & Hv' & Hev' & Hfs');
      [discriminate | exact Hsrest | exact Hok2 | now rewrite Fs | | ].
    { rewrite Fc. cbn [List.length] in Hlen |- *. lia. }
    exists d'. split; [exact Hrun' | ].
    split; [exact Hok' | ]. split; [exact Hst' | ].
    rewrite Fl, logged_bits_snoc, <- app_assoc in Hv'.
    split; [exact Hv' | ].
    split.
    + rewrite Hev', Fo, Fl, Ls, python_puts_app, <- !app_assoc.
      cbn [python_puts filter output app].
      change (last ((s, level) :: p :: rest') (0, false))
        with (last (p :: rest') (0, false)).
      replace (if (if sel (startsample d1) rxtx =? -1 then s
                   else sel (startsample d1) rxtx) =? -1
               then fst (hd (0, false) (p :: rest'))
               else if sel (startsample d1) rxtx =? -1 then s
                    else sel (startsample d1) rxtx)
        with (if sel (startsample d1) rxtx =? -1 then s
              else sel (startsample d1) rxtx).
      * reflexivity.
      * destruct (Z.eqb_spec (sel (startsample d1) rxtx) (-1)) as [E | E].
        -- destruct (Z.eqb_spec s (-1)); [contradiction | reflexivity].
        -- destruct (Z.eqb_spec (sel (startsample d1) rxtx) (-1));
             [contradiction | reflexivity].
    + rewrite Hfs'. exact Lf.
Qed.

Lemma feed_step (s : Z) (level : bool) (rest : list (Z * bool))
    (d d' : Decoder) :
  inspect_sample o rxtx level inv (set_samplenum s d) = (Ok tt, d') ->
  feed o rxtx inv ((s, level) :: rest) d = feed o rxtx inv rest d'.
Proof. intros H. rewrite feed_one. now rewrite (bind_run _ _ _ _ _ H). Qed.

Lemma step_ok (s : Z) (level : bool) (d d' : Decoder) :
  decoder_ok o lo hi half d ->
  inspect_sample o rxtx level inv (set_samplenum s d) = (Ok tt, d') ->
  decoder_ok o lo hi half d'.
Proof.
  intros Hok H. change d' with (snd (Ok tt, d')). rewrite <- H.
  apply keeps_inspect_sample; assumption.
Qed.

Ltac puts_of :=
  flatten_state; rewrite !python_puts_app;
  cbn [python_puts filter output app]; rewrite ?app_nil_r.

Lemma edge_step (s : Z) (level : bool) (d : Decoder) :
  sel (state d) rxtx = WAIT_FOR_START_BIT ->
  exists d',
    inspect_sample o rxtx level inv (set_samplenum s d) = (Ok tt, d')
    /\ sel (state d') rxtx = GET_START_BIT
    /\ sel (frame_start d') rxtx = s
    /\ out d' = out d.
Proof.
  intros Hst. rewrite inspect_sample_at. cbv zeta.
  change (sel (state (set_samplenum s d)) rxtx) with (sel (state d) rxtx).
  rewrite Hst, wait_for_start_bit_run.
  eexists. split; [reflexivity | ].
  destruct rxtx; repeat split; reflexivity.
Qed.

Lemma start_step (s : Z) (level : bool) (d : Decoder) :
  half_bit d lo hi half ->
  sel (state d) rxtx = GET_START_BIT ->
  seen level inv = false ->
  exists d',
    inspect_sample o rxtx level inv (set_samplenum s d) = (Ok tt, d')
    /\ sel (state d') rxtx = GET_DATA_BITS
    /\ sel (cur_data_bit d') rxtx = 0
    /\ sel (startsample d') rxtx = -1
    /\ sel (frame_start d') rxtx = sel (frame_start d) rxtx
    /\ python_puts (out d')
       = python_puts (out d)
         ++ [packet_at lo hi s (Packet "STARTBIT" (line_id rxtx) (PInt 0))].
Proof.
  intros Hhalf Hst Hlevel. rewrite inspect_sample_at. cbv zeta.
  fold (seen level inv). rewrite Hlevel.
  change (sel (state (set_samplenum s d)) rxtx) with (sel (state d) rxtx).
  rewrite Hst, (get_start_bit_valid _ _ lo hi half) by exact Hhalf.
  eexists. split; [reflexivity | ].
  destruct rxtx; repeat split; try reflexivity; puts_of; reflexivity.
Qed.

Lemma parity_steps (parity : Z * bool) (d : Decoder) :
  decoder_ok o lo hi half d ->
  sel (state d) rxtx = after_data o ->
  exists d',
    feed o rxtx inv (parity_samples o parity) d = (Ok tt, d')
    /\ decoder_ok o lo hi half d'
    /\ sel (state d') rxtx = GET_STOP_BITS
    /\ sel (frame_start d') rxtx = sel (frame_start d) rxtx
    /\ python_puts (out d')
       = python_puts (out d)
         ++ map (packet_at lo hi (fst parity))
              (parity_packets o rxtx (seen (snd parity) inv)
                 (sel (datavalue d) rxtx)).
Proof.
  intros Hok Hst. unfold parity_samples, parity_packets, after_data in *.
  destruct (String.eqb (parity_type o) "none").
  - exists d. cbn [map]. rewrite app_nil_r.
    split; [reflexivity | ]. split; [exact Hok | ]. split; [exact Hst | ].
    split; reflexivity.
  - destruct parity as [s level]. cbn [fst snd].
    assert (Hrun : inspect_sample o rxtx level inv (set_samplenum s d)
                   = get_parity_bit o rxtx (seen level inv)
                       (set_samplenum s d)).
    { rewrite inspect_sample_at. cbv zeta.
      change (sel (state (set_samplenum s d)) rxtx) with (sel (state d) rxtx).
      now rewrite Hst. }
    rewrite (get_parity_bit_run _ _ _ _ lo hi half) in Hrun
      by (destruct Hok as (Hh & _); exact Hh).
    rewrite (feed_step _ _ _ _ _ Hrun). cbn [feed ret].
    eexists. split; [reflexivity | ].
    split; [exact (step_ok _ _ _ _ Hok Hrun) | ].
    unfold parity_events.
    change (sel (datavalue (set_samplenum s d)) rxtx)
      with (sel (datavalue d) rxtx).
    destruct (truthy _); destruct rxtx; repeat split; try reflexivity;
      puts_of; reflexivity.
Qed.

Lemma stop_step (s : Z) (level : bool) (d : Decoder) :
  half_bit d lo hi half ->
  sel (state d) rxtx = GET_STOP_BITS ->
  exists d',
    inspect_sample o rxtx level inv (set_samplenum s d) = (Ok tt, d')
    /\ sel (state d') rxtx = WAIT_FOR_START_BIT
    /\ sel (frame_start d') rxtx = sel (frame_start d) rxtx
    /\ python_puts (out d')
       = python_puts (out d)
         ++ map (packet_at lo hi s) (stop_packets rxtx (seen level inv)).
Proof.
  intros Hhalf Hst. rewrite inspect_sample_at. cbv zeta.
  fold (seen level inv). unfold stop_packets.
  change (sel (state (set_samplenum s d)) rxtx) with (sel (state d) rxtx).
  rewrite Hst.
  destruct (seen level inv).
  - rewrite (get_stop_bits_valid _ _ lo hi half) by exact Hhalf.
    eexists. split; [reflexivity | ].
    destruct rxtx; repeat split; try reflexivity; puts_of; reflexivity.
  - rewrite (get_stop_bits_invalid _ _ lo hi half) by exact Hhalf.
    eexists. split; [reflexivity | ].
    destruct rxtx; repeat split; try reflexivity; puts_of;
      rewrite <- ?app_assoc; reflexivity.
Qed.
End Frame.

(** X7. A whole frame on one line: the sample of the edge, a start bit
    seen low, as many data bits as [num_data_bits], the parity bit if
    the parity type is not "none", and one stop bit.  [inspect_sample]
    returns at every sample, and what it puts on the Python output is,
    in this order: STARTBIT around the sample of the start bit; one DATA
    packet, from the first to the last data bit, with the value made of
    the bits seen and the log of these bits; the parity packet if any;
    and the stop packets.  The line is back in WAIT FOR START BIT, with
    [frame_start] at the sample of the edge. *)
Theorem frame_decoded (o : Options) (rxtx : line) (inv : bool)
    (lo hi half : Z) (d : Decoder) (edge start : Z * bool)
    (data : list (Z * bool)) (parity stop : Z * bool) :
  1 <= num_data_bits o ->
  decoder_ok o lo hi half d ->
  sel (state d) rxtx = WAIT_FOR_START_BIT ->
  seen (snd start) inv = false ->
  Z.of_nat (List.length data) = num_data_bits o ->
  Forall (fun p => fst p <> -1) data ->
  let value := fold_left (shift_in o) (seen_bits inv data) 0 in
  exists d',
    feed o rxtx inv
      (edge :: start :: data ++ parity_samples o parity ++ [stop]) d
    = (Ok tt, d')
    /\ python_puts (out d')
       = python_puts (out d)
         ++ [packet_at lo hi (fst start)
               (Packet "STARTBIT" (line_id rxtx) (PInt 0));
             mkEmitted (fst (hd start data) - lo) (fst (last data start) + hi)
               OUTPUT_PYTHON
               (Packet "DATA" (line_id rxtx)
                  (PData value (bit_log inv half data)))]
         ++ map (packet_at lo hi (fst parity))
              (parity_packets o rxtx (seen (snd parity) inv) value)
         ++ map (packet_at lo hi (fst stop))
              (stop_packets rxtx (seen (snd stop) inv))
    /\ sel (state d') rxtx = WAIT_FOR_START_BIT
    /\ sel (frame_start d') rxtx = fst edge
    /\ decoder_ok o lo hi half d'.
Proof.
  intros Hbits Hok Hst Hstart Hlen Hsamples value.
  destruct edge as [s0 l0], start as [s1 l1], stop as [s3 l3].
  cbn [fst snd] in *.
  assert (Hne : data <> []) by (intros ->; cbn in Hlen; lia).
  destruct (edge_step o rxtx inv s0 l0 d Hst) as (d1 & R1 & S1 & F1 & O1).
  pose proof (step_ok o rxtx inv lo hi half Hbits _ _ _ _ Hok R1) as K1.
  destruct (start_step o rxtx inv lo hi half s1 l1 d1
              (proj1 K1) S1 Hstart) as (d2 & R2 & S2 & C2 & T2 & F2 & O2).
  pose proof (step_ok o rxtx inv lo hi half Hbits _ _ _ _ K1 R2) as K2.
  assert (L2 : sel (databits d2) rxtx = []).
  { destruct (decoder_ok_line o rxtx lo hi half d2 K2) as (_ & _ & _ & I).
    rewrite S2, C2 in I. destruct I as (_ & I & _).
    destruct (sel (databits d2) rxtx); [reflexivity | discriminate]. }
  destruct (feed_data_bits o rxtx inv lo hi half Hbits data d2)
    as (d3 & R3 & K3 & S3 & V3 & O3 & F3);
    [exact Hne | exact Hsamples | exact K2 | exact S2 | rewrite C2; lia | ].
  rewrite L2 in V3, O3. rewrite T2 in O3.
  cbn [logged_bits map app Z.eqb Pos.eqb] in V3, O3.
  fold value in V3.
  destruct (parity_steps o rxtx inv lo hi half Hbits parity d3 K3 S3)
    as (d4 & R4 & K4 & S4 & F4 & O4).
  destruct (stop_step o rxtx inv lo hi half s3 l3 d4 (proj1 K4) S4)
    as (d5 & R5 & S5 & F5 & O5).
  pose proof (step_ok o rxtx inv lo hi half Hbits _ _ _ _ K4 R5) as K5.
  exists d5.
  split.
  { rewrite (feed_step _ _ _ _ _ _ _ _ R1), (feed_step _ _ _ _ _ _ _ _ R2).
    rewrite (feed_app _ _ _ _ _ _ _ R3), (feed_app _ _ _ _ _ _ _ R4).
    rewrite (feed_step _ _ _ _ _ _ _ _ R5). reflexivity. }
  split.
  { rewrite O5, O4, O3, O2, O1, V3, <- !app_assoc. cbn [app].
    destruct data as [| p data']; [contradiction | ].
    cbn [hd]. rewrite (last_nonempty data' p (0, false) (s1, l1)).
    reflexivity. }
  split; [exact S5 | ].
  split; [now rewrite F5, F4, F3, F2 | exact K5].
Qed.

(** ** The bytes of the binary output *)

Lemma bytes_le_value (k : nat) :
  forall v, 0 <= v ->
    fold_right (fun b acc => acc * 256 + b) 0 (bytes_le k v)
    = v mod 256 ^ Z.of_nat k.
Proof.
  induction k as [| k IH]; intros v Hv.
  - cbn [bytes_le fold_right]. now rewrite Z.pow_0_r, Z.mod_1_r.
  - cbn [bytes_le fold_right].
    rewrite IH by (apply Z.div_pos; lia).
    rewrite Nat2Z.inj_succ, Z.pow_succ_r by lia.
    rewrite (Z.rem_mul_r v 256 (256 ^ Z.of_nat k)) by lia. lia.
Qed.

Lemma bytes_le_range (k : nat) :
  forall v, Forall (fun b => 0 <= b < 256) (bytes_le k v).
Proof.
  induction k as [| k IH]; intros v; cbn [bytes_le]; constructor.
  - apply Z.mod_pos_bound. lia.
  - apply IH.
Qed.

Lemma length_bytes_le (k : nat) :
  forall v, List.length (bytes_le k v) = k.
Proof. induction k as [| k IH]; intros v; cbn; [ | rewrite IH]; reflexivity. Qed.

(** What [to_bytes] returns reads back as the number. *)
Lemma to_bytes_big_roundtrip (v len : Z) (bdata : list Z) :
  to_bytes_big v len = Ok bdata ->
  from_bytes_big bdata = v
  /\ Z.of_nat (List.length bdata) = len
  /\ Forall (fun b => 0 <= b < 256) bdata.
Proof.
  unfold to_bytes_big.
  destruct (Z.ltb_spec len 0); [discriminate | ].
  destruct (Z.ltb_spec v 0); [discriminate | ].
  destruct (Z.leb_spec (256 ^ len) v); [discriminate | ].
  cbn [orb]. intros E. inversion E; subst bdata; clear E.
  split; [ | split].
  - unfold from_bytes_big.
    rewrite <- (rev_involutive (bytes_le (Z.to_nat len) v)) at 1.
    rewrite rev_involutive.
    rewrite <- fold_left_rev_right, rev_involutive.
    rewrite bytes_le_value, Z2Nat.id by lia.
    apply Z.mod_small. lia.
  - rewrite length_rev, length_bytes_le. lia.
  - apply Forall_rev, bytes_le_range.
Qed.

(** X8. The last data bit of a frame.  [inspect_sample] returns, and what
    it puts is, in this order: the annotation of the bit, the DATA
    packet, the text of the value if [format_value] gives one, and the
    bytes of the value twice on the binary output, once for the line
    and once for both lines.  The bytes are the big-endian form of the
    data value on [(num_data_bits + 7) // 8] bytes: each is below 256
    and together they read back as the value. *)
Theorem data_group_output (o : Options) (rxtx : line) (level inv : bool)
    (d : Decoder) (lo hi half : Z) :
  1 <= num_data_bits o ->
  half_bit d lo hi half ->
  bw d = Some ((num_data_bits o + 7) / 8) ->
  line_inv o d rxtx ->
  sel (state d) rxtx = GET_DATA_BITS ->
  sel (cur_data_bit d) rxtx + 1 = num_data_bits o ->
  let s := (if sel (startsample d) rxtx =? -1 then samplenum d
            else sel (startsample d) rxtx) - lo in
  let e := samplenum d + hi in
  exists d' bdata,
    inspect_sample o rxtx level inv d = (Ok tt, d')
    /\ from_bytes_big bdata = sel (datavalue d') rxtx
    /\ Z.of_nat (List.length bdata) = (num_data_bits o + 7) / 8
    /\ Forall (fun b => 0 <= b < 256) bdata
    /\ out d'
       = out d
         ++ [mkEmitted (samplenum d - lo) e OUTPUT_ANN
               (Annotation (line_id rxtx + 12)
                  [format_int 10 0 (Z.b2z (seen level inv))]);
             mkEmitted s e OUTPUT_PYTHON
               (Packet "DATA" (line_id rxtx)
                  (PData (sel (datavalue d') rxtx)
                     (sel (databits d) rxtx
                      ++ [(Z.b2z (seen level inv), samplenum d - half,
                           samplenum d + half)])))]
         ++ match format_value o (sel (datavalue d') rxtx) with
            | Some text =>
                [mkEmitted s e OUTPUT_ANN (Annotation (line_id rxtx) [text])]
            | None => []
            end
         ++ [mkEmitted s e OUTPUT_BINARY (Binary (line_id rxtx) bdata);
             mkEmitted s e OUTPUT_BINARY (Binary 2 bdata)].
Proof.
  intros Hbits Hhalf Hbw (_ & Hinv) Hst Hlast s e.
  rewrite Hst in Hinv. destruct Hinv as (_ & Hlen & Hval).
  assert (Hn : Z.of_nat (List.length
                 (logged_bits (sel (databits d) rxtx) ++ [seen level inv]))
               = num_data_bits o).
  { rewrite length_app, length_logged_bits. cbn [List.length]. lia. }
  destruct (complete_value o _ Hn) as (Hrange & _).
  rewrite fold_left_snoc, <- Hval in Hrange.
  destruct (to_bytes_big_fits (num_data_bits o) _ Hbits Hrange)
    as (bdata & Hbytes).
  destruct (to_bytes_big_roundtrip _ _ _ Hbytes) as (Hback & Hl & Hr).
  rewrite inspect_sample_at. cbv zeta. fold (seen level inv). rewrite Hst.
  rewrite (get_data_bits_done _ _ _ _ lo hi half
             ((num_data_bits o + 7) / 8) bdata)
    by (try assumption; lia).
  destruct (with_data_bit_fields o rxtx (seen level inv) lo hi half d)
    as (Fc & Fv & Fl & Fs & Fo & _).
  destruct (with_data_group_fields o rxtx bdata lo hi
              (with_data_bit o rxtx (seen level inv) lo hi half d))
    as (_ & Gv & _).
  exists (with_data_group o rxtx bdata lo hi
            (with_data_bit o rxtx (seen level inv) lo hi half d)), bdata.
  split; [reflexivity | ].
  rewrite Gv, Fv. split; [exact Hback | ].
  split; [exact Hl | ]. split; [exact Hr | ].
  rewrite with_data_group_out, Fo, Fv, Fl, <- !app_assoc.
  assert (Es : sel (startsample
                      (with_data_bit o rxtx (seen level inv) lo hi half d))
                 rxtx - lo = s).
  { unfold s, with_data_bit, latch_startsample.
    destruct rxtx; destruct (_ =? -1) eqn:E; norm_all; rewrite ?E;
      reflexivity. }
  assert (Ee : samplenum (with_data_bit o rxtx (seen level inv) lo hi half d)
               + hi = e).
  { unfold e, with_data_bit, latch_startsample.
    destruct rxtx; destruct (_ =? -1); reflexivity. }
  rewrite Es, Ee. reflexivity.
Qed.

(** ** What the parity bit detects *)

Lemma odd_one_more (x : Z) : Z.odd (1 + x) = negb (Z.odd x).
Proof. now rewrite Z.odd_add. Qed.

Lemma popcount_Ndouble (n : N) :
  popcount (Z.of_N (Pos.Ndouble n)) = popcount (Z.of_N n).
Proof. destruct n; reflexivity. Qed.

Lemma popcount_Nsucc_double (n : N) :
  popcount (Z.of_N (Pos.Nsucc_double n)) = 1 + popcount (Z.of_N n).
Proof. destruct n; reflexivity. Qed.

Lemma pos_lxor_odd (p : positive) :
  forall q,
    Z.odd (popcount (Z.of_N (Pos.lxor p q)))
    = xorb (Z.odd (popcount_pos p)) (Z.odd (popcount_pos q)).
Proof.
  induction p as [p IH | p IH | ]; intros [q | q | ]; cbn [Pos.lxor];
    rewrite ?popcount_Ndouble, ?popcount_Nsucc_double;
    cbn [Z.of_N popcount popcount_pos];
    rewrite ?odd_one_more, ?IH;
    repeat match goal with
           | |- context [Z.odd (popcount_pos ?x)] =>
               destruct (Z.odd (popcount_pos x))
           end;
    reflexivity.
Qed.

(** The parity of the number of ones of an exclusive or. *)
Lemma popcount_lxor_odd (a b : Z) :
  0 <= a -> 0 <= b ->
  Z.odd (popcount (Z.lxor a b))
  = xorb (Z.odd (popcount a)) (Z.odd (popcount b)).
Proof.
  intros Ha Hb. destruct a as [| p | p]; [ | | lia].
  - cbn. now destruct (Z.odd (popcount b)).
  - destruct b as [| q | q]; [ | | lia].
    + cbn. now destruct (Z.odd (popcount_pos p)).
    + apply pos_lxor_odd.
Qed.

Lemma popcount_pow2 (i : Z) : 0 <= i -> popcount (2 ^ i) = 1.
Proof.
  intros Hi. pattern i. apply natlike_ind; [reflexivity | | exact Hi].
  intros x Hx IH. rewrite popcount_half by (apply Z.pow_nonneg; lia).
  rewrite Z.pow_succ_r by lia.
  rewrite (Z.mul_comm 2), Z.div_mul, Z.mod_mul by lia. lia.
Qed.

(** X9. With odd or even parity, one wrong bit is always seen: if
    [parity_ok] accepts (or rejects) a parity bit for a data value, it
    rejects (or accepts) it once any single bit of the value is flipped,
    and also once the parity bit itself is flipped; and what "odd"
    accepts is what "even" rejects. *)
Theorem parity_detects_one_flip (parity_type : string)
    (parity_bit data num_bits i : Z) :
  parity_type = "odd"%string \/ parity_type = "even"%string ->
  parity_bit = 0 \/ parity_bit = 1 ->
  0 <= data ->
  0 <= i ->
  exists accepted,
    parity_ok parity_type parity_bit data num_bits = Some accepted
    /\ parity_ok parity_type parity_bit (Z.lxor data (2 ^ i)) num_bits
       = Some (negb accepted)
    /\ parity_ok parity_type (1 - parity_bit) data num_bits
       = Some (negb accepted)
    /\ parity_ok "odd" parity_bit data num_bits
       = option_map negb (parity_ok "even" parity_bit data num_bits).
Proof.
  intros Ht Hp Hd Hi.
  assert (Hx : 0 <= 2 ^ i) by (apply Z.pow_nonneg; lia).
  assert (Hflip : forall p,
            Z.odd (popcount (Z.lxor data (2 ^ i)) + p)
            = negb (Z.odd (popcount data + p))).
  { intros p. rewrite !Z.odd_add, popcount_lxor_odd, popcount_pow2 by lia.
    cbn. destruct (Z.odd (popcount data)), (Z.odd p); reflexivity. }
  assert (Hbit : Z.odd (popcount data + (1 - parity_bit))
                 = negb (Z.odd (popcount data + parity_bit))).
  { rewrite !Z.odd_add.
    destruct Hp as [-> | ->]; cbn; destruct (Z.odd (popcount data));
      reflexivity. }
  unfold parity_ok.
  destruct Ht as [-> | ->]; cbn [String.eqb Ascii.eqb Bool.eqb andb];
    cbv iota; rewrite !count_bin, ?mod2_odd, ?mod2_even, <- ?Z.negb_odd,
      ?Hflip, ?Hbit; eexists; repeat split; cbn [option_map];
    rewrite ?Bool.negb_involutive; reflexivity.
Qed.

(** ** Texts of distinct values *)

Lemma bracket_inv (h h' : string) :
  (h ++ "]")%string = (h' ++ "]")%string -> h = h'.
Proof.
  revert h'. induction h as [| c h IH]; intros [| c' h'] E; cbn in E.
  - reflexivity.
  - inversion E as [[Hc Hrest]]. destruct h'; discriminate.
  - inversion E as [[Hc Hrest]]. destruct h; discriminate.
  - inversion E as [[Hc Hrest]]. f_equal. now apply IH.
Qed.

Lemma format_int_inj (base : Z) (width : nat) (v v' : Z) :
  2 <= base <= 16 -> 0 <= v -> 0 <= v' ->
  format_int base width v = format_int base width v' -> v = v'.
Proof.
  intros Hb Hv Hv' E.
  pose proof (parse_format_int base width v Hb Hv) as P.
  rewrite E, parse_format_int in P by assumption. now inversion P.
Qed.

Lemma chr_inj (v v' : Z) :
  0 <= v < 256 -> 0 <= v' < 256 -> chr v = chr v' -> v = v'.
Proof.
  intros Hv Hv' E. unfold chr in E. inversion E as [H].
  apply (f_equal N_of_ascii) in H.
  rewrite !N_ascii_embedding in H by lia. lia.
Qed.

Lemma some_eq {A : Type} (a b : A) : Some a = Some b -> a = b.
Proof. intros E. now inversion E. Qed.

(** X10. For each of the five formats, [format_value] gives distinct
    texts to distinct values: two data values with the same text are
    the same value. *)
Theorem format_value_injective (o : Options) (v v' : Z) :
  In (format o) format_values ->
  0 <= v -> 0 <= v' ->
  format_value o v = format_value o v' ->
  v = v'.
Proof.
  intros Hin Hv Hv'. unfold format_values in Hin. cbn [In] in Hin.
  unfold format_value.
  destruct Hin as [E | [E | [E | [E | [E | []]]]]]; rewrite <- E;
    cbn [String.eqb Ascii.eqb Bool.eqb andb]; cbv iota beta zeta.
  - destruct (Z.leb_spec 32 v), (Z.ltb_spec v (126 + 1)),
      (Z.leb_spec 32 v'), (Z.ltb_spec v' (126 + 1));
      cbn [andb]; destruct (num_data_bits o <=? 8);
      intros Heq; apply some_eq in Heq;
      try (apply chr_inj; [lia | lia | exact Heq]);
      try (cbn [append] in Heq; injection Heq as H';
           apply bracket_inv in H';
           eapply format_int_inj; [ | | | exact H']; lia);
      exfalso; unfold chr in Heq; cbn [append] in Heq;
      injection Heq as _ H';
      match type of H' with
      | _ = (format_int ?b ?w ?x ++ _)%string =>
          destruct (format_int b w x); discriminate
      | (format_int ?b ?w ?x ++ _)%string = _ =>
          destruct (format_int b w x); discriminate
      end.
  - intros Heq; apply some_eq in Heq.
    eapply format_int_inj; [ | | | exact Heq]; lia.
  - intros Heq; apply some_eq in Heq.
    eapply format_int_inj; [ | | | exact Heq]; lia.
  - intros Heq; apply some_eq in Heq.
    eapply format_int_inj; [ | | | exact Heq]; lia.
  - intros Heq; apply some_eq in Heq.
    eapply format_int_inj; [ | | | exact Heq]; lia.
Qed.

(** ** Setting the sample rate *)

Lemma metadata_stores (o : Options) (value : Z) (d : Decoder) :
  samplerate (snd (metadata o true value d)) = Some value.
Proof.
  unfold metadata, bind, modify, lift, raise.
  destruct (float_of_int value); [ | reflexivity].
  destruct (float_of_int (baudrate o)); [ | reflexivity].
  destruct (PrimFloat.eqb _ _); reflexivity.
Qed.

(** X11. [metadata] looks at the sample rate only: any other key leaves
    the object as it was. The sample rate is stored before the bit
    width is computed, so it is stored however the call ends. With a
    baud rate of 0 the call raises ([ZeroDivisionError], unless the
    sample rate is already too large for a float) and [bit_width] is
    left as it was. A sample rate of 0 is stored too, and [decode] then
    refuses to run. *)
Theorem metadata_edge_cases (o : Options) (value : Z) (d : Decoder) :
  metadata o false value d = (Ok tt, d)
  /\ samplerate (snd (metadata o true value d)) = Some value
  /\ (baudrate o = 0 ->
      fst (metadata o true value d)
      = match float_of_int value with
        | Ok _ => Raise ZeroDivisionError
        | Raise e => Raise e
        end
      /\ bit_width (snd (metadata o true value d)) = bit_width d)
  /\ (value = 0 ->
      forall has_channel answers,
        decode o has_channel answers (snd (metadata o true value d))
        = (Raise (SamplerateError "Cannot decode without samplerate."),
           snd (metadata o true value d))).
Proof.
  split; [reflexivity | ]. split; [apply metadata_stores | ]. split.
  - intros Hb. unfold metadata, bind, modify, lift, raise. rewrite Hb.
    destruct (float_of_int value); split; reflexivity.
  - intros Hv has_channel answers. unfold decode, bind at 1, gets at 1.
    rewrite metadata_stores, Hv. reflexivity.
Qed.

(** ** One wait per answer *)

Lemma decode_cases (o : Options) (has_channel : line -> bool)
    (answers : list wait_result) (d : Decoder) :
  decode o has_channel answers d
  = if not_samplerate (samplerate d)
    then (Raise (SamplerateError "Cannot decode without samplerate."), d)
    else if negb (has_channel RX) && negb (has_channel TX)
    then (Raise (ChannelError "Either TX or RX (or both) pins required."), d)
    else decode_loop o (has_channel RX, has_channel TX)
           (String.eqb (invert_rx o) "yes", String.eqb (invert_tx o) "yes")
           (None, None) answers d.
Proof.
  unfold decode, bind, gets.
  destruct (not_samplerate (samplerate d)); [reflexivity | ].
  cbn [fst snd].
  destruct (negb (has_channel RX) && negb (has_channel TX)); reflexivity.
Qed.

Lemma host_fields_closed (w : list (list cond)) (s : Z) (m : list bool)
    (rxtx : line) :
  line_closed
    (fun d' => waits d' = w /\ samplenum d' = s /\ matched d' = m) rxtx.
Proof. intros d' H. repeat split; intros; apply H. Qed.

Lemma last_cons_default {A : Type} (l : list A) (x y : A) :
  last (x :: l) y = last l x.
Proof.
  destruct l as [| z l]; [reflexivity | ].
  change (last (z :: l) y = last (z :: l) x). apply last_nonempty.
Qed.

Lemma decode_loop_waits (o : Options) (has_pin inv : per_line bool)
    (answers : list wait_result) :
  forall cond_idx d,
    fst (decode_loop o has_pin inv cond_idx answers d) = Ok tt ->
    let d' := snd (decode_loop o has_pin inv cond_idx answers d) in
    List.length (waits d')
    = (List.length (waits d) + List.length answers + 1)%nat
    /\ samplenum d' = last (map at_sample answers) (samplenum d)
    /\ matched d' = last (map matched_flags answers) (matched d).
Proof.
  induction answers as [| a rest IH]; intros cond_idx d.
  - rewrite decode_loop_nil.
    destruct (cycle_conds o has_pin inv cond_idx d) as [[conds ci] | e];
      [ | discriminate].
    intros _. cbn [snd map last List.length]. norm_all.
    rewrite length_app. cbn [List.length]. repeat split; lia.
  - rewrite decode_loop_cons.
    destruct (cycle_conds o has_pin inv cond_idx d) as [[conds ci] | e];
      [ | discriminate].
    set (d1 := arrived conds a d).
    pose proof (keeps_dispatch_line _ RX
                  (host_fields_closed (waits d1) (samplenum d1) (matched d1)
                     RX) o inv ci (fst (pins a)) d1
                  (conj eq_refl (conj eq_refl eq_refl))) as K1.
    destruct (dispatch o inv ci RX (fst (pins a)) d1) as [[[] | e] d2] eqn:E1;
      [ | unfold bind at 1; rewrite E1; discriminate].
    rewrite !(bind_run _ _ _ _ _ E1). cbn [snd] in K1.
    pose proof (keeps_dispatch_line _ TX
                  (host_fields_closed (waits d1) (samplenum d1) (matched d1)
                     TX) o inv ci (snd (pins a)) d2 K1) as K2.
    destruct (dispatch o inv ci TX (snd (pins a)) d2) as [[[] | e] d3] eqn:E2;
      [ | unfold bind at 1; rewrite E2; discriminate].
    rewrite !(bind_run _ _ _ _ _ E2).
    cbn [snd] in K2. destruct K2 as (Hw & Hs & Hm).
    intros Hok. destruct (IH ci d3 Hok) as (Lw & Ls & Lm).
    cbv zeta. rewrite Lw, Ls, Lm, Hw, Hs, Hm.
    cbn [map]. rewrite !last_cons_default.
    unfold d1, arrived. norm_all. rewrite length_app.
    cbn [List.length]. repeat split; lia.
Qed.

(** X12. A run of [decode] that returns has asked the host exactly one
    wait per answer and one more, the one it is left in; the object then
    stands at the sample of the last answer, with the match flags of
    that answer. *)
Theorem decode_asks_once_per_answer (o : Options)
    (has_channel : line -> bool) (answers : list wait_result) (d : Decoder) :
  fst (decode o has_channel answers d) = Ok tt ->
  let d' := snd (decode o has_channel answers d) in
  List.length (waits d')
  = (List.length (waits d) + List.length answers + 1)%nat
  /\ samplenum d' = last (map at_sample answers) (samplenum d)
  /\ matched d' = last (map matched_flags answers) (matched d).
Proof.
  rewrite decode_cases.
  destruct (not_samplerate (samplerate d)); [discriminate | ].
  destruct (negb (has_channel RX) && negb (has_channel TX));
    [discriminate | ].
  apply decode_loop_waits.
Qed.

(** ** What a step does not read *)

Section Sim.
Context {A B : Type}.

Lemma sim_bind (m1 m2 : M A) (k1 k2 : A -> M B) :
  sim m1 m2 -> (forall a, sim (k1 a) (k2 a)) -> sim (bind m1 k1) (bind m2 k2).
Proof.
  intros Hm Hk d1 d2 Hd. unfold bind.
  destruct (Hm d1 d2 Hd) as (Hf & Hs).
  destruct (m1 d1) as [[a1 | e1] d1'], (m2 d2) as [[a2 | e2] d2'];
    cbn [fst snd] in *; try discriminate.
  - inversion Hf; subst. now apply Hk.
  - inversion Hf; subst. split; [reflexivity | exact Hs].
Qed.

Lemma sim_ret (a : A) : sim (ret a) (ret a).
Proof. intros d1 d2 Hd. split; [reflexivity | exact Hd]. Qed.

Lemma sim_raise (e : exn) : sim (@raise A e) (raise e).
Proof. intros d1 d2 Hd. split; [reflexivity | exact Hd]. Qed.

Lemma sim_lift (r : outcome A) : sim (lift r) (lift r).
Proof. intros d1 d2 Hd. split; [reflexivity | exact Hd]. Qed.

Lemma sim_gets (f : Decoder -> A) :
  (forall d, f (host_blind d) = f d) -> sim (gets f) (gets f).
Proof.
  intros Hf d1 d2 Hd. split; [ | exact Hd].
  unfold gets. cbn [fst]. rewrite <- (Hf d1), <- (Hf d2). now rewrite Hd.
Qed.

Lemma sim_attr (name : string) (f : Decoder -> option A) :
  (forall d, f (host_blind d) = f d) -> sim (attr name f) (attr name f).
Proof.
  intros Hf d1 d2 Hd. unfold attr.
  rewrite <- (Hf d1), <- (Hf d2), Hd.
  destruct (f (host_blind d2)); split; try reflexivity; exact Hd.
Qed.
End Sim.

Lemma sim_modify (f : Decoder -> Decoder) :
  (forall d, host_blind (f d) = f (host_blind d)) ->
  sim (modify f) (modify f).
Proof.
  intros Hf d1 d2 Hd. split; [reflexivity | ].
  unfold modify, alike in *. cbn [snd]. now rewrite !Hf, Hd.
Qed.

Ltac sim_step :=
  lazymatch goal with
  | |- sim (bind _ _) (bind _ _) => apply sim_bind; [ | intros ? ]
  | |- sim (ret _) (ret _) => apply sim_ret
  | |- sim (raise _) (raise _) => apply sim_raise
  | |- sim (lift _) (lift _) => apply sim_lift
  | |- sim (gets _) (gets _) => apply sim_gets; intros; reflexivity
  | |- sim (attr _ _) (attr _ _) => apply sim_attr; intros; reflexivity
  | |- sim (modify _) (modify _) => apply sim_modify; intros; reflexivity
  | |- sim (if ?c then _ else _) _ => destruct c
  | |- sim (match ?c with Some _ => _ | None => _ end) _ => destruct c
  end.

(** A step reads neither the list of waits nor the match flags. *)
Lemma sim_inspect_sample (o : Options) (rxtx : line) (level inv : bool) :
  sim (inspect_sample o rxtx level inv) (inspect_sample o rxtx level inv).
Proof.
  unfold inspect_sample.
  apply sim_bind; [apply sim_gets; intros; reflexivity | intros st].
  destruct st;
    unfold wait_for_start_bit, get_start_bit, get_data_bits, get_parity_bit,
      get_stop_bits, putp, putg, putx, putpx, putbin, put;
    repeat sim_step.
Qed.

Lemma sim_get_wait_cond (o : Options) (rxtx : line) (inv : bool) :
  sim (get_wait_cond o rxtx inv) (get_wait_cond o rxtx inv).
Proof.
  unfold get_wait_cond.
  apply sim_bind; [apply sim_gets; intros; reflexivity | intros st].
  destruct st; unfold get_sample_point; repeat sim_step.
Qed.

Lemma alike_arrived (conds : list cond) (a : wait_result) (d1 d2 : Decoder) :
  alike d1 d2 -> alike (arrived conds a d1) (set_samplenum (at_sample a) d2).
Proof.
  unfold alike. intros H.
  change (set_samplenum (at_sample a) (host_blind d1)
          = set_samplenum (at_sample a) (host_blind d2)).
  now rewrite H.
Qed.

Lemma alike_arrived_both (c1 c2 : list cond) (a1 a2 : wait_result)
    (d1 d2 : Decoder) :
  at_sample a1 = at_sample a2 ->
  alike d1 d2 -> alike (arrived c1 a1 d1) (arrived c2 a2 d2).
Proof.
  unfold alike. intros Hs H.
  change (set_samplenum (at_sample a1) (host_blind d1)
          = set_samplenum (at_sample a2) (host_blind d2)).
  now rewrite H, Hs.
Qed.

Lemma inspect_sample_seen (o : Options) (rxtx : line) (level inv : bool) :
  inspect_sample o rxtx level inv
  = inspect_sample o rxtx (seen level inv) false.
Proof. destruct inv; reflexivity. Qed.

Lemma dispatch_matched (o : Options) (inv : per_line bool)
    (cond_idx : per_line (option nat)) (rxtx : line) (level : bool)
    (d : Decoder) (i : nat) :
  sel cond_idx rxtx = Some i ->
  nth_error (matched d) i = Some true ->
  dispatch o inv cond_idx rxtx level d
  = inspect_sample o rxtx level (sel inv rxtx) d.
Proof.
  intros Hi Hm. unfold dispatch, matched_at, bind at 1, bind at 1, gets.
  now rewrite Hi, Hm.
Qed.

Lemma dispatch_absent (o : Options) (inv : per_line bool)
    (cond_idx : per_line (option nat)) (rxtx : line) (level : bool)
    (d : Decoder) :
  sel cond_idx rxtx = None ->
  dispatch o inv cond_idx rxtx level d = (Ok tt, d).
Proof. intros Hi. unfold dispatch. now rewrite Hi. Qed.

(** ** A run on one line *)

Lemma single_line_loop (o : Options) (has_channel : line -> bool)
    (inv : per_line bool) (rxtx : line) (answers : list wait_result) :
  has_channel rxtx = true ->
  has_channel (other rxtx) = false ->
  Forall (fun a => nth_error (matched_flags a) 0 = Some true) answers ->
  forall cond_idx d1 d2,
    sel cond_idx (other rxtx) = None ->
    alike d1 d2 ->
    fst (decode_loop o (has_channel RX, has_channel TX) inv cond_idx answers
           d1) = Ok tt ->
    exists d_f,
      feed o rxtx (sel inv rxtx) (map (sample_of rxtx) answers) d2
      = (Ok tt, d_f)
      /\ alike
           (snd (decode_loop o (has_channel RX, has_channel TX) inv cond_idx
                   answers d1))
           d_f.
Proof.
  intros Hon Hoff Hall.
  induction Hall as [| a rest Ha Hrest IH]; intros cond_idx d1 d2 Hci Hd.
  - rewrite decode_loop_nil.
    destruct (cycle_conds _ _ _ _ d1) as [[conds ci] | e]; [ | discriminate].
    intros _. exists d2. split; [reflexivity | exact Hd].
  - rewrite decode_loop_cons.
    destruct (cycle_conds _ _ _ _ d1) as [[conds ci] | e] eqn:Hc;
      [ | discriminate].
    pose proof (cycle_conds_index _ _ _ _ _ _ _ rxtx Hc) as Hi.
    pose proof (cycle_conds_index _ _ _ _ _ _ _ (other rxtx) Hc) as Hj.
    rewrite Hon in Hi. rewrite Hoff, Hci in Hj.
    assert (Hpos : cond_position has_channel rxtx = 0%nat).
    { unfold cond_position. destruct rxtx; [reflexivity | ].
      cbn [other] in Hoff. now rewrite Hoff. }
    rewrite Hpos in Hi.
    set (d1' := arrived conds a d1).
    assert (Hm : nth_error (matched d1') 0 = Some true) by exact Ha.
    pose proof (dispatch_matched o inv ci rxtx (sel (pins a) rxtx) d1' 0
                  Hi Hm) as Hin.
    pose proof (sim_inspect_sample o rxtx (sel (pins a) rxtx) (sel inv rxtx)
                  d1' (set_samplenum (at_sample a) d2)
                  (alike_arrived conds a d1 d2 Hd)) as (Hf & Hs).
    cbn [map]. unfold sample_of at 1.
    destruct (inspect_sample o rxtx (sel (pins a) rxtx) (sel inv rxtx) d1')
      as [[[] | e] d1''] eqn:E1.
    + destruct (inspect_sample o rxtx (sel (pins a) rxtx) (sel inv rxtx)
                  (set_samplenum (at_sample a) d2))
        as [[[] | e] d2''] eqn:E2; [ | discriminate].
      cbn [fst snd] in Hs.
      rewrite (feed_step _ _ _ _ _ _ _ _ E2).
      assert (Hrun : (dispatch o inv ci RX (fst (pins a)) ;;
                      dispatch o inv ci TX (snd (pins a)) ;;
                      decode_loop o (has_channel RX, has_channel TX) inv ci
                        rest) d1'
                     = decode_loop o (has_channel RX, has_channel TX) inv ci
                         rest d1'').
      { destruct rxtx; cbn [other sel] in *.
        - rewrite (bind_run _ _ _ _ _ Hin).
          rewrite (bind_run _ _ _ _ _
                     (dispatch_absent o inv ci TX (snd (pins a)) d1'' Hj)).
          reflexivity.
        - rewrite (bind_run _ _ _ _ _
                     (dispatch_absent o inv ci RX (fst (pins a)) d1' Hj)).
          rewrite (bind_run _ _ _ _ _ Hin). reflexivity. }
      rewrite Hrun. apply IH; assumption.
    + assert (Hrun : fst ((dispatch o inv ci RX (fst (pins a)) ;;
                           dispatch o inv ci TX (snd (pins a)) ;;
                           decode_loop o (has_channel RX, has_channel TX) inv
                             ci rest) d1') = Raise e).
      { destruct rxtx; cbn [other sel] in *.
        - unfold bind at 1. now rewrite Hin.
        - rewrite (bind_run _ _ _ _ _
                     (dispatch_absent o inv ci RX (fst (pins a)) d1' Hj)).
          unfold bind at 1. now rewrite Hin. }
      rewrite Hrun. discriminate.
Qed.

(** X13. A run of [decode] on one line only, with every answer of the
    host matching its one condition, inspects the answered samples one
    after the other: if the run returns, so does [feed] on these
    samples, and it leaves the same output and the same attributes;
    only the list of waits and the match flags, which [feed] does not
    write, may differ. *)
Theorem decode_single_line (o : Options) (has_channel : line -> bool)
    (rxtx : line) (answers : list wait_result) (d : Decoder) :
  has_channel rxtx = true ->
  has_channel (other rxtx) = false ->
  Forall (fun a => nth_error (matched_flags a) 0 = Some true) answers ->
  fst (decode o has_channel answers d) = Ok tt ->
  exists d_f,
    feed o rxtx
      (sel (String.eqb (invert_rx o) "yes", String.eqb (invert_tx o) "yes")
         rxtx)
      (map (sample_of rxtx) answers) d
    = (Ok tt, d_f)
    /\ alike (snd (decode o has_channel answers d)) d_f.
Proof.
  intros Hon Hoff Hall.
  rewrite decode_cases.
  destruct (not_samplerate (samplerate d)); [discriminate | ].
  destruct (negb (has_channel RX) && negb (has_channel TX));
    [discriminate | ].
  apply single_line_loop; try assumption; [now destruct rxtx | reflexivity].
Qed.

(** ** Inverted lines *)

Lemma dispatch_keeps_matched (o : Options) (inv : per_line bool)
    (cond_idx : per_line (option nat)) (rxtx : line) (level : bool)
    (d : Decoder) :
  matched (snd (dispatch o inv cond_idx rxtx level d)) = matched d.
Proof.
  now apply (keeps_dispatch_line (fun d' => matched d' = matched d) rxtx
               (matched_closed (matched d) rxtx)).
Qed.

(** Two inspections of a line that sees the same level. *)
Lemma agree_dispatch (o : Options) (inv1 inv2 : per_line bool)
    (cond_idx : per_line (option nat)) (rxtx : line) (level1 level2 : bool)
    (d1 d2 : Decoder) :
  alike d1 d2 ->
  matched d1 = matched d2 ->
  seen level1 (sel inv1 rxtx) = seen level2 (sel inv2 rxtx) ->
  agree (dispatch o inv1 cond_idx rxtx level1 d1)
    (dispatch o inv2 cond_idx rxtx level2 d2).
Proof.
  intros Hd Hm Hseen. unfold dispatch.
  destruct (sel cond_idx rxtx) as [i | ]; [ | split; [reflexivity | exact Hd]].
  unfold matched_at, bind at 1 3, bind at 1 2, gets. rewrite Hm.
  destruct (nth_error (matched d2) i) as [[ | ] | ];
    try (split; [reflexivity | exact Hd]).
  rewrite (inspect_sample_seen o rxtx level1),
    (inspect_sample_seen o rxtx level2), Hseen.
  now apply sim_inspect_sample.
Qed.

Lemma get_wait_cond_any_inv (o : Options) (rxtx : line) (i1 i2 : bool)
    (d : Decoder) :
  sel (state d) rxtx <> WAIT_FOR_START_BIT ->
  get_wait_cond o rxtx i1 d = get_wait_cond o rxtx i2 d.
Proof.
  intros Hst. unfold get_wait_cond, bind, gets.
  destruct (sel (state d) rxtx); [contradiction | reflexivity ..].
Qed.

(** The wait conditions of a cycle raise the same way and give the same
    indices whatever the inversion. *)
Lemma line_cond_alike (o : Options) (inv1 inv2 : per_line bool)
    (d1 d2 : Decoder) (rxtx : line) :
  alike d1 d2 ->
  match line_cond o inv1 d1 rxtx, line_cond o inv2 d2 rxtx with
  | Ok _, Ok _ => True
  | Raise e1, Raise e2 => e1 = e2
  | _, _ => False
  end.
Proof.
  intros Hd.
  assert (Hst : sel (state d1) rxtx = sel (state d2) rxtx).
  { change (sel (state (host_blind d1)) rxtx
            = sel (state (host_blind d2)) rxtx). now rewrite Hd. }
  assert (Hcase : sel (state d2) rxtx = WAIT_FOR_START_BIT
                  \/ sel (state d2) rxtx <> WAIT_FOR_START_BIT)
    by (destruct (sel (state d2) rxtx); auto; right; discriminate).
  destruct Hcase as [E2 | E2].
  - rewrite !line_cond_idle by congruence. exact I.
  - destruct (sim_get_wait_cond o rxtx (sel inv2 rxtx) d1 d2 Hd) as (Hf & _).
    unfold line_cond.
    rewrite (get_wait_cond_any_inv o rxtx (sel inv1 rxtx) (sel inv2 rxtx) d1)
      by congruence.
    rewrite Hf. now destruct (fst (get_wait_cond o rxtx (sel inv2 rxtx) d2)).
Qed.

Lemma cycle_conds_alike (o : Options) (has_pin inv1 inv2 : per_line bool)
    (cond_idx : per_line (option nat)) (d1 d2 : Decoder) :
  alike d1 d2 ->
  match cycle_conds o has_pin inv1 cond_idx d1,
        cycle_conds o has_pin inv2 cond_idx d2 with
  | Ok (_, ci1), Ok (_, ci2) => ci1 = ci2
  | Raise e1, Raise e2 => e1 = e2
  | _, _ => False
  end.
Proof.
  intros Hd. unfold cycle_conds.
  pose proof (line_cond_alike o inv1 inv2 d1 d2 RX Hd) as Hrx.
  pose proof (line_cond_alike o inv1 inv2 d1 d2 TX Hd) as Htx.
  destruct (sel has_pin RX), (sel has_pin TX);
    destruct (line_cond o inv1 d1 RX), (line_cond o inv2 d2 RX);
    destruct (line_cond o inv1 d1 TX), (line_cond o inv2 d2 TX);
    try contradiction; try reflexivity; assumption.
Qed.

Lemma bind_raise {A B : Type} (m : M A) (k : A -> M B) (d d' : Decoder)
    (e : exn) :
  m d = (Raise e, d') -> bind m k d = (Raise e, d').
Proof. intros H. unfold bind. now rewrite H. Qed.

(** The two inspections of a cycle, on objects that are alike and with
    the same match flags. *)
Lemma agree_cycle (o : Options) (inv1 inv2 : per_line bool)
    (cond_idx : per_line (option nat)) (p1 p2 : bool * bool)
    (k1 k2 : M unit) (d1 d2 : Decoder) :
  alike d1 d2 ->
  matched d1 = matched d2 ->
  seen (fst p1) (sel inv1 RX) = seen (fst p2) (sel inv2 RX) ->
  seen (snd p1) (sel inv1 TX) = seen (snd p2) (sel inv2 TX) ->
  (forall d1' d2', alike d1' d2' -> agree (k1 d1') (k2 d2')) ->
  agree
    ((dispatch o inv1 cond_idx RX (fst p1) ;;
      dispatch o inv1 cond_idx TX (snd p1) ;; k1) d1)
    ((dispatch o inv2 cond_idx RX (fst p2) ;;
      dispatch o inv2 cond_idx TX (snd p2) ;; k2) d2).
Proof.
  intros Hd Hm Hrx Htx Hk.
  pose proof (agree_dispatch o inv1 inv2 cond_idx RX (fst p1) (fst p2) d1 d2
                Hd Hm Hrx) as (Hf & Hs).
  pose proof (dispatch_keeps_matched o inv1 cond_idx RX (fst p1) d1) as M1.
  pose proof (dispatch_keeps_matched o inv2 cond_idx RX (fst p2) d2) as M2.
  destruct (dispatch o inv1 cond_idx RX (fst p1) d1) as [[[] | e1] d1'] eqn:E1;
    destruct (dispatch o inv2 cond_idx RX (fst p2) d2)
      as [[[] | e2] d2'] eqn:E2;
    cbn [fst snd] in *; try discriminate.
  2: { rewrite (bind_raise _ _ _ _ _ E1), (bind_raise _ _ _ _ _ E2).
       split; [exact Hf | exact Hs]. }
  rewrite (bind_run _ _ _ _ _ E1), (bind_run _ _ _ _ _ E2).
  assert (Hm' : matched d1' = matched d2') by congruence.
  pose proof (agree_dispatch o inv1 inv2 cond_idx TX (snd p1) (snd p2)
                d1' d2' Hs Hm' Htx) as (Hf' & Hs').
  destruct (dispatch o inv1 cond_idx TX (snd p1) d1')
    as [[[] | e1] d1''] eqn:E3;
    destruct (dispatch o inv2 cond_idx TX (snd p2) d2')
      as [[[] | e2] d2''] eqn:E4;
    cbn [fst snd] in *; try discriminate.
  2: { rewrite (bind_raise _ _ _ _ _ E3), (bind_raise _ _ _ _ _ E4).
       split; [exact Hf' | exact Hs']. }
  rewrite (bind_run _ _ _ _ _ E3), (bind_run _ _ _ _ _ E4).
  now apply Hk.
Qed.

Lemma inversion_loop (o : Options) (has_pin inv : per_line bool)
    (answers : list wait_result) :
  forall cond_idx d1 d2,
    alike d1 d2 ->
    agree
      (decode_loop o has_pin inv cond_idx (map (flip_pins inv) answers) d1)
      (decode_loop o has_pin (false, false) cond_idx answers d2).
Proof.
  induction answers as [| a rest IH]; intros cond_idx d1 d2 Hd.
  - cbn [map]. rewrite !decode_loop_nil.
    pose proof (cycle_conds_alike o has_pin inv (false, false) cond_idx
                  d1 d2 Hd) as Hc.
    destruct (cycle_conds o has_pin inv cond_idx d1) as [[c1 ci1] | e1],
      (cycle_conds o has_pin (false, false) cond_idx d2) as [[c2 ci2] | e2];
      try contradiction.
    + split; [reflexivity | exact Hd].
    + subst e2. split; [reflexivity | exact Hd].
  - cbn [map]. rewrite !decode_loop_cons.
    pose proof (cycle_conds_alike o has_pin inv (false, false) cond_idx
                  d1 d2 Hd) as Hc.
    destruct (cycle_conds o has_pin inv cond_idx d1) as [[c1 ci1] | e1],
      (cycle_conds o has_pin (false, false) cond_idx d2) as [[c2 ci2] | e2];
      try contradiction.
    2: { subst e2. split; [reflexivity | exact Hd]. }
    subst ci2.
    apply agree_cycle.
    + apply alike_arrived_both; [reflexivity | exact Hd].
    + reflexivity.
    + cbn [flip_pins pins fst sel]. unfold seen.
      destruct (fst inv), (fst (pins a)); reflexivity.
    + cbn [flip_pins pins snd sel]. unfold seen.
      destruct (snd inv), (snd (pins a)); reflexivity.
    + intros d1' d2' Hd'. now apply IH.
Qed.

Lemma invert_unread (o : Options) (rx tx : string) (has_pin inv : per_line bool)
    (answers : list wait_result) :
  forall cond_idx d,
    decode_loop (with_invert o rx tx) has_pin inv cond_idx answers d
    = decode_loop o has_pin inv cond_idx answers d.
Proof.
  assert (Hi : inspect_sample (with_invert o rx tx) = inspect_sample o)
    by (destruct o; reflexivity).
  assert (Hw : get_wait_cond (with_invert o rx tx) = get_wait_cond o)
    by (destruct o; reflexivity).
  assert (Hb : build_conds (with_invert o rx tx) = build_conds o)
    by (unfold build_conds; now rewrite Hw).
  assert (Hd : dispatch (with_invert o rx tx) = dispatch o)
    by (unfold dispatch; now rewrite Hi).
  induction answers as [| a rest IH]; intros cond_idx d.
  - cbn [decode_loop]. now rewrite Hb.
  - cbn [decode_loop]. rewrite Hb, Hd.
    apply bind_ext. intros [conds ci] d1.
    apply bind_ext. intros [rx' tx'] d2.
    apply bind_ext. intros _ d3. apply bind_ext. intros _ d4. apply IH.
Qed.

(** X14. The invert options do what they say: a run with lines
    inverted, on a signal whose level on these lines is the opposite at
    every answer, ends as the run with no line inverted on the signal
    itself: the same return or the same exception, the same output and
    the same attributes of the object.  The list of waits is left out
    of the comparison: there an idle inverted line waits for a rising
    edge instead of a falling one. *)
Theorem inversion_symmetry (o : Options) (rx tx : string)
    (has_channel : line -> bool) (answers : list wait_result) (d : Decoder) :
  let inv := (String.eqb rx "yes", String.eqb tx "yes") in
  agree
    (decode (with_invert o rx tx) has_channel (map (flip_pins inv) answers) d)
    (decode (with_invert o "no" "no") has_channel answers d).
Proof.
  intros inv. rewrite !decode_cases.
  destruct (not_samplerate (samplerate d)); [split; reflexivity | ].
  destruct (negb (has_channel RX) && negb (has_channel TX));
    [split; reflexivity | ].
  rewrite !invert_unread.
  change (String.eqb (invert_rx (with_invert o rx tx)) "yes",
          String.eqb (invert_tx (with_invert o rx tx)) "yes") with inv.
  change (String.eqb (invert_rx (with_invert o "no" "no")) "yes",
          String.eqb (invert_tx (with_invert o "no" "no")) "yes")
    with (false, false).
  apply inversion_loop. reflexivity.
Qed.

(** ** The events of a line *)

Ltac names_write :=
  apply keeps_modify;
  let d := fresh "d" in
  let new := fresh "new" in
  let E := fresh "E" in
  let F := fresh "F" in
  intros d (new & E & F);
  first
    [ exists new; split; [exact E | exact F]
    | eexists (new ++ [_]); split;
      [ norm_state; rewrite E, <- app_assoc; reflexivity
      | rewrite forallb_app, F; reflexivity ] ].

Ltac names_step :=
  lazymatch goal with
  | |- keeps _ (bind _ _) => apply keeps_bind; [ | intros ? ]
  | |- keeps _ (ret _) => apply keeps_ret
  | |- keeps _ (gets _) => apply keeps_gets
  | |- keeps _ (attr _ _) => apply keeps_attr
  | |- keeps _ (lift _) => apply keeps_lift
  | |- keeps _ (raise _) => apply keeps_raise
  | |- keeps _ (modify _) => names_write
  | |- keeps _ (if ?c then _ else _) => destruct c
  | |- keeps _ (match ?c with Some _ => _ | None => _ end) => destruct c
  end.

Lemma keeps_names_line (o : Options) (rxtx : line) (level inv : bool)
    (d0 : Decoder) :
  keeps (fun d' => exists new,
           out d' = out d0 ++ new /\ forallb (names_line rxtx) new = true)
    (inspect_sample o rxtx level inv).
Proof.
  unfold inspect_sample.
  apply keeps_bind; [apply keeps_gets | intros st].
  destruct rxtx, st;
    unfold wait_for_start_bit, get_start_bit, get_data_bits, get_parity_bit,
      get_stop_bits, putp, putg, putx, putpx, putbin, put;
    repeat names_step.
Qed.

Lemma names_line_not_stop (rxtx : line) (e : emitted) :
  names_line rxtx e = true -> stop_class e = false.
Proof.
  unfold names_line, stop_class.
  destruct (output e), (payload e) as [t l p | c texts | c bytes];
    try discriminate; try reflexivity.
  cbn [existsb]. intros H.
  destruct (Z.eqb_spec c 8) as [-> | _];
    [destruct rxtx; discriminate | ].
  destruct (Z.eqb_spec c 9) as [-> | _];
    [destruct rxtx; discriminate | reflexivity].
Qed.

Lemma names_line_no_stop (rxtx : line) (new : list emitted) :
  forallb (names_line rxtx) new = true -> existsb stop_class new = false.
Proof.
  induction new as [| e new IH]; [reflexivity | ].
  cbn [forallb existsb]. intros H. apply andb_prop in H as (He & Hnew).
  now rewrite (names_line_not_stop rxtx e He), IH.
Qed.

(** X15. Whatever a step of a line puts belongs to that line, however
    the step ends: the packets carry the number of the line, the dumps
    of bytes are that of the line or the common one, and the
    annotations are of the classes of the line for data, start bit,
    parity, parity error, warning and data bit.  The two classes
    declared for stop bits, 8 and 9, are never used: the annotation of a
    stop bit is put in the class of an accepted parity bit, 4 or 5. *)
Theorem step_puts_for_its_line (o : Options) (rxtx : line)
    (level inv : bool) (d : Decoder) :
  (exists new,
     out (snd (inspect_sample o rxtx level inv d)) = out d ++ new
     /\ forallb (names_line rxtx) new = true
     /\ existsb stop_class new = false)
  /\ (forall lo hi half,
        sel (state d) rxtx = GET_STOP_BITS ->
        half_bit d lo hi half ->
        In (mkEmitted (samplenum d - lo) (samplenum d + hi) OUTPUT_ANN
              (Annotation (line_id rxtx + 4)
                 ["Stop bit"; "Stop"; "T"]%string))
          (out (snd (inspect_sample o rxtx level inv d)))).
Proof.
  split.
  - destruct (keeps_names_line o rxtx level inv d d) as (new & E & F).
    { exists []. split; [now rewrite app_nil_r | reflexivity]. }
    exists new. split; [exact E | ]. split; [exact F | ].
    now apply (names_line_no_stop rxtx).
  - intros lo hi half Hst Hhalf.
    rewrite inspect_sample_at. cbv zeta. rewrite Hst. fold (seen level inv).
    destruct (seen level inv).
    + rewrite (get_stop_bits_valid _ _ lo hi half) by exact Hhalf.
      destruct rxtx; norm_all; rewrite !in_app_iff; cbn [In]; auto.
    + rewrite (get_stop_bits_invalid _ _ lo hi half) by exact Hhalf.
      destruct rxtx; norm_all; rewrite !in_app_iff; cbn [In]; auto.
Qed.

(** * The SPI flash tables *)

Lemma dict_set_last {V : Type} (k : Z) (v : V) (l : list (Z * V)) :
  Forall (fun kv => fst kv < k) l -> dict_set k v l = l ++ [(k, v)].
Proof.
  induction 1 as [| [k' v'] l Hk _ IH]; [reflexivity | ].
  cbn [dict_set app]. cbn [fst] in Hk.
  destruct (Z.eqb_spec k' k); [lia | ]. now rewrite IH.
Qed.

(** A list of items whose keys go up strictly is the dict it builds:
    nothing is replaced and the order is kept. *)
Lemma ordered_dict_sorted {V : Type} (items : list (Z * V)) :
  ascending (map fst items) -> ordered_dict items = items.
Proof.
  intros Hs. unfold ordered_dict.
  assert (G : forall acc,
            (forall a b, In a acc -> In b items -> fst a < fst b) ->
            fold_left (fun acc kv => dict_set (fst kv) (snd kv) acc) items acc
            = acc ++ items).
  { induction items as [| [k v] items IH]; intros acc Hlt.
    - cbn. now rewrite app_nil_r.
    - cbn [fold_left fst snd]. cbn [map ascending fst] in Hs.
      destruct Hs as (Hall & Hs').
      rewrite dict_set_last.
      + rewrite IH.
        * now rewrite <- app_assoc.
        * exact Hs'.
        * intros a b Ha Hb. apply in_app_or in Ha as [Ha | [<- | []]].
          -- apply Hlt; [exact Ha | now right].
          -- rewrite Forall_forall in Hall. apply Hall.
             now apply in_map.
      + apply Forall_forall. intros a Ha.
        apply (Hlt a (k, v) Ha). now left. }
  apply (G []). intros a b [].
Qed.

Lemma dict_get_sorted {V : Type} (items : list (Z * V)) (k : Z) (v : V) :
  ascending (map fst items) ->
  In (k, v) items -> dict_get k items = Some v.
Proof.
  induction items as [| [k' v'] items IH]; intros Hs Hin; [destruct Hin | ].
  cbn [dict_get]. cbn [map ascending fst] in Hs. destruct Hs as (Hall & Hs').
  destruct Hin as [E | Hin].
  - inversion E; subst. now rewrite Z.eqb_refl.
  - rewrite Forall_forall in Hall.
    pose proof (Hall k (in_map fst _ _ Hin)) as Hlt. cbn [fst] in Hlt.
    destruct (Z.eqb_spec k' k); [lia | ]. now apply IH.
Qed.

(** X16. [cmds] is sorted by command ID, as its comment asks: the IDs
    go up strictly and are bytes.  So no item of the list replaces an
    earlier one: the dict has the 25 items in the order of the list, and
    looking up the ID of an item gives its name and description. *)
Theorem cmds_sorted_by_id :
  ascending (map fst cmds)
  /\ Forall (fun id => 0 <= id <= 255) (map fst cmds)
  /\ cmds = cmds_items
  /\ (forall id entry, In (id, entry) cmds_items ->
        dict_get id cmds = Some entry).
Proof.
  assert (Hs : ascending (map fst cmds_items))
    by (cbn; repeat split; repeat constructor).
  assert (E : cmds = cmds_items) by (apply ordered_dict_sorted, Hs).
  rewrite E. split; [exact Hs | ]. split; [ | split; [reflexivity | ]].
  - repeat constructor; cbn; lia.
  - intros id entry Hin. now apply dict_get_sorted.
Qed.

(** X17. Every entry of [chips] is consistent: its key is the vendor
    and the model in lower case; [device_name] has the model under the
    vendor and [res_id]; the two REMS IDs are equal, end in [res_id] and
    start with the manufacturer byte of the RDID ID; a sector is a whole
    number of pages and a block a whole number of sectors.  No key
    occurs twice. *)
Theorem chips_consistent :
  Forall chip_consistent chips /\ NoDup (map fst chips).
Proof.
  split.
  - repeat constructor; try reflexivity.
    all: try (eexists; split; reflexivity).
    all: cbn; try (exists 16; reflexivity).
  - repeat constructor; cbn; intros H;
      repeat (destruct H as [H | H]; [discriminate | ]); exact H.
Qed.

(** * The further theorems at the concrete run *)

Lemma get_wait_cond_reads_only_witness :
  sel (state (set_state RX GET_START_BIT new_decoder)) RX
  <> WAIT_FOR_START_BIT
  /\ bit_width (set_state RX GET_START_BIT new_decoder) = None
  /\ fst (get_wait_cond default_options RX false
            (set_state RX GET_START_BIT new_decoder))
     = Raise (AttributeError "bit_width").
Proof.
  assert (H1 : sel (state (set_state RX GET_START_BIT new_decoder)) RX
               <> WAIT_FOR_START_BIT) by (vm_compute; discriminate).
  destruct (get_wait_cond_reads_only default_options RX false
              (set_state RX GET_START_BIT new_decoder)) as (_ & H).
  split; [exact H1 | ]. split; [reflexivity | ]. exact (H H1 eq_refl).
Defined.

Lemma decode_first_wait_witness :
  not_samplerate (samplerate (scenario_start scenario_options)) = false
  /\ rx_only RX = true
  /\ decode scenario_options rx_only [] (scenario_start scenario_options)
     = (Ok tt,
        set_waits [[Edge RX Falling]] (scenario_start scenario_options)).
Proof.
  assert (H1 : not_samplerate (samplerate (scenario_start scenario_options))
               = false) by (vm_compute; reflexivity).
  assert (H3 : forall l, rx_only l = true ->
                 sel (state (scenario_start scenario_options)) l
                 = WAIT_FOR_START_BIT)
    by (intros [ | ] _; vm_compute; reflexivity).
  destruct (decode_first_wait scenario_options rx_only []
              (scenario_start scenario_options) H1 (or_introl eq_refl) H3)
    as (_ & H).
  split; [exact H1 | ]. split; [reflexivity | ]. exact H.
Defined.

Lemma quiet_line_untouched_witness :
  rx_only TX = false
  /\ same_line (scenario_start scenario_options)
       (snd (decode scenario_options rx_only scenario_answers
               (scenario_start scenario_options)))
       TX.
Proof.
  split; [reflexivity | ].
  apply (quiet_line_untouched scenario_options rx_only scenario_answers
           (scenario_start scenario_options) TX).
  left. reflexivity.
Defined.

Lemma frame_decoded_witness :
  1 <= num_data_bits parity_options
  /\ decoder_ok parity_options 5 5 5 (scenario_start parity_options)
  /\ sel (state (scenario_start parity_options)) RX = WAIT_FOR_START_BIT
  /\ seen false false = false
  /\ Z.of_nat (List.length scenario_data) = num_data_bits parity_options
  /\ Forall (fun p => fst p <> -1) scenario_data
  /\ exists d',
       feed parity_options RX false
         ((100, false) :: (105, false) :: scenario_data
          ++ parity_samples parity_options (195, false) ++ [(205, true)])
         (scenario_start parity_options)
       = (Ok tt, d')
       /\ python_puts (out d')
          = [mkEmitted 100 110 OUTPUT_PYTHON (Packet "STARTBIT" 0 (PInt 0));
             mkEmitted 110 190 OUTPUT_PYTHON
               (Packet "DATA" 0
                  (PData 65
                     [(1, 110, 120); (0, 120, 130); (0, 130, 140);
                      (0, 140, 150); (0, 150, 160); (0, 160, 170);
                      (1, 170, 180); (0, 180, 190)]));
             mkEmitted 190 200 OUTPUT_PYTHON (Packet "PARITYBIT" 0 (PInt 0));
             mkEmitted 200 210 OUTPUT_PYTHON (Packet "STOPBIT" 0 (PInt 1))]
       /\ sel (state d') RX = WAIT_FOR_START_BIT
       /\ sel (frame_start d') RX = 100.
Proof.
  assert (H1 : 1 <= num_data_bits parity_options) by (simpl; lia).
  assert (H2 : decoder_ok parity_options 5 5 5
                 (scenario_start parity_options)).
  { split; [exists 10%float; vm_compute; repeat split | ].
    split; [vm_compute; reflexivity | ].
    split; concrete_line_inv. }
  assert (H3 : sel (state (scenario_start parity_options)) RX
               = WAIT_FOR_START_BIT) by (vm_compute; reflexivity).
  assert (H5 : Z.of_nat (List.length scenario_data)
               = num_data_bits parity_options) by (vm_compute; reflexivity).
  assert (H6 : Forall (fun p => fst p <> -1) scenario_data)
    by (repeat constructor; cbn; lia).
  destruct (frame_decoded parity_options RX false 5 5 5
              (scenario_start parity_options) (100, false) (105, false)
              scenario_data (195, false) (205, true) H1 H2 H3 eq_refl H5 H6)
    as (d' & Hrun & Hout & Hst & Hfs & _).
  split; [exact H1 | ]. split; [exact H2 | ]. split; [exact H3 | ].
  split; [reflexivity | ]. split; [exact H5 | ]. split; [exact H6 | ].
  exists d'. split; [exact Hrun | ].
  split; [rewrite Hout; vm_compute; reflexivity | ].
  split; [exact Hst | exact Hfs].
Defined.

Lemma data_group_output_witness :
  1 <= num_data_bits scenario_options
  /\ half_bit (arrive 185 (scenario scenario_options 9)) 5 5 5
  /\ bw (arrive 185 (scenario scenario_options 9))
     = Some ((num_data_bits scenario_options + 7) / 8)
  /\ line_inv scenario_options (arrive 185 (scenario scenario_options 9)) RX
  /\ sel (state (arrive 185 (scenario scenario_options 9))) RX = GET_DATA_BITS
  /\ sel (cur_data_bit (arrive 185 (scenario scenario_options 9))) RX + 1
     = num_data_bits scenario_options
  /\ exists d' bdata,
       inspect_sample scenario_options RX false false
         (arrive 185 (scenario scenario_options 9)) = (Ok tt, d')
       /\ from_bytes_big bdata = sel (datavalue d') RX
       /\ sel (datavalue d') RX = 65
       /\ Z.of_nat (List.length bdata) = 1.
Proof.
  assert (H1 : 1 <= num_data_bits scenario_options) by (simpl; lia).
  assert (H2 : half_bit (arrive 185 (scenario scenario_options 9)) 5 5 5)
    by (exists 10%float; vm_compute; repeat split).
  assert (H3 : bw (arrive 185 (scenario scenario_options 9))
               = Some ((num_data_bits scenario_options + 7) / 8))
    by (vm_compute; reflexivity).
  assert (H4 : line_inv scenario_options
                 (arrive 185 (scenario scenario_options 9)) RX)
    by concrete_line_inv.
  assert (H5 : sel (state (arrive 185 (scenario scenario_options 9))) RX
               = GET_DATA_BITS) by (vm_compute; reflexivity).
  assert (H6 : sel (cur_data_bit (arrive 185 (scenario scenario_options 9)))
                 RX + 1 = num_data_bits scenario_options)
    by (vm_compute; reflexivity).
  destruct (data_group_output scenario_options RX false false _ 5 5 5
              H1 H2 H3 H4 H5 H6) as (d' & bdata & Hrun & Hback & Hlen & _).
  split; [exact H1 | ]. split; [exact H2 | ]. split; [exact H3 | ].
  split; [exact H4 | ]. split; [exact H5 | ]. split; [exact H6 | ].
  exists d', bdata. split; [exact Hrun | ]. split; [exact Hback | ].
  split; [ | exact Hlen].
  apply (f_equal snd) in Hrun. cbn [snd] in Hrun. rewrite <- Hrun.
  vm_compute. reflexivity.
Defined.

Lemma parity_detects_one_flip_witness :
  0 <= 65
  /\ 0 <= 3
  /\ exists accepted,
       parity_ok "even" 0 65 8 = Some accepted
       /\ parity_ok "even" 0 (Z.lxor 65 (2 ^ 3)) 8 = Some (negb accepted)
       /\ parity_ok "even" 1 65 8 = Some (negb accepted).
Proof.
  assert (H1 : 0 <= 65) by lia.
  assert (H2 : 0 <= 3) by lia.
  destruct (parity_detects_one_flip "even" 0 65 8 3
              (or_intror eq_refl) (or_introl eq_refl) H1 H2)
    as (accepted & Ha & Hd & Hp & _).
  split; [exact H1 | ]. split; [exact H2 | ].
  exists accepted. split; [exact Ha | ]. split; [exact Hd | exact Hp].
Defined.

Lemma format_value_injective_witness :
  In (format default_options) format_values
  /\ 0 <= 65
  /\ 0 <= 60 + 5
  /\ format_value default_options 65 = format_value default_options (60 + 5)
  /\ 65 = 60 + 5.
Proof.
  assert (H1 : In (format default_options) format_values)
    by (simpl; auto).
  assert (H2 : 0 <= 65) by lia.
  assert (H3 : 0 <= 60 + 5) by lia.
  assert (H4 : format_value default_options 65
               = format_value default_options (60 + 5))
    by (vm_compute; reflexivity).
  split; [exact H1 | ]. split; [exact H2 | ]. split; [exact H3 | ].
  split; [exact H4 | ].
  exact (format_value_injective default_options 65 (60 + 5) H1 H2 H3 H4).
Defined.

Lemma metadata_edge_cases_witness :
  baudrate no_baud_options = 0
  /\ fst (metadata no_baud_options true 96000 new_decoder)
     = Raise ZeroDivisionError
  /\ samplerate (snd (metadata no_baud_options true 96000 new_decoder))
     = Some 96000
  /\ bit_width (snd (metadata no_baud_options true 96000 new_decoder)) = None
  /\ fst (decode scenario_options rx_only scenario_answers
            (snd (metadata scenario_options true 0 new_decoder)))
     = Raise (SamplerateError "Cannot decode without samplerate.").
Proof.
  destruct (metadata_edge_cases no_baud_options 96000 new_decoder)
    as (_ & Hs & Hb & _).
  destruct (Hb eq_refl) as (Hraise & Hw).
  destruct (metadata_edge_cases scenario_options 0 new_decoder)
    as (_ & _ & _ & Hd).
  split; [reflexivity | ].
  split; [rewrite Hraise; vm_compute; reflexivity | ].
  split; [exact Hs | ]. split; [rewrite Hw; reflexivity | ].
  now rewrite (Hd eq_refl rx_only scenario_answers).
Defined.

Lemma decode_asks_once_per_answer_witness :
  fst (decode scenario_options rx_only scenario_answers
         (scenario_start scenario_options)) = Ok tt
  /\ List.length
       (waits (snd (decode scenario_options rx_only scenario_answers
                      (scenario_start scenario_options))))
     = 12%nat
  /\ samplenum (snd (decode scenario_options rx_only scenario_answers
                       (scenario_start scenario_options)))
     = 195.
Proof.
  assert (H : fst (decode scenario_options rx_only scenario_answers
                     (scenario_start scenario_options)) = Ok tt)
    by (vm_compute; reflexivity).
  destruct (decode_asks_once_per_answer scenario_options rx_only
              scenario_answers (scenario_start scenario_options) H)
    as (Hw & Hs & _).
  split; [exact H | ]. split; [rewrite Hw; reflexivity | ].
  rewrite Hs. reflexivity.
Defined.

Lemma decode_single_line_witness :
  rx_only RX = true
  /\ rx_only (other RX) = false
  /\ Forall (fun a => nth_error (matched_flags a) 0 = Some true)
       scenario_answers
  /\ fst (decode scenario_options rx_only scenario_answers
            (scenario_start scenario_options)) = Ok tt
  /\ exists d_f,
       feed scenario_options RX false (map (sample_of RX) scenario_answers)
         (scenario_start scenario_options)
       = (Ok tt, d_f)
       /\ alike
            (snd (decode scenario_options rx_only scenario_answers
                    (scenario_start scenario_options)))
            d_f.
Proof.
  assert (H3 : Forall (fun a => nth_error (matched_flags a) 0 = Some true)
                 scenario_answers) by (repeat constructor).
  assert (H4 : fst (decode scenario_options rx_only scenario_answers
                      (scenario_start scenario_options)) = Ok tt)
    by (vm_compute; reflexivity).
  split; [reflexivity | ]. split; [reflexivity | ].
  split; [exact H3 | ]. split; [exact H4 | ].
  exact (decode_single_line scenario_options rx_only RX scenario_answers
           (scenario_start scenario_options) eq_refl eq_refl H3 H4).
Defined.

Lemma step_puts_for_its_line_witness :
  sel (state (arrive 195 (scenario scenario_options 10))) RX = GET_STOP_BITS
  /\ half_bit (arrive 195 (scenario scenario_options 10)) 5 5 5
  /\ In (mkEmitted 190 200 OUTPUT_ANN
           (Annotation 4 ["Stop bit"; "Stop"; "T"]%string))
       (out (snd (inspect_sample scenario_options RX true false
                    (arrive 195 (scenario scenario_options 10))))).
Proof.
  assert (H1 : sel (state (arrive 195 (scenario scenario_options 10))) RX
               = GET_STOP_BITS) by (vm_compute; reflexivity).
  assert (H2 : half_bit (arrive 195 (scenario scenario_options 10)) 5 5 5)
    by (exists 10%float; vm_compute; repeat split).
  destruct (step_puts_for_its_line scenario_options RX true false
              (arrive 195 (scenario scenario_options 10))) as (_ & H).
  split; [exact H1 | ]. split; [exact H2 | ].
  exact (H 5 5 5 H1 H2).
Defined.

Lemma cmds_sorted_by_id_witness :
  In (0x9f, ("RDID", "Read identification")%string) cmds_items
  /\ dict_get 0x9f cmds = Some ("RDID", "Read identification")%string.
Proof.
  assert (H : In (0x9f, ("RDID", "Read identification")%string) cmds_items)
    by (cbn; tauto).
  destruct cmds_sorted_by_id as (_ & _ & _ & Hget).
  split; [exact H | ]. exact (Hget _ _ H).
Defined.
